(** * Flight-dynamics engine of thongnhatdatnuoc: a shallow embedding

    The development embeds the class [AircraftPhysics] (the per-frame
    integrator, the control processor and the geofence subsystem), the
    helpers of [utils/math-helpers.ts] it calls and the constants of
    [config/config.ts].

    JavaScript numbers are idealised as real numbers: every arithmetic
    operation is the exact one, and no value is NaN or infinite.  Where a
    JavaScript primitive has no finite value (a negative base with a
    fractional exponent, for instance) the model picks a value and says so
    at the definition.  [Date.now()] and [performance.now()] are read from
    the environment in the source; here they are explicit arguments.

    Two layers are used.  The physics is written over plain values
    (records of reals), since the engine mutates objects it owns in place.
    The hand-out of snapshots to listeners is about object identity, so it
    is written over an explicit store of JavaScript objects
    (module [Store]). *)

From Stdlib Require Import Reals Lra List Bool.
From stdpp Require Import gmap strings.

Open Scope R_scope.

(** ** JavaScript [Math] and the remainder operator *)

Definition Rltb (a b : R) : bool := if Rlt_dec a b then true else false.
Definition Rleb (a b : R) : bool := if Rle_dec a b then true else false.
Definition Reqb (a b : R) : bool := if Req_dec_T a b then true else false.

(** [a || b] on numbers: [b] when [a] is zero. *)
Definition num_or (a b : R) : R := if Req_dec_T a 0 then b else a.

(** [Math.trunc]: the integer part toward zero. *)
Definition Math_trunc (a : R) : Z :=
  if Rle_dec 0 a then Int_part a else (- Int_part (- a))%Z.

(** [a % m]: the remainder of the truncated division, with the sign of [a]. *)
Definition js_rem (a m : R) : R := a - m * IZR (Math_trunc (a / m)).

Definition Math_sign (a : R) : R :=
  if Rlt_dec 0 a then 1 else if Rlt_dec a 0 then -1 else 0.

(** [Math.pow].  For a positive base it is the real power.  A zero base
    gives 0 for a positive exponent and 1 for a zero exponent.  In the
    remaining cases JavaScript yields Infinity, NaN or a signed integer
    power; the engine never reaches them from a state with a non-negative
    [speed], and the model returns 0 there. *)
Definition Math_pow (b e : R) : R :=
  if Rlt_dec 0 b then Rpower b e
  else if Req_dec_T b 0 then
         (if Rlt_dec 0 e then 0 else if Req_dec_T e 0 then 1 else 0)
       else 0.

(** [Math.atan2 y x], by quadrant. *)
Definition Math_atan2 (y x : R) : R :=
  if Rlt_dec 0 x then atan (y / x)
  else if Rlt_dec x 0 then
         (if Rle_dec 0 y then atan (y / x) + PI else atan (y / x) - PI)
       else if Rlt_dec 0 y then PI / 2
            else if Rlt_dec y 0 then - (PI / 2) else 0.

(** ** The parts of three.js the engine uses *)

Module MathUtils.
Definition degToRad (d : R) : R := d * (PI / 180).
Definition radToDeg (r : R) : R := r * (180 / PI).
End MathUtils.

Module Vector2.
Record t : Type := mk { x : R; y : R }.
Definition length (v : t) : R := sqrt (x v * x v + y v * y v).
Definition multiplyScalar (k : R) (v : t) : t := mk (x v * k) (y v * k).
Definition divideScalar (k : R) (v : t) : t := multiplyScalar (1 / k) v.
(** [normalize] divides by [length() || 1]: the zero vector stays zero. *)
Definition normalize (v : t) : t := divideScalar (num_or (length v) 1) v.
Definition dot (v w : t) : R := x v * x w + y v * y w.
End Vector2.

Module Vector3.
Record t : Type := mk { x : R; y : R; z : R }.
Definition length (v : t) : R := sqrt (x v * x v + y v * y v + z v * z v).
Definition multiplyScalar (k : R) (v : t) : t :=
  mk (x v * k) (y v * k) (z v * k).
Definition divideScalar (k : R) (v : t) : t := multiplyScalar (1 / k) v.
Definition normalize (v : t) : t := divideScalar (num_or (length v) 1) v.
Definition with_x (a : R) (v : t) : t := mk a (y v) (z v).
Definition with_y (a : R) (v : t) : t := mk (x v) a (z v).
Definition with_z (a : R) (v : t) : t := mk (x v) (y v) a.
Definition add (v w : t) : t := mk (x v + x w) (y v + y w) (z v + z w).
Definition sub (v w : t) : t := mk (x v - x w) (y v - y w) (z v - z w).
(** [v.lerp(w, alpha)]: each component moves by [alpha] of its distance
    to the target. *)
Definition lerp (w : t) (alpha : R) (v : t) : t :=
  mk (x v + (x w - x v) * alpha) (y v + (y w - y v) * alpha)
     (z v + (z w - z v) * alpha).
End Vector3.

(** An Euler triple; the order tag is always ['YXZ'] in the engine. *)
Module Euler.
Record t : Type := mk { x : R; y : R; z : R }.
Definition with_x (a : R) (v : t) : t := mk a (y v) (z v).
Definition with_y (a : R) (v : t) : t := mk (x v) a (z v).
Definition with_z (a : R) (v : t) : t := mk (x v) (y v) a.
End Euler.

(** [new Matrix4().makeRotationFromEuler(new Euler(0, yaw, 0, 'YXZ'))]
    applied to a vector: with pitch and roll zero the matrix is the
    rotation about the vertical axis,
    [[cos yaw, 0, sin yaw], [0, 1, 0], [-sin yaw, 0, cos yaw]]. *)
Definition applyYawMatrix (yaw : R) (v : Vector3.t) : Vector3.t :=
  Vector3.mk (cos yaw * Vector3.x v + sin yaw * Vector3.z v)
             (Vector3.y v)
             (- sin yaw * Vector3.x v + cos yaw * Vector3.z v).

(** ** config/config.ts *)

Module LngLat.
Record t : Type := mk { lng : R; lat : R }.
End LngLat.

Definition DEFAULT_CENTER : LngLat.t := LngLat.mk 106.636 10.811.

Module MAP_BOUNDARY.
Definition ENABLED : bool := true.
Definition RADIUS_KM : R := 10.
Definition CENTER : LngLat.t := DEFAULT_CENTER.
Definition FORCE_MULTIPLIER : R := 3.0.
Definition WARNING_THRESHOLD : R := 0.85.
Definition HARD_BOUNDARY : bool := true.
Definition DISTANCE_CHECK_INTERVAL : R := 100.
End MAP_BOUNDARY.

Module CHASE_CAMERA.
Inductive Mode : Type := CLOSE | MEDIUM | FAR.
Definition MODES (mode : Mode) : Vector3.t :=
  match mode with
  | CLOSE => Vector3.mk 0 20 (-40)
  | MEDIUM => Vector3.mk 0 50 (-100)
  | FAR => Vector3.mk 0 150 (-300)
  end.
Definition DEFAULT_MODE : Mode := MEDIUM.
Definition SMOOTHING_FACTOR : R := 0.01.
Definition COLLISION_AVOIDANCE_ENABLED : bool := false.
Definition PITCH_INFLUENCE : R := 0.2.
End CHASE_CAMERA.

Module THREE_JS.
Module CAMERA.
Definition DEFAULT_POSITION : Vector3.t := Vector3.mk 0 50 (-100).
End CAMERA.
End THREE_JS.

Module AIRCRAFT.
Definition DEFAULT_ALTITUDE : R := 0.
Definition MAX_SPEED : R := 2.0.
Definition MAX_THROTTLE : R := 0.5.
Definition THROTTLE_CHANGE_RATE : R := 0.01.
Definition MIN_THROTTLE_TO_MOVE : R := 0.01.
Module DECAY_RATES.
Definition HORIZONTAL : R := 0.5.
Definition VERTICAL : R := 0.2.
Definition THROTTLE : R := 0.2.
End DECAY_RATES.
Module CONTROLS.
Module INPUT.
Definition PITCH_VALUE : R := 0.8.
Definition ROLL_VALUE : R := 0.8.
Definition YAW_VALUE : R := 0.8.
Definition VERTICAL_THRUST_VALUE : R := 0.1.
Definition THROTTLE_VALUE : R := 0.5.
End INPUT.
Module BANK.
Definition TARGET_LEFT : R := -35.
Definition TARGET_RIGHT : R := 35.
Definition MOMENTUM_FACTOR : R := 0.3.
Definition MOMENTUM_DAMPENING : R := 0.7.
Definition ANGLE_BLEND_FACTOR : R := 0.15.
Definition ANGLE_RETENTION_FACTOR : R := 0.85.
Definition MIN_ANGLE_FOR_TURN : R := 5.
Definition STEEP_TURN_THRESHOLD : R := 25.
End BANK.
Module TURN.
Definition AIRSPEED_BASE_MULTIPLIER : R := 0.3.
Definition AIRSPEED_FACTOR : R := 0.3.
Definition MAX_TURN_RATE : R := 1.2.
Definition TURN_RATE_BASE_FACTOR : R := 0.2.
Definition TURN_RATE_BLEND_FACTOR : R := 0.3.
Definition TURN_RATE_RETENTION_FACTOR : R := 0.7.
Definition BANK_COMPENSATION_DIVISOR : R := 45.
Definition BANK_COMPENSATION_FACTOR : R := 0.2.
End TURN.
Module SMOOTHING.
Definition DECAY_FACTOR : R := 0.8.
End SMOOTHING.
Module NO_THROTTLE_DECAY.
Definition BANK_ANGLE_DECAY : R := 0.9.
Definition TARGET_BANK_DECAY : R := 0.9.
Definition BANK_MOMENTUM_DECAY : R := 0.8.
Definition TURN_YAW_RATE_DECAY : R := 0.8.
End NO_THROTTLE_DECAY.
End CONTROLS.
Module PHYSICS.
Module CONTROL_SENSITIVITY.
Definition PITCH : R := 0.07.
Definition ROLL : R := 0.07.
Definition YAW : R := 0.02.
End CONTROL_SENSITIVITY.
Definition MAX_ANGULAR_VELOCITY : R := 1.5.
Definition MAX_ROTATION : R := PI / 2.
Module STABILIZATION.
Definition RATE : R := 0.03.
Definition APPLY_TO_PITCH : bool := true.
Definition APPLY_TO_ROLL : bool := true.
End STABILIZATION.
Module BANKING.
Definition ROLL_VELOCITY_THRESHOLD : R := 0.001.
Module OSCILLATION.
Definition MAGNITUDE_FACTOR : R := 0.005.
Definition FREQUENCY : R := 500.
End OSCILLATION.
Module PITCH_COUPLING.
Definition MAGNITUDE_FACTOR : R := 0.002.
Definition YAW_VELOCITY_THRESHOLD : R := 0.2.
End PITCH_COUPLING.
End BANKING.
Module DAMPING.
Definition BASE_DAMPING : R := 0.95.
Definition SPEED_DEPENDENT_FACTOR : R := 0.05.
Definition SPEED_DIVISOR : R := 15.
Definition PHYSICS_RATE : R := 60.
End DAMPING.
Module FORWARD_MOVEMENT.
Definition THRUST_MULTIPLIER : R := 3.0.
Definition PITCH_INFLUENCE : R := 3.0.
End FORWARD_MOVEMENT.
Module ROLL_TURN.
Definition ROLL_FACTOR_EXPONENT : R := 1.2.
Definition ROLL_FACTOR_MULTIPLIER : R := 2.0.
Definition SPEED_INFLUENCE_BASE : R := 1.0.
Definition SPEED_INFLUENCE_FACTOR : R := 0.05.
Definition SPEED_INFLUENCE_MAX : R := 2.0.
End ROLL_TURN.
Module BANK_LIFT_LOSS.
Definition ANGLE_THRESHOLD : R := 0.7.
Definition VERTICAL_THRUST_THRESHOLD : R := 0.2.
Definition MAX_LOSS_FACTOR : R := 0.5.
End BANK_LIFT_LOSS.
Module VERTICAL_THRUST.
Definition MULTIPLIER : R := 3.0.
End VERTICAL_THRUST.
Module LOGGING.
Definition AIRCRAFT_INTERVAL : R := 2000.
End LOGGING.
End PHYSICS.
End AIRCRAFT.

Definition HORIZONTAL_DECAY_RATE : R := AIRCRAFT.DECAY_RATES.HORIZONTAL.
Definition VERTICAL_DECAY_RATE : R := AIRCRAFT.DECAY_RATES.VERTICAL.
Definition THROTTLE_DECAY_RATE : R := AIRCRAFT.DECAY_RATES.THROTTLE.
Definition MAX_SPEED : R := AIRCRAFT.MAX_SPEED.
Definition MAX_THROTTLE : R := AIRCRAFT.MAX_THROTTLE.
Definition THROTTLE_CHANGE_RATE : R := AIRCRAFT.THROTTLE_CHANGE_RATE.
Definition MIN_THROTTLE_TO_MOVE : R := AIRCRAFT.MIN_THROTTLE_TO_MOVE.

(** ** utils/math-helpers.ts *)

Record HPR : Type := mkHPR { hpr_heading : R; hpr_pitch : R; hpr_roll : R }.

(** Over the reals.  The sum [heading + 360] of the negative branch is
    returned without a final [% 360]; what rounding makes of it is the
    subject of [eulerToHPR_rounded]. *)
Definition eulerToHPR (euler : Euler.t) : HPR :=
  let heading := js_rem (MathUtils.radToDeg (Euler.y euler)) 360 in
  let pitch := MathUtils.radToDeg (Euler.x euler) in
  let roll := MathUtils.radToDeg (Euler.z euler) in
  let normalizedHeading := if Rlt_dec heading 0 then heading + 360 else heading in
  mkHPR normalizedHeading pitch roll.

Definition calculateGeoDistanceKm (lon1 lat1 lon2 lat2 : R) : R :=
  let R0 := 6371 in
  let dLat := MathUtils.degToRad (lat2 - lat1) in
  let dLon := MathUtils.degToRad (lon2 - lon1) in
  let a :=
    sin (dLat / 2) * sin (dLat / 2) +
    cos (MathUtils.degToRad lat1) * cos (MathUtils.degToRad lat2) *
    sin (dLon / 2) * sin (dLon / 2) in
  let c := 2 * Math_atan2 (sqrt a) (sqrt (1 - a)) in
  R0 * c.

Definition calculateGeoDirection (fromLon fromLat toLon toLat : R) : Vector2.t :=
  let dLon := toLon - fromLon in
  let dLat := toLat - fromLat in
  let length := sqrt (dLon * dLon + dLat * dLat) in
  if Req_dec_T length 0 then Vector2.mk 0 0
  else Vector2.mk (dLon / length) (dLat / length).

(** ** types/aircraft: the records the engine exchanges

    The declarations are imported by the engine; the fields are the ones
    the constructor of [AircraftPhysics] fills in. *)

Module AircraftControls.
Record t : Type := mk {
  pitch : R; roll : R; yaw : R; throttle : R; verticalThrust : R }.
End AircraftControls.

Module BoundaryStatus.
Record t : Type := mk {
  distanceToCenter : R;
  distanceToEdge : R;
  percentToEdge : R;
  isCrossingBoundary : bool;
  isNearBoundary : bool;
  directionToCenter : Vector2.t }.
End BoundaryStatus.

Module AircraftState.
Record t : Type := mk {
  position : Vector3.t;
  velocity : Vector3.t;
  speed : R;
  altitude : R;
  heading : R;
  pitch : R;
  roll : R;
  rotation : Euler.t;
  angularVelocity : Vector3.t;
  throttle : R;
  isFlying : bool;
  isGrounded : bool;
  mapPosition : LngLat.t;
  boundaryStatus : BoundaryStatus.t }.

Definition with_position (a : Vector3.t) (s : t) : t :=
  mk a (velocity s) (speed s) (altitude s) (heading s) (pitch s) (roll s)
     (rotation s) (angularVelocity s) (throttle s) (isFlying s)
     (isGrounded s) (mapPosition s) (boundaryStatus s).
Definition with_velocity (a : Vector3.t) (s : t) : t :=
  mk (position s) a (speed s) (altitude s) (heading s) (pitch s) (roll s)
     (rotation s) (angularVelocity s) (throttle s) (isFlying s)
     (isGrounded s) (mapPosition s) (boundaryStatus s).
Definition with_heading (a : R) (s : t) : t :=
  mk (position s) (velocity s) (speed s) (altitude s) a (pitch s) (roll s)
     (rotation s) (angularVelocity s) (throttle s) (isFlying s)
     (isGrounded s) (mapPosition s) (boundaryStatus s).
Definition with_rotation (a : Euler.t) (s : t) : t :=
  mk (position s) (velocity s) (speed s) (altitude s) (heading s) (pitch s)
     (roll s) a (angularVelocity s) (throttle s) (isFlying s)
     (isGrounded s) (mapPosition s) (boundaryStatus s).
Definition with_angularVelocity (a : Vector3.t) (s : t) : t :=
  mk (position s) (velocity s) (speed s) (altitude s) (heading s) (pitch s)
     (roll s) (rotation s) a (throttle s) (isFlying s)
     (isGrounded s) (mapPosition s) (boundaryStatus s).
Definition with_throttle (a : R) (s : t) : t :=
  mk (position s) (velocity s) (speed s) (altitude s) (heading s) (pitch s)
     (roll s) (rotation s) (angularVelocity s) a (isFlying s)
     (isGrounded s) (mapPosition s) (boundaryStatus s).
Definition with_mapPosition (a : LngLat.t) (s : t) : t :=
  mk (position s) (velocity s) (speed s) (altitude s) (heading s) (pitch s)
     (roll s) (rotation s) (angularVelocity s) (throttle s) (isFlying s)
     (isGrounded s) a (boundaryStatus s).
Definition with_boundaryStatus (a : BoundaryStatus.t) (s : t) : t :=
  mk (position s) (velocity s) (speed s) (altitude s) (heading s) (pitch s)
     (roll s) (rotation s) (angularVelocity s) (throttle s) (isFlying s)
     (isGrounded s) (mapPosition s) a.
End AircraftState.

(** A registered callback, named by its identity; the engine compares
    callbacks by identity in [removeUpdateListener]. *)
Definition PhysicsUpdateCallback : Type := nat.

(** One call [listener(state)] made by the engine. *)
Record Notification : Type := notified {
  callee : PhysicsUpdateCallback;
  snapshot : AircraftState.t }.

(** ** The private fields of [AircraftPhysics] *)

Module AircraftPhysics.
Record t : Type := mk {
  state : AircraftState.t;
  bankAngle : R;
  targetBankAngle : R;
  bankMomentum : R;
  turnYawRate : R;
  prevControls : AircraftControls.t;
  lastUpdateTime : R;
  _lastAircraftLog : option R;
  _lastBoundaryCheck : R;
  boundaryStatus : BoundaryStatus.t;
  updateListeners : list PhysicsUpdateCallback;
  hasUserInput : bool }.

Definition with_state (a : AircraftState.t) (e : t) : t :=
  mk a (bankAngle e) (targetBankAngle e) (bankMomentum e) (turnYawRate e)
     (prevControls e) (lastUpdateTime e) (_lastAircraftLog e)
     (_lastBoundaryCheck e) (boundaryStatus e) (updateListeners e)
     (hasUserInput e).
Definition with_lastUpdateTime (a : R) (e : t) : t :=
  mk (state e) (bankAngle e) (targetBankAngle e) (bankMomentum e)
     (turnYawRate e) (prevControls e) a (_lastAircraftLog e)
     (_lastBoundaryCheck e) (boundaryStatus e) (updateListeners e)
     (hasUserInput e).
Definition with__lastAircraftLog (a : option R) (e : t) : t :=
  mk (state e) (bankAngle e) (targetBankAngle e) (bankMomentum e)
     (turnYawRate e) (prevControls e) (lastUpdateTime e) a
     (_lastBoundaryCheck e) (boundaryStatus e) (updateListeners e)
     (hasUserInput e).
Definition with__lastBoundaryCheck (a : R) (e : t) : t :=
  mk (state e) (bankAngle e) (targetBankAngle e) (bankMomentum e)
     (turnYawRate e) (prevControls e) (lastUpdateTime e)
     (_lastAircraftLog e) a (boundaryStatus e) (updateListeners e)
     (hasUserInput e).
Definition with_boundaryStatus (a : BoundaryStatus.t) (e : t) : t :=
  mk (state e) (bankAngle e) (targetBankAngle e) (bankMomentum e)
     (turnYawRate e) (prevControls e) (lastUpdateTime e)
     (_lastAircraftLog e) (_lastBoundaryCheck e) a (updateListeners e)
     (hasUserInput e).
Definition with_updateListeners (a : list PhysicsUpdateCallback) (e : t) : t :=
  mk (state e) (bankAngle e) (targetBankAngle e) (bankMomentum e)
     (turnYawRate e) (prevControls e) (lastUpdateTime e)
     (_lastAircraftLog e) (_lastBoundaryCheck e) (boundaryStatus e) a
     (hasUserInput e).
Definition with_hasUserInput (a : bool) (e : t) : t :=
  mk (state e) (bankAngle e) (targetBankAngle e) (bankMomentum e)
     (turnYawRate e) (prevControls e) (lastUpdateTime e)
     (_lastAircraftLog e) (_lastBoundaryCheck e) (boundaryStatus e)
     (updateListeners e) a.
End AircraftPhysics.

Import AircraftPhysics (state, bankAngle, targetBankAngle, bankMomentum,
  turnYawRate, prevControls, lastUpdateTime, _lastAircraftLog,
  _lastBoundaryCheck, updateListeners, hasUserInput).

(** ** Construction, listeners, snapshots *)

(** [new AircraftPhysics(initialHeadingDegrees)]; [perfNow] is the value
    [performance.now()] returns at construction. *)
Definition constructor (initialHeadingDegrees perfNow : R) : AircraftPhysics.t :=
  let initialHeadingRadians := MathUtils.degToRad initialHeadingDegrees in
  let boundaryStatus := BoundaryStatus.mk 0 0 0 false false (Vector2.mk 0 0) in
  AircraftPhysics.mk
    (AircraftState.mk
       (Vector3.mk 0 AIRCRAFT.DEFAULT_ALTITUDE 0)
       (Vector3.mk 0 0 0)
       0
       AIRCRAFT.DEFAULT_ALTITUDE
       initialHeadingDegrees
       0
       0
       (Euler.mk 0 initialHeadingRadians 0)
       (Vector3.mk 0 0 0)
       0
       true
       false
       DEFAULT_CENTER
       boundaryStatus)
    0 0 0 0
    (AircraftControls.mk 0 0 0 0 0)
    perfNow
    None
    0
    boundaryStatus
    []
    false.

Definition onPhysicsUpdate (callback : PhysicsUpdateCallback)
    (e : AircraftPhysics.t) : AircraftPhysics.t :=
  AircraftPhysics.with_updateListeners (updateListeners e ++ [callback]) e.

(** [splice(indexOf(callback), 1)]: the first occurrence is removed. *)
Fixpoint remove_first (callback : PhysicsUpdateCallback)
    (l : list PhysicsUpdateCallback) : list PhysicsUpdateCallback :=
  match l with
  | [] => []
  | c :: l' => if Nat.eqb c callback then l' else c :: remove_first callback l'
  end.

Definition removeUpdateListener (callback : PhysicsUpdateCallback)
    (e : AircraftPhysics.t) : AircraftPhysics.t :=
  AircraftPhysics.with_updateListeners
    (remove_first callback (updateListeners e)) e.

(** [getState] at the level of values: the fields of the state as they
    are when the call is made.  Which objects the copy shares with the
    engine is the subject of module [Store]. *)
Definition getState (e : AircraftPhysics.t) : AircraftState.t := state e.

(** One snapshot is taken and handed to every listener, in registration
    order. *)
Definition notifyUpdateListeners (e : AircraftPhysics.t) : list Notification :=
  let state := getState e in
  map (fun listener => notified listener state) (updateListeners e).

Definition setHeading (headingDegrees : R) (e : AircraftPhysics.t)
    : AircraftPhysics.t * list Notification :=
  let normalizedHeading := js_rem (js_rem headingDegrees 360 + 360) 360 in
  let headingRadians := MathUtils.degToRad normalizedHeading in
  let s := state e in
  let s := AircraftState.with_heading normalizedHeading s in
  let s := AircraftState.with_rotation
             (Euler.with_y headingRadians (AircraftState.rotation s)) s in
  let e := AircraftPhysics.with_state s e in
  (e, notifyUpdateListeners e).

(** ** Control inputs *)

Section ProcessControls.
Import AIRCRAFT.CONTROLS.

(** The banking and coordinated-turn processor.  It returns the engine
    with its bank state and [prevControls] updated, and the controls
    [applyControlInputs] goes on with (the new [prevControls]). *)
Definition processControls (rawControls : AircraftControls.t)
    (e : AircraftPhysics.t) : AircraftPhysics.t * AircraftControls.t :=
  (* roll input drives the target bank angle and the bank momentum *)
  let '(targetBankAngle1, bankMomentum1) :=
    if Rlt_dec (AircraftControls.roll rawControls) 0 then
      (BANK.TARGET_LEFT, bankMomentum e - BANK.MOMENTUM_FACTOR)
    else if Rlt_dec 0 (AircraftControls.roll rawControls) then
      (BANK.TARGET_RIGHT, bankMomentum e + BANK.MOMENTUM_FACTOR)
    else
      (0, bankMomentum e * BANK.MOMENTUM_DAMPENING) in
  let coordinatedTurn : bool :=
    Rltb 0 (AircraftControls.throttle rawControls)
    || Rltb (AircraftControls.throttle rawControls) 0 in
  let processedControls := rawControls in
  let '(bankAngle2, targetBankAngle2, bankMomentum2, turnYawRate2, processedControls2) :=
    if coordinatedTurn
       && Rltb MIN_THROTTLE_TO_MOVE (AircraftState.throttle (state e)) then
      let bankAngle' :=
        bankAngle e * BANK.ANGLE_RETENTION_FACTOR +
        targetBankAngle1 * BANK.ANGLE_BLEND_FACTOR in
      let airspeedMultiplier :=
        TURN.AIRSPEED_BASE_MULTIPLIER +
        Rabs (AircraftState.throttle (state e)) * TURN.AIRSPEED_FACTOR in
      if Rlt_dec BANK.MIN_ANGLE_FOR_TURN (Rabs bankAngle') then
        let bankRadians := Rabs bankAngle' * (PI / 180) in
        let turnRate :=
          Rmin TURN.MAX_TURN_RATE
               (TURN.TURN_RATE_BASE_FACTOR * tan bankRadians * airspeedMultiplier) in
        let turnYawRate' :=
          turnYawRate e * TURN.TURN_RATE_RETENTION_FACTOR +
          turnRate * TURN.TURN_RATE_BLEND_FACTOR in
        let yaw' :=
          if Req_dec_T (AircraftControls.yaw processedControls) 0
          then Math_sign bankAngle' * turnYawRate'
          else AircraftControls.yaw processedControls in
        let pitch' :=
          if Rlt_dec BANK.STEEP_TURN_THRESHOLD (Rabs bankAngle') then
            if Req_dec_T (AircraftControls.pitch processedControls) 0 then
              let bankCompensation :=
                Rabs bankAngle' / TURN.BANK_COMPENSATION_DIVISOR *
                TURN.BANK_COMPENSATION_FACTOR in
              AircraftControls.pitch processedControls - bankCompensation
            else AircraftControls.pitch processedControls
          else AircraftControls.pitch processedControls in
        (bankAngle', targetBankAngle1, bankMomentum1, turnYawRate',
         AircraftControls.mk pitch'
           (AircraftControls.roll processedControls)
           yaw'
           (AircraftControls.throttle processedControls)
           (AircraftControls.verticalThrust processedControls))
      else
        (bankAngle', targetBankAngle1, bankMomentum1, turnYawRate e,
         processedControls)
    else
      (bankAngle e * NO_THROTTLE_DECAY.BANK_ANGLE_DECAY,
       targetBankAngle1 * NO_THROTTLE_DECAY.TARGET_BANK_DECAY,
       bankMomentum1 * NO_THROTTLE_DECAY.BANK_MOMENTUM_DECAY,
       turnYawRate e * NO_THROTTLE_DECAY.TURN_YAW_RATE_DECAY,
       processedControls) in
  (* smoothing: a zero input decays from the previous processed value *)
  let smooth (now prev : R) : R :=
    if Req_dec_T now 0 then prev * SMOOTHING.DECAY_FACTOR else now in
  let prev := prevControls e in
  let prevControls' :=
    AircraftControls.mk
      (smooth (AircraftControls.pitch processedControls2)
              (AircraftControls.pitch prev))
      (smooth (AircraftControls.roll processedControls2)
              (AircraftControls.roll prev))
      (smooth (AircraftControls.yaw processedControls2)
              (AircraftControls.yaw prev))
      (AircraftControls.throttle processedControls2)
      (smooth (AircraftControls.verticalThrust processedControls2)
              (AircraftControls.verticalThrust prev)) in
  (AircraftPhysics.mk (state e) bankAngle2 targetBankAngle2 bankMomentum2
     turnYawRate2 prevControls' (lastUpdateTime e) (_lastAircraftLog e)
     (_lastBoundaryCheck e) (AircraftPhysics.boundaryStatus e)
     (updateListeners e) (hasUserInput e),
   prevControls').
End ProcessControls.

(** [Math.max(-m, Math.min(m, a))]. *)
Definition clampSym (m a : R) : R := Rmax (- m) (Rmin m a).

Definition applyControlInputs (rawControls : AircraftControls.t)
    (e : AircraftPhysics.t) : AircraftPhysics.t :=
  let '(e, controls) := processControls rawControls e in
  let e := AircraftPhysics.with_hasUserInput true e in
  let s := state e in
  (* control inputs feed the angular velocity *)
  let av := AircraftState.angularVelocity s in
  let avx := Vector3.x av +
             AircraftControls.pitch controls * AIRCRAFT.PHYSICS.CONTROL_SENSITIVITY.PITCH in
  let avz := Vector3.z av +
             AircraftControls.roll controls * AIRCRAFT.PHYSICS.CONTROL_SENSITIVITY.ROLL in
  let avy := Vector3.y av +
             AircraftControls.yaw controls * AIRCRAFT.PHYSICS.CONTROL_SENSITIVITY.YAW in
  let av :=
    Vector3.mk (clampSym AIRCRAFT.PHYSICS.MAX_ANGULAR_VELOCITY avx)
               (clampSym AIRCRAFT.PHYSICS.MAX_ANGULAR_VELOCITY avy)
               (clampSym AIRCRAFT.PHYSICS.MAX_ANGULAR_VELOCITY avz) in
  let s := AircraftState.with_angularVelocity av s in
  (* throttle *)
  let s :=
    if Req_dec_T (AircraftControls.throttle controls) 0 then s
    else
      let throttleChange := AircraftControls.throttle controls * THROTTLE_CHANGE_RATE in
      AircraftState.with_throttle
        (Rmax 0 (Rmin MAX_THROTTLE (AircraftState.throttle s + throttleChange))) s in
  (* rotation clamps *)
  let r := AircraftState.rotation s in
  let r := Euler.with_x (clampSym AIRCRAFT.PHYSICS.MAX_ROTATION (Euler.x r)) r in
  let r := Euler.with_z (clampSym AIRCRAFT.PHYSICS.MAX_ROTATION (Euler.z r)) r in
  let s := AircraftState.with_rotation r s in
  AircraftPhysics.with_state s e.

(** ** The geofence *)

Definition updateBoundaryStatus (e : AircraftPhysics.t) : AircraftPhysics.t :=
  if negb MAP_BOUNDARY.ENABLED then e else
  let mapPosition := AircraftState.mapPosition (state e) in
  let distanceToCenter :=
    calculateGeoDistanceKm (LngLat.lng mapPosition) (LngLat.lat mapPosition)
      (LngLat.lng MAP_BOUNDARY.CENTER) (LngLat.lat MAP_BOUNDARY.CENTER) in
  let distanceToEdge := MAP_BOUNDARY.RADIUS_KM - distanceToCenter in
  let percentToEdge := distanceToCenter / MAP_BOUNDARY.RADIUS_KM in
  let directionVector :=
    calculateGeoDirection (LngLat.lng mapPosition) (LngLat.lat mapPosition)
      (LngLat.lng MAP_BOUNDARY.CENTER) (LngLat.lat MAP_BOUNDARY.CENTER) in
  let directionToCenter :=
    Vector2.mk (- Vector2.x directionVector) (- Vector2.y directionVector) in
  let boundaryStatus :=
    BoundaryStatus.mk distanceToCenter distanceToEdge percentToEdge
      (Rleb distanceToEdge 0)
      (Rleb MAP_BOUNDARY.WARNING_THRESHOLD percentToEdge && Rltb percentToEdge 1)
      directionToCenter in
  AircraftPhysics.with_state
    (AircraftState.with_boundaryStatus boundaryStatus (state e))
    (AircraftPhysics.with_boundaryStatus boundaryStatus e).

Definition updateMapPosition (mapPosition : LngLat.t) (e : AircraftPhysics.t)
    : AircraftPhysics.t :=
  let e := AircraftPhysics.with_state
             (AircraftState.with_mapPosition mapPosition (state e)) e in
  if MAP_BOUNDARY.ENABLED then updateBoundaryStatus e else e.

Definition applyBoundaryForce (forceMagnitude deltaTime : R)
    (e : AircraftPhysics.t) : AircraftPhysics.t :=
  if Rle_dec forceMagnitude 0 then e else
  let d := BoundaryStatus.directionToCenter (AircraftPhysics.boundaryStatus e) in
  let forceDirection :=
    Vector3.normalize (Vector3.mk (Vector2.x d) 0 (Vector2.y d)) in
  let v := AircraftState.velocity (state e) in
  let v := Vector3.with_x
             (Vector3.x v + Vector3.x forceDirection * forceMagnitude * deltaTime * 5) v in
  let v := Vector3.with_z
             (Vector3.z v + Vector3.z forceDirection * forceMagnitude * deltaTime * 5) v in
  AircraftPhysics.with_state (AircraftState.with_velocity v (state e)) e.

Definition applyBoundaryForces (deltaTime : R) (e : AircraftPhysics.t)
    : AircraftPhysics.t :=
  if negb MAP_BOUNDARY.ENABLED then e else
  let status := AircraftPhysics.boundaryStatus e in
  if BoundaryStatus.isCrossingBoundary status then
    if MAP_BOUNDARY.HARD_BOUNDARY then
      let mapPosition := AircraftState.mapPosition (state e) in
      let dirToAircraft :=
        Vector2.mk (LngLat.lng mapPosition - LngLat.lng MAP_BOUNDARY.CENTER)
                   (LngLat.lat mapPosition - LngLat.lat MAP_BOUNDARY.CENTER) in
      let currentDistance := Vector2.length dirToAircraft in
      if Rlt_dec 0 currentDistance then
        let boundaryRadius := MAP_BOUNDARY.RADIUS_KM * 0.00009 in
        let safeRadius := boundaryRadius * 0.99 in
        (* [normalized] is scaled in place, and it is the scaled vector
           that [boundaryNormal] names further down *)
        let normalized :=
          Vector2.multiplyScalar safeRadius (Vector2.normalize dirToAircraft) in
        let newLng := LngLat.lng MAP_BOUNDARY.CENTER + Vector2.x normalized in
        let newLat := LngLat.lat MAP_BOUNDARY.CENTER + Vector2.y normalized in
        let s := AircraftState.with_mapPosition (LngLat.mk newLng newLat) (state e) in
        let v := AircraftState.velocity s in
        let velocityDirection :=
          Vector2.normalize (Vector2.mk (Vector3.x v) (Vector3.z v)) in
        let boundaryNormal := normalized in
        let dotProduct := Vector2.dot velocityDirection boundaryNormal in
        let s :=
          if Rlt_dec 0 dotProduct then
            let outwardComponent := dotProduct * Vector2.length velocityDirection in
            let reflectionFactor := 1.2 in
            let dampingFactor := 0.8 in
            let v := Vector3.with_x
                       (Vector3.x v - Vector2.x boundaryNormal * outwardComponent *
                                      reflectionFactor * dampingFactor) v in
            let v := Vector3.with_z
                       (Vector3.z v - Vector2.y boundaryNormal * outwardComponent *
                                      reflectionFactor * dampingFactor) v in
            AircraftState.with_velocity v s
          else s in
        AircraftPhysics.with_state s e
      else e
    else
      let forceMagnitude :=
        Rabs (BoundaryStatus.distanceToEdge status) * MAP_BOUNDARY.FORCE_MULTIPLIER * 5 in
      applyBoundaryForce forceMagnitude deltaTime e
  else if BoundaryStatus.isNearBoundary status then
    let boundaryProximity :=
      (BoundaryStatus.percentToEdge status - MAP_BOUNDARY.WARNING_THRESHOLD) /
      (1 - MAP_BOUNDARY.WARNING_THRESHOLD) in
    let forceMagnitude := boundaryProximity * MAP_BOUNDARY.FORCE_MULTIPLIER * 2 in
    applyBoundaryForce forceMagnitude deltaTime e
  else e.

(** ** The integrator

    [updateAircraftPhysics] is one method in the source.  Its body is a
    sequence of commented blocks, each of which reads and writes
    [this.state]; every block is a function here, named after its
    comment, and [updateAircraftPhysics] composes them in source order. *)

Section Integrator.
Import AIRCRAFT.PHYSICS.
Variable deltaTime : R.

(** "Apply rotation from angular velocity", with the banking
    oscillation and the pitch coupling. *)
Definition applyRotation (now : R) (s : AircraftState.t) : AircraftState.t :=
  let av := AircraftState.angularVelocity s in
  let r := AircraftState.rotation s in
  let r := Euler.mk (Euler.x r + Vector3.x av * deltaTime)
                    (Euler.y r + Vector3.y av * deltaTime)
                    (Euler.z r + Vector3.z av * deltaTime) in
  let r :=
    if Rlt_dec BANKING.ROLL_VELOCITY_THRESHOLD (Rabs (Vector3.z av)) then
      let rollDirection := Math_sign (Vector3.z av) in
      let rollMagnitude := Rabs (Vector3.z av) in
      let oscillationAmount :=
        rollMagnitude * BANKING.OSCILLATION.MAGNITUDE_FACTOR *
        sin (now / BANKING.OSCILLATION.FREQUENCY) in
      let r := Euler.with_z (Euler.z r + oscillationAmount) r in
      if Rlt_dec (Rabs (Vector3.y av)) BANKING.PITCH_COUPLING.YAW_VELOCITY_THRESHOLD then
        let pitchCoupling :=
          Rabs rollMagnitude * BANKING.PITCH_COUPLING.MAGNITUDE_FACTOR *
          - rollDirection in
        Euler.with_x (Euler.x r + pitchCoupling) r
      else r
    else r in
  AircraftState.with_rotation r s.

(** "Apply variable damping to angular velocity". *)
Definition applyAngularDamping (s : AircraftState.t) : AircraftState.t :=
  let speedFactor := Rmin 1 (AircraftState.speed s / DAMPING.SPEED_DIVISOR) in
  let speedDependentDamping :=
    DAMPING.BASE_DAMPING + DAMPING.SPEED_DEPENDENT_FACTOR * speedFactor in
  let k := Math_pow speedDependentDamping (deltaTime * DAMPING.PHYSICS_RATE) in
  let av := AircraftState.angularVelocity s in
  AircraftState.with_angularVelocity
    (Vector3.mk (Vector3.x av * k) (Vector3.y av * k) (Vector3.z av * k)) s.

(** "Calculate forces based on orientation and throttle". *)
Definition applyThrust (prevVerticalThrust : R) (s : AircraftState.t)
    : AircraftState.t :=
  let yaw := Euler.y (AircraftState.rotation s) in
  let forwardVector := applyYawMatrix yaw (Vector3.mk 0 0 (-1)) in
  let rightVector := applyYawMatrix yaw (Vector3.mk 1 0 0) in
  if Rlt_dec MIN_THROTTLE_TO_MOVE (AircraftState.throttle s) then
    let v := AircraftState.velocity s in
    let forwardThrust :=
      AircraftState.throttle s * FORWARD_MOVEMENT.THRUST_MULTIPLIER in
    let vx := Vector3.x v + Vector3.x forwardVector * forwardThrust * deltaTime in
    let vz := Vector3.z v + Vector3.z forwardVector * forwardThrust * deltaTime in
    let pitchFactor :=
      Euler.x (AircraftState.rotation s) * FORWARD_MOVEMENT.PITCH_INFLUENCE in
    let rollRadians := Euler.z (AircraftState.rotation s) in
    let rollFactor :=
      - Math_sign rollRadians *
      Math_pow (Rabs rollRadians * ROLL_TURN.ROLL_FACTOR_MULTIPLIER)
               ROLL_TURN.ROLL_FACTOR_EXPONENT in
    let vx := vx + Vector3.x forwardVector * pitchFactor * deltaTime in
    let vz := vz + Vector3.z forwardVector * pitchFactor * deltaTime in
    let speedInfluence :=
      ROLL_TURN.SPEED_INFLUENCE_BASE +
      AircraftState.speed s / 20 * ROLL_TURN.SPEED_INFLUENCE_FACTOR in
    let adjustedSpeedInfluence := Rmin speedInfluence ROLL_TURN.SPEED_INFLUENCE_MAX in
    let vx := vx + Vector3.x rightVector * rollFactor * deltaTime * adjustedSpeedInfluence in
    let vz := vz + Vector3.z rightVector * rollFactor * deltaTime * adjustedSpeedInfluence in
    let vy :=
      if Rlt_dec BANK_LIFT_LOSS.ANGLE_THRESHOLD (Rabs rollRadians) then
        if Rlt_dec prevVerticalThrust BANK_LIFT_LOSS.VERTICAL_THRUST_THRESHOLD then
          let liftLoss :=
            (1 - cos (Rabs rollRadians)) * BANK_LIFT_LOSS.MAX_LOSS_FACTOR in
          Vector3.y v - liftLoss * deltaTime
        else Vector3.y v
      else Vector3.y v in
    AircraftState.with_velocity (Vector3.mk vx vy vz) s
  else s.

(** "Apply vertical movement based on verticalThrust". *)
Definition applyVerticalThrust (prevVerticalThrust : R) (s : AircraftState.t)
    : AircraftState.t :=
  if Req_dec_T prevVerticalThrust 0 then s
  else
    let verticalForce := prevVerticalThrust * VERTICAL_THRUST.MULTIPLIER in
    let v := AircraftState.velocity s in
    AircraftState.with_velocity
      (Vector3.with_y (Vector3.y v + verticalForce * deltaTime) v) s.

(** "Apply the drag forces to each component of velocity". *)
Definition applyDrag (s : AircraftState.t) : AircraftState.t :=
  let v := AircraftState.velocity s in
  AircraftState.with_velocity
    (Vector3.mk (Vector3.x v * (1 - HORIZONTAL_DECAY_RATE * deltaTime))
                (Vector3.y v * (1 - VERTICAL_DECAY_RATE * deltaTime))
                (Vector3.z v * (1 - HORIZONTAL_DECAY_RATE * deltaTime))) s.

(** "Apply throttle decay when there's no user input and throttle is
    active". *)
Definition applyThrottleDecay (hasUserInput : bool) (s : AircraftState.t)
    : AircraftState.t :=
  if negb hasUserInput then
    if Rlt_dec 0 (AircraftState.throttle s) then
      AircraftState.with_throttle
        (Rmax 0 (AircraftState.throttle s - THROTTLE_DECAY_RATE * deltaTime)) s
    else s
  else s.

(** "Apply speed limit". *)
Definition applySpeedLimit (s : AircraftState.t) : AircraftState.t :=
  let currentSpeed := Vector3.length (AircraftState.velocity s) in
  if Rlt_dec MAX_SPEED currentSpeed then
    AircraftState.with_velocity
      (Vector3.multiplyScalar MAX_SPEED
         (Vector3.normalize (AircraftState.velocity s))) s
  else s.

(** "Apply auto-stabilization if there's no user input". *)
Definition applyStabilization (hasUserInput : bool) (s : AircraftState.t)
    : AircraftState.t :=
  if negb hasUserInput then
    let k := Math_pow (1 - STABILIZATION.RATE) (deltaTime * DAMPING.PHYSICS_RATE) in
    let r := AircraftState.rotation s in
    let r := if STABILIZATION.APPLY_TO_PITCH
             then Euler.with_x (Euler.x r * k) r else r in
    let r := if STABILIZATION.APPLY_TO_ROLL
             then Euler.with_z (Euler.z r * k) r else r in
    AircraftState.with_rotation r s
  else s.

(** "Update position based on velocity". *)
Definition integratePosition (s : AircraftState.t) : AircraftState.t :=
  let p := AircraftState.position s in
  let v := AircraftState.velocity s in
  AircraftState.with_position
    (Vector3.mk (Vector3.x p + Vector3.x v * deltaTime)
                (Vector3.y p + Vector3.y v * deltaTime)
                (Vector3.z p + Vector3.z v * deltaTime)) s.

(** "Enforce ground collision". *)
Definition enforceGroundCollision (s : AircraftState.t) : AircraftState.t :=
  if Rlt_dec (Vector3.y (AircraftState.position s)) 0 then
    let s := AircraftState.with_position
               (Vector3.with_y 0 (AircraftState.position s)) s in
    let v := AircraftState.velocity s in
    if Rlt_dec (Vector3.y v) (-0.5) then
      let v := Vector3.with_y (Rabs (Vector3.y v) * 0.1) v in
      let v := Vector3.with_x (Vector3.x v * 0.8) v in
      let v := Vector3.with_z (Vector3.z v * 0.8) v in
      AircraftState.with_velocity v s
    else
      AircraftState.with_velocity (Vector3.with_y 0 v) s
  else s.

(** "Update state properties from Three.js properties". *)
Definition updateDerivedFields (s : AircraftState.t) : AircraftState.t :=
  let hpr := eulerToHPR (AircraftState.rotation s) in
  let isGrounded := Rleb (Vector3.y (AircraftState.position s)) 0.5 in
  AircraftState.mk
    (AircraftState.position s)
    (AircraftState.velocity s)
    (Vector3.length (AircraftState.velocity s))
    (Vector3.y (AircraftState.position s))
    (hpr_heading hpr)
    (hpr_pitch hpr)
    (hpr_roll hpr)
    (AircraftState.rotation s)
    (AircraftState.angularVelocity s)
    (AircraftState.throttle s)
    (negb isGrounded)
    isGrounded
    (AircraftState.mapPosition s)
    (AircraftState.boundaryStatus s).

(** "Log aircraft movement periodically": the console output is not
    modelled, the time of the last log is.  [!this._lastAircraftLog]
    holds for [undefined] and for 0. *)
Definition logDue (now : R) (last : option R) : bool :=
  match last with
  | None => true
  | Some l => Reqb l 0 || Rltb LOGGING.AIRCRAFT_INTERVAL (now - l)
  end.

Definition updateAircraftPhysics (now : R) (e : AircraftPhysics.t)
    : AircraftPhysics.t :=
  let vt := AircraftControls.verticalThrust (prevControls e) in
  let s := state e in
  let s := applyRotation now s in
  let s := applyAngularDamping s in
  let s := applyThrust vt s in
  let s := applyVerticalThrust vt s in
  let s := applyDrag s in
  let s := applyThrottleDecay (hasUserInput e) s in
  let s := applySpeedLimit s in
  let s := applyStabilization (hasUserInput e) s in
  let s := integratePosition s in
  let s := enforceGroundCollision s in
  let s := updateDerivedFields s in
  let e := AircraftPhysics.with_state s e in
  if logDue now (_lastAircraftLog e)
  then AircraftPhysics.with__lastAircraftLog (Some now) e
  else e.
End Integrator.

(** ** One frame *)

(** "Check if we need to update the boundary status": the status is
    recomputed when more than [DISTANCE_CHECK_INTERVAL] ms have passed
    since the last recomputation. *)
Definition checkBoundaryStatus (now : R) (e : AircraftPhysics.t) : AircraftPhysics.t :=
  if MAP_BOUNDARY.ENABLED
     && Rltb MAP_BOUNDARY.DISTANCE_CHECK_INTERVAL (now - _lastBoundaryCheck e)
  then AircraftPhysics.with__lastBoundaryCheck now (updateBoundaryStatus e)
  else e.

(** "Apply boundary forces if needed": when the cached status is near
    or crossing. *)
Definition applyBoundaryForcesIfNeeded (deltaTime : R) (e : AircraftPhysics.t)
    : AircraftPhysics.t :=
  if MAP_BOUNDARY.ENABLED
     && (BoundaryStatus.isNearBoundary (AircraftPhysics.boundaryStatus e)
         || BoundaryStatus.isCrossingBoundary (AircraftPhysics.boundaryStatus e))
  then applyBoundaryForces deltaTime e
  else e.

(** [update(currentTime)]; [now] is what [Date.now()] returns during the
    call.  The second component lists the listener calls made. *)
Definition update (currentTime now : R) (e : AircraftPhysics.t)
    : AircraftPhysics.t * list Notification :=
  let deltaTime := (currentTime - lastUpdateTime e) / 1000 in
  let e := AircraftPhysics.with_lastUpdateTime currentTime e in
  if Rlt_dec 0.1 deltaTime then (e, []) else
  let e := checkBoundaryStatus now e in
  let e := updateAircraftPhysics deltaTime now e in
  let e := applyBoundaryForcesIfNeeded deltaTime e in
  let notifications := notifyUpdateListeners e in
  (AircraftPhysics.with_hasUserInput false e, notifications).

(** ** Sequences of calls on the public interface *)

Inductive Call : Type :=
| ApplyControlInputs (rawControls : AircraftControls.t)
| Update (currentTime now : R)
| SetHeading (headingDegrees : R)
| UpdateMapPosition (mapPosition : LngLat.t)
| OnPhysicsUpdate (callback : PhysicsUpdateCallback)
| RemoveUpdateListener (callback : PhysicsUpdateCallback).

Definition call (c : Call) (e : AircraftPhysics.t)
    : AircraftPhysics.t * list Notification :=
  match c with
  | ApplyControlInputs rawControls => (applyControlInputs rawControls e, [])
  | Update currentTime now => update currentTime now e
  | SetHeading headingDegrees => setHeading headingDegrees e
  | UpdateMapPosition mapPosition => (updateMapPosition mapPosition e, [])
  | OnPhysicsUpdate callback => (onPhysicsUpdate callback e, [])
  | RemoveUpdateListener callback => (removeUpdateListener callback e, [])
  end.

(** The engine after a sequence of calls, first call first. *)
Fixpoint run (calls : list Call) (e : AircraftPhysics.t) : AircraftPhysics.t :=
  match calls with
  | [] => e
  | c :: rest => run rest (fst (call c e))
  end.

(** The timestamps given to [update] never go back: each is at least the
    time of the previous update (or of construction). *)
Fixpoint monotoneTimestamps (calls : list Call) (e : AircraftPhysics.t) : Prop :=
  match calls with
  | [] => True
  | c :: rest =>
      match c with
      | Update currentTime _ => lastUpdateTime e <= currentTime
      | _ => True
      end /\ monotoneTimestamps rest (fst (call c e))
  end.

(** [n] consecutive frames [deltaTime] seconds apart with no call of
    [applyControlInputs] in between; [clock k] is [Date.now()] during
    frame number [k], counted from 0. *)
Fixpoint idleTicks (n : nat) (deltaTime : R) (clock : nat -> R)
    (e : AircraftPhysics.t) : AircraftPhysics.t :=
  match n with
  | O => e
  | S k =>
      let e := idleTicks k deltaTime clock e in
      fst (update (lastUpdateTime e + deltaTime * 1000) (clock k) e)
  end.

(** The order of section 4.2 of the specification, steps 3 to 15: the
    boundary forces first, the integration of the aircraft forces after.
    Everything else is as in [update]. *)
Definition update_boundary_first (currentTime now : R) (e : AircraftPhysics.t)
    : AircraftPhysics.t * list Notification :=
  let deltaTime := (currentTime - lastUpdateTime e) / 1000 in
  let e := AircraftPhysics.with_lastUpdateTime currentTime e in
  if Rlt_dec 0.1 deltaTime then (e, []) else
  let e := checkBoundaryStatus now e in
  let e := applyBoundaryForcesIfNeeded deltaTime e in
  let e := updateAircraftPhysics deltaTime now e in
  let notifications := notifyUpdateListeners e in
  (AircraftPhysics.with_hasUserInput false e, notifications).

(** ** Snapshots and object identity

    [this.state] is a JavaScript object whose [position], [velocity],
    [rotation], [angularVelocity], [mapPosition] and [boundaryStatus]
    properties hold references to further objects.  The store maps
    locations to objects, an object maps property names to values. *)

Module Store.
Abbreviation loc := positive (only parsing).

Inductive value : Type :=
| Num (r : R)
| Boolean (b : bool)
| Ref (l : loc).

Abbreviation object := (gmap string value) (only parsing).
Abbreviation heap := (gmap positive (gmap string value)) (only parsing).

Definition alloc (o : object) (h : heap) : loc * heap :=
  let l := fresh (dom h) in (l, <[l := o]> h).

(** *** Reading a state out of the store *)

Definition getRef (o : object) (p : string) : option loc :=
  match o !! p with Some (Ref l) => Some l | _ => None end.







(** *** The store the constructor builds

    Eight objects: the state and the seven objects it refers to,
    directly or through [boundaryStatus]. *)



(** *** [getState] and the listeners *)

(** [{ ...this.state }]: a new object with the properties of the state
    object, each holding the value the state object holds. *)
Definition getState (state : loc) (h : heap) : loc * heap :=
  alloc (default ∅ (h !! state)) h.

(** What a listener does to its argument: assignments
    [state.p1. ... .pn.prop = v], where [state] is the parameter of
    the callback. *)
Record Assignment : Type := assign {
  path : list string;
  prop : string;
  rhs : value }.

Fixpoint resolve (h : heap) (l : loc) (path : list string) : option loc :=
  match path with
  | [] => Some l
  | p :: rest => o ← h !! l; l' ← getRef o p; resolve h l' rest
  end.

(** An assignment whose path does not lead to an object throws; the
    store is then as the assignments before it left it. *)
Definition execAssignment (arg : loc) (a : Assignment) (h : heap) : option heap :=
  l ← resolve h arg (path a);
  Some (alter (insert (prop a) (rhs a)) l h).

Definition Listener : Type := list Assignment.

Fixpoint runListener (body : Listener) (arg : loc) (h : heap) : heap * bool :=
  match body with
  | [] => (h, true)
  | a :: rest =>
      match execAssignment arg a h with
      | Some h' => runListener rest arg h'
      | None => (h, false)
      end
  end.

(** [for (const listener of this.updateListeners) listener(state)]:
    an exception leaves the loop. *)
Fixpoint callListeners (listeners : list Listener) (arg : loc) (h : heap) : heap :=
  match listeners with
  | [] => h
  | listener :: rest =>
      let '(h', returned) := runListener listener arg h in
      if returned then callListeners rest arg h' else h'
  end.

Definition notifyUpdateListeners (state : loc) (listeners : list Listener)
    (h : heap) : heap :=
  let '(snapshot, h) := getState state h in
  callListeners listeners snapshot h.

End Store.

(** ** Invariants stated on the engine *)

Definition throttleInRange (e : AircraftPhysics.t) : Prop :=
  0 <= AircraftState.throttle (state e) <= MAX_THROTTLE.

Definition aboveGround (e : AircraftPhysics.t) : Prop :=
  0 <= Vector3.y (AircraftState.position (state e)).

(** ** A flight used in the examples

    [cruisingSouth] is an engine in flight: heading due south (yaw pi),
    wings level, full throttle with the key held, at the speed cap, one
    listener registered.  [nearEdge] is that engine after the map
    synchronizer has reported a position 9.5 km due north of the centre
    of the boundary, inside the warning band. *)

Definition cruisingSouth : AircraftPhysics.t :=
  AircraftPhysics.mk
    (AircraftState.mk
       (Vector3.mk 0 100 0)
       (Vector3.mk 0 0 2)
       2
       100
       180
       0
       0
       (Euler.mk 0 PI 0)
       (Vector3.mk 0 0 0)
       0.5
       true
       false
       DEFAULT_CENTER
       (BoundaryStatus.mk 0 0 0 false false (Vector2.mk 0 0)))
    0 0 0 0
    (AircraftControls.mk 0 0 0 0.5 0)
    0
    None
    0
    (BoundaryStatus.mk 0 0 0 false false (Vector2.mk 0 0))
    [7%nat]
    true.

Definition northOfCenter (km : R) : LngLat.t :=
  LngLat.mk (LngLat.lng MAP_BOUNDARY.CENTER)
            (LngLat.lat MAP_BOUNDARY.CENTER + km / 6371 * (180 / PI)).

Definition nearEdge : AircraftPhysics.t :=
  updateMapPosition (northOfCenter 9.5) cruisingSouth.

(** ** Further invariants stated on the engine *)

(** The bank state of the control processor: bank angle and target within
    the configured targets, turn rate within [0, MAX_TURN_RATE]. *)
Definition bankInRange (e : AircraftPhysics.t) : Prop :=
  Rabs (bankAngle e) <= AIRCRAFT.CONTROLS.BANK.TARGET_RIGHT /\
  Rabs (targetBankAngle e) <= AIRCRAFT.CONTROLS.BANK.TARGET_RIGHT /\
  0 <= turnYawRate e <= AIRCRAFT.CONTROLS.TURN.MAX_TURN_RATE.

(** Every component of the angular velocity within the clamp, and a
    non-negative [speed]. *)
Definition ratesInRange (e : AircraftPhysics.t) : Prop :=
  let av := AircraftState.angularVelocity (state e) in
  let m := AIRCRAFT.PHYSICS.MAX_ANGULAR_VELOCITY in
  (- m <= Vector3.x av <= m) /\
  (- m <= Vector3.y av <= m) /\
  (- m <= Vector3.z av <= m) /\
  0 <= AircraftState.speed (state e).

(** The status the snapshots carry is the cached one, and it is never
    both near and crossing. *)
Definition statusCoherent (e : AircraftPhysics.t) : Prop :=
  AircraftState.boundaryStatus (state e) = AircraftPhysics.boundaryStatus e /\
  BoundaryStatus.isNearBoundary (AircraftPhysics.boundaryStatus e)
  && BoundaryStatus.isCrossingBoundary (AircraftPhysics.boundaryStatus e) = false.

(** An aircraft standing at the origin, at the centre of the boundary,
    with no throttle, no rates and no remembered vertical thrust. *)
Definition parked (e : AircraftPhysics.t) : Prop :=
  let s := state e in
  AircraftState.position s = Vector3.mk 0 0 0 /\
  AircraftState.velocity s = Vector3.mk 0 0 0 /\
  AircraftState.angularVelocity s = Vector3.mk 0 0 0 /\
  AircraftState.throttle s = 0 /\
  Euler.x (AircraftState.rotation s) = 0 /\
  Euler.z (AircraftState.rotation s) = 0 /\
  AircraftControls.verticalThrust (prevControls e) = 0 /\
  AircraftState.mapPosition s = MAP_BOUNDARY.CENTER /\
  BoundaryStatus.isNearBoundary (AircraftPhysics.boundaryStatus e) = false /\
  BoundaryStatus.isCrossingBoundary (AircraftPhysics.boundaryStatus e) = false.


Definition passive (c : Call) : Prop :=
  match c with
  | ApplyControlInputs _ | UpdateMapPosition _ => False
  | _ => True
  end.

(** ** The heading under floating-point rounding

    The development computes over the reals.  [eulerToHPR] is the one
    place where a range depends on rounding: a negative remainder has
    360 added and the sum is returned as it is, without the final
    [% 360] that [setHeading] and the flight panel apply.  Here the
    operations of [eulerToHPR] that round (the division and the
    multiplication of [radToDeg], the constant [Math.PI] and the
    addition of 360) go through an explicit rounding function; [%] is
    exact on floating-point numbers.  Overflow is not modelled. *)

(** What is assumed of a rounding: it is monotone, and 0 and 360 are
    representable. *)
Definition monotoneRounding (rnd : R -> R) : Prop :=
  (forall x y : R, x <= y -> rnd x <= rnd y) /\ rnd 0 = 0 /\ rnd 360 = 360.

Definition radToDeg_rounded (rnd : R -> R) (r : R) : R :=
  rnd (r * rnd (180 / rnd PI)).

Definition eulerToHPR_rounded (rnd : R -> R) (euler : Euler.t) : HPR :=
  let heading := js_rem (radToDeg_rounded rnd (Euler.y euler)) 360 in
  let pitch := radToDeg_rounded rnd (Euler.x euler) in
  let roll := radToDeg_rounded rnd (Euler.z euler) in
  let normalizedHeading := if Rlt_dec heading 0 then rnd (heading + 360) else heading in
  mkHPR normalizedHeading pitch roll.

(** A rounding whose grid widens with the magnitude, as that of
    floating-point numbers does: exact below 256, to the nearest whole
    number from 256 on. *)
Definition coarseRounding (x : R) : R :=
  if Rlt_dec x 256 then x else IZR (Int_part (x + 1 / 2)).

(** ** The keyboard: class [InputHandler]

    [keyState] is a JavaScript object used as a map from key names to
    booleans; a key that was never pressed has no entry.  A listener is
    named by its identity, and every call made to a listener is recorded
    with the copy of the key state it receives (the copy of a flat map
    of booleans shares nothing with the original). *)

Module InputHandler.
Abbreviation KeyState := (gmap string bool) (only parsing).
Definition InputEventCallback : Type := nat.

Record KeyNotification : Type := keyNotified {
  keyCallee : InputEventCallback;
  keySnapshot : gmap string bool }.

Record t : Type := mk {
  keyState : gmap string bool;
  listeners : list InputEventCallback;
  isListening : bool }.

Definition constructor : t := mk ∅ [] false.

(** The window handlers are registered once; the flag records it. *)
Definition startListening (h : t) : t :=
  if isListening h then h else mk (keyState h) (listeners h) true.

Definition stopListening (h : t) : t := mk (keyState h) (listeners h) false.

Definition addListener (callback : InputEventCallback) (h : t) : t :=
  mk (keyState h) (listeners h ++ [callback]) (isListening h).

Definition removeListener (callback : InputEventCallback) (h : t) : t :=
  mk (keyState h) (remove_first callback (listeners h)) (isListening h).

(** [this.keyState[key] === true]. *)
Definition isKeyPressed (key : string) (h : t) : bool :=
  match keyState h !! key with
  | Some true => true
  | _ => false
  end.

Definition notifyListeners (h : t) : list KeyNotification :=
  map (fun listener => keyNotified listener (keyState h)) (listeners h).

(** The keys whose default action (scrolling) is prevented. *)
Definition preventsDefault (key : string) : bool :=
  bool_decide (key ∈ ["ArrowUp"; "ArrowDown"; "ArrowLeft"; "ArrowRight"; " "]).

(** [handleKeyDown(event)]: the handler after the event, whether
    [event.preventDefault()] was called, and the listener calls made. *)
Definition handleKeyDown (key : string) (h : t) : t * bool * list KeyNotification :=
  let h := mk (<[key := true]> (keyState h)) (listeners h) (isListening h) in
  (h, preventsDefault key, notifyListeners h).

Definition handleKeyUp (key : string) (h : t) : t * list KeyNotification :=
  let h := mk (<[key := false]> (keyState h)) (listeners h) (isListening h) in
  (h, notifyListeners h).
End InputHandler.

(** ** From keys to controls: [GameManager.setupFlightControls] *)

Module GameManager.
Import AIRCRAFT.CONTROLS.

(** The truth value of [keyState[key]]: an absent entry is
    [undefined]. *)
Definition held (keyState : gmap string bool) (key : string) : bool :=
  default false (keyState !! key).

(** The control record the listener builds from a key state. *)
Definition flightControls (keyState : gmap string bool) : AircraftControls.t :=
  let '(pitch, verticalThrust) :=
    if held keyState "w" || held keyState "W" || held keyState "ArrowUp" then
      (- INPUT.PITCH_VALUE, INPUT.VERTICAL_THRUST_VALUE)
    else if held keyState "s" || held keyState "S" || held keyState "ArrowDown" then
      (INPUT.PITCH_VALUE, - INPUT.VERTICAL_THRUST_VALUE)
    else (0, 0) in
  let roll :=
    if held keyState "a" || held keyState "A" || held keyState "ArrowLeft" then
      - INPUT.ROLL_VALUE
    else if held keyState "d" || held keyState "D" || held keyState "ArrowRight" then
      INPUT.ROLL_VALUE
    else 0 in
  let yaw :=
    if held keyState "q" || held keyState "Q" then - INPUT.YAW_VALUE
    else if held keyState "e" || held keyState "E" then INPUT.YAW_VALUE
    else 0 in
  let throttle :=
    if held keyState " " then INPUT.THROTTLE_VALUE
    else if held keyState "Shift" then - INPUT.THROTTLE_VALUE
    else 0 in
  AircraftControls.mk pitch roll yaw throttle verticalThrust.

(** The listener [setupFlightControls] registers with the input handler;
    [hasThreeJsManager] tells whether [this.threeJsManager] is set. *)
Definition flightControlsListener (hasThreeJsManager : bool)
    (keyState : gmap string bool) (e : AircraftPhysics.t) : AircraftPhysics.t :=
  if negb hasThreeJsManager then e
  else applyControlInputs (flightControls keyState) e.
End GameManager.

(** ** The scene: class [ThreeJsManager]

    The chase camera.  [this.physicsEngine.getState()] is the [state]
    argument; [hasAircraft] tells whether the aircraft model is loaded.
    Terrain collision avoidance is switched off by the configuration
    ([COLLISION_AVOIDANCE_ENABLED]) and is not part of the model. *)

Module ThreeJsManager.
Record t : Type := mk {
  cameraOffset : Vector3.t;
  currentCameraPosition : Vector3.t;
  targetCameraPosition : Vector3.t;
  cameraMode : CHASE_CAMERA.Mode }.

(** The field initialisers of the class. *)
Definition initial : t :=
  mk THREE_JS.CAMERA.DEFAULT_POSITION THREE_JS.CAMERA.DEFAULT_POSITION
     THREE_JS.CAMERA.DEFAULT_POSITION CHASE_CAMERA.DEFAULT_MODE.

Definition calculateCameraPosition (state : AircraftState.t) (m : t) : Vector3.t :=
  let offset := cameraOffset m in
  let offset :=
    if Rlt_dec 0 CHASE_CAMERA.PITCH_INFLUENCE then
      let pitchRad := Euler.x (AircraftState.rotation state) in
      let pitchInfluence := - pitchRad * CHASE_CAMERA.PITCH_INFLUENCE * 50 in
      Vector3.with_y (Vector3.y offset + pitchInfluence) offset
    else offset in
  let offset := applyYawMatrix (Euler.y (AircraftState.rotation state)) offset in
  Vector3.add (AircraftState.position state) offset.

Definition setCameraMode (mode : CHASE_CAMERA.Mode) (state : AircraftState.t) (m : t) : t :=
  let m := mk (CHASE_CAMERA.MODES mode) (currentCameraPosition m)
              (targetCameraPosition m) mode in
  let newPosition := calculateCameraPosition state m in
  mk (cameraOffset m) (currentCameraPosition m) newPosition (cameraMode m).

Definition cycleCameraMode (state : AircraftState.t) (m : t) : t :=
  match cameraMode m with
  | CHASE_CAMERA.CLOSE => setCameraMode CHASE_CAMERA.MEDIUM state m
  | CHASE_CAMERA.MEDIUM => setCameraMode CHASE_CAMERA.FAR state m
  | CHASE_CAMERA.FAR => setCameraMode CHASE_CAMERA.CLOSE state m
  end.

Definition handleCameraControls (key : string) (state : AircraftState.t) (m : t) : t :=
  if bool_decide (key = "c") || bool_decide (key = "C") then cycleCameraMode state m
  else m.

(** The part of [initialize] that concerns the camera. *)
Definition initialize (state : AircraftState.t) (m : t) : t :=
  setCameraMode (cameraMode m) state m.

(** [updateCamera]; the camera object itself is placed at
    [currentCameraPosition]. *)
Definition updateCamera (hasAircraft : bool) (state : AircraftState.t) (m : t) : t :=
  if negb hasAircraft then m else
  let targetPosition := calculateCameraPosition state m in
  mk (cameraOffset m)
     (Vector3.lerp targetPosition CHASE_CAMERA.SMOOTHING_FACTOR (currentCameraPosition m))
     targetPosition (cameraMode m).

(** A sequence of key presses, each with the aircraft state at the time. *)
Definition pressKeys (keys : list (string * AircraftState.t)) (m : t) : t :=
  fold_left (fun m k => handleCameraControls (fst k) (snd k) m) keys m.


End ThreeJsManager.

(** ** The engine sound: class [AudioManager]

    [initialized] tells whether the audio context, the audio element and
    the gain node all exist; [suspended] is the state of the audio
    context, which the browser owns.  The calls made on the audio
    objects are recorded in order. *)

Module AudioManager.
Inductive Command : Type :=
| Resume
| Play
| SetTargetAtTime (target timeConstant : R).

Record t : Type := mk {
  initialized : bool;
  isPlaying : bool;
  lastSpeed : R }.

Definition playSound (suspended : bool) (a : t) : t * list Command :=
  if negb (initialized a) then (a, []) else
  let resume := if suspended then [Resume] else [] in
  if negb (isPlaying a) then
    let initialVolume := 0.3 in
    (mk (initialized a) true (lastSpeed a),
     resume ++ [SetTargetAtTime initialVolume 0.5; Play])
  else (a, resume).

Definition updateSound (suspended : bool) (speed : R) (a : t) : t * list Command :=
  if negb (initialized a) then (a, []) else
  let resume := if suspended then [Resume] else [] in
  let isMoving := Rltb 0.01 speed in
  (* the statements after the first conditional *)
  let setVolume (a : t) (started : list Command) : t * list Command :=
    if Rltb (Rabs (speed - lastSpeed a)) 0.05 && isPlaying a then (a, resume ++ started)
    else
      let a := mk (initialized a) (isPlaying a) speed in
      let MAX_REFERENCE_SPEED := 5 in
      let minVolume := 0.1 in
      let maxVolume := 0.8 in
      let volume :=
        if isMoving then
          let normalizedSpeed := Rmin (speed / MAX_REFERENCE_SPEED) 1 in
          minVolume + (maxVolume - minVolume) * Math_pow normalizedSpeed 1.5
        else minVolume in
      let volumeChangeTime := 0.2 in
      (a, resume ++ started ++ [SetTargetAtTime volume volumeChangeTime]) in
  if isMoving && negb (isPlaying a) then
    setVolume (mk (initialized a) true (lastSpeed a)) [Play]
  else if negb isMoving && isPlaying a then
    let minIdleVolume := 0.1 in
    (a, resume ++ [SetTargetAtTime minIdleVolume 0.5])
  else setVolume a [].

(** The volumes a list of commands asks for. *)
Definition targets (commands : list Command) : list R :=
  flat_map (fun c => match c with SetTargetAtTime v _ => [v] | _ => [] end) commands.
End AudioManager.

(** [ThreeJsManager.updateAudio]: the sound follows the length of the
    velocity. *)
Definition updateAudio (suspended : bool) (state : AircraftState.t)
    (a : AudioManager.t) : AudioManager.t * list AudioManager.Command :=
  let speed := Vector3.length (AircraftState.velocity state) in
  AudioManager.updateSound suspended speed a.

(** ** The flight data panel: [mapAircraftState] of main.ts

    The argument is typed [any]; the three properties the function
    tests for may be missing. *)

Module FlightPanel.
Record AnyState : Type := mkAny {
  any_position : option Vector3.t;
  any_velocity : option Vector3.t;
  any_rotation : option Euler.t;
  any_throttle : R;
  any_mapPosition : LngLat.t;
  any_boundaryStatus : option BoundaryStatus.t }.

(** The panel's [AircraftState]: [rotation] and [boundaryStatus] are
    optional. *)
Record t : Type := mk {
  position : Vector3.t;
  velocity : Vector3.t;
  rotation : option Euler.t;
  speed : R;
  altitude : R;
  heading : R;
  pitch : R;
  roll : R;
  throttle : R;
  isFlying : bool;
  isGrounded : bool;
  mapPosition : LngLat.t;
  boundaryStatus : option BoundaryStatus.t }.

Definition mapAircraftState (state : AnyState) : t :=
  match any_position state, any_velocity state, any_rotation state with
  | Some position, Some velocity, Some rotation =>
    let horizontalSpeed :=
      sqrt (Vector3.x velocity * Vector3.x velocity +
            Vector3.z velocity * Vector3.z velocity) in
    mk position velocity (Some rotation)
       (horizontalSpeed * 10)
       (Vector3.y position)
       (js_rem (MathUtils.radToDeg (Euler.y rotation) + 360) 360)
       (MathUtils.radToDeg (Euler.x rotation))
       (MathUtils.radToDeg (Euler.z rotation))
       (num_or (any_throttle state) 0)
       (Rltb 0.5 (Vector3.y position))
       (Rleb (Vector3.y position) 0.5)
       (any_mapPosition state)
       (any_boundaryStatus state)
  | _, _, _ =>
    mk (Vector3.mk 0 0 0) (Vector3.mk 0 0 0) None 0 0 0 0 0 0 false true
       (LngLat.mk 0 0)
       (if MAP_BOUNDARY.ENABLED
        then Some (BoundaryStatus.mk 0 MAP_BOUNDARY.RADIUS_KM 0 false false
                     (Vector2.mk 0 0))
        else None)
  end.

(** An engine snapshot, as [mapAircraftState] receives it. *)
Definition ofEngineState (s : AircraftState.t) : AnyState :=
  mkAny (Some (AircraftState.position s)) (Some (AircraftState.velocity s))
        (Some (AircraftState.rotation s)) (AircraftState.throttle s)
        (AircraftState.mapPosition s) (Some (AircraftState.boundaryStatus s)).
End FlightPanel.

(** * Properties *)

(** ** Arithmetic of the JavaScript primitives *)

Ltac case_if :=
  match goal with
  | |- context [if ?d then _ else _] => destruct d
  | H : context [if ?d then _ else _] |- _ => destruct d
  end.

Lemma Rltb_true (a b : R) : Rltb a b = true <-> a < b.
Proof. unfold Rltb. destruct (Rlt_dec a b); split; intros; try easy. Qed.

Lemma Rltb_false (a b : R) : Rltb a b = false <-> b <= a.
Proof. unfold Rltb. destruct (Rlt_dec a b); split; intros; try easy; lra. Qed.

Lemma Rleb_true (a b : R) : Rleb a b = true <-> a <= b.
Proof. unfold Rleb. destruct (Rle_dec a b); split; intros; try easy. Qed.

Lemma Rleb_false (a b : R) : Rleb a b = false <-> b < a.
Proof. unfold Rleb. destruct (Rle_dec a b); split; intros; try easy; lra. Qed.

Lemma clampSym_bounds (m a : R) : 0 <= m -> - m <= clampSym m a <= m.
Proof.
  intros Hm. unfold clampSym, Rmax, Rmin.
  repeat case_if; lra.
Qed.

(** The remainder of a non-negative number by a positive modulus. *)
Lemma js_rem_nonneg (a m : R) : 0 < m -> 0 <= a -> 0 <= js_rem a m < m.
Proof.
  intros Hm Ha. unfold js_rem, Math_trunc.
  assert (Hq : 0 <= a / m) by (apply Rmult_le_pos; [lra | left; now apply Rinv_0_lt_compat]).
  destruct (Rle_dec 0 (a / m)) as [_ | n]; [| lra].
  destruct (base_Int_part (a / m)) as [Hlo Hhi].
  assert (Ha' : a = m * (a / m)) by (field; lra).
  split.
  - assert (m * IZR (Int_part (a / m)) <= m * (a / m)) by (apply Rmult_le_compat_l; lra). lra.
  - assert (m * (a / m) < m * (IZR (Int_part (a / m)) + 1)) by (apply Rmult_lt_compat_l; lra). lra.
Qed.

(** The remainder keeps the sign of the dividend and is smaller than the
    modulus in absolute value. *)
Lemma js_rem_bounds (a m : R) : 0 < m -> - m < js_rem a m < m.
Proof.
  intros Hm.
  destruct (Rle_dec 0 a) as [Ha | Ha].
  - pose proof (js_rem_nonneg a m Hm Ha). lra.
  - assert (Hneg : a < 0) by lra.
    unfold js_rem, Math_trunc.
    assert (Hq : a / m < 0).
    { unfold Rdiv. rewrite <- (Rmult_0_l (/ m)).
      apply Rmult_lt_compat_r; [now apply Rinv_0_lt_compat | lra]. }
    destruct (Rle_dec 0 (a / m)) as [c | _]; [lra |].
    destruct (base_Int_part (- (a / m))) as [Hlo Hhi].
    rewrite opp_IZR.
    assert (Ha' : a = m * (a / m)) by (field; lra).
    assert (m * IZR (Int_part (- (a / m))) <= m * (- (a / m))) by (apply Rmult_le_compat_l; lra).
    assert (m * (- (a / m)) < m * (IZR (Int_part (- (a / m))) + 1)) by (apply Rmult_lt_compat_l; lra).
    lra.
Qed.

Lemma normalizedHeading_range (d : R) :
  0 <= js_rem (js_rem d 360 + 360) 360 < 360.
Proof.
  pose proof (js_rem_bounds d 360 ltac:(lra)).
  apply js_rem_nonneg; lra.
Qed.

(** ** The stalled-frame guard *)

Lemma update_stalled (currentTime now : R) (e : AircraftPhysics.t) :
  0.1 < (currentTime - lastUpdateTime e) / 1000 ->
  update currentTime now e = (AircraftPhysics.with_lastUpdateTime currentTime e, []).
Proof.
  intros Hlarge. unfold update. cbn [lastUpdateTime AircraftPhysics.with_lastUpdateTime].
  destruct (Rlt_dec 0.1 ((currentTime - lastUpdateTime e) / 1000)) as [_ | Hn]; [| lra].
  reflexivity.
Qed.

(** C7.  When the time since the previous update exceeds 0.1 s, [update]
    records the new timestamp and does nothing else: no listener is
    called, and the state, the cached boundary status and every other
    private field are as before. *)
Theorem update_skips_stalled_frame (currentTime now : R) (e : AircraftPhysics.t) :
  0.1 < (currentTime - lastUpdateTime e) / 1000 ->
  let '(e', notifications) := update currentTime now e in
  notifications = [] /\
  lastUpdateTime e' = currentTime /\
  state e' = state e /\
  AircraftPhysics.boundaryStatus e' = AircraftPhysics.boundaryStatus e /\
  e' = AircraftPhysics.with_lastUpdateTime currentTime e.
Proof.
  intros Hlarge. rewrite update_stalled by exact Hlarge.
  repeat split.
Qed.

Lemma update_skips_stalled_frame_witness :
  let e := constructor 72 0 in
  let '(e', notifications) := update 250 1000 e in
  notifications = [] /\
  lastUpdateTime e' = 250 /\
  state e' = state e /\
  AircraftPhysics.boundaryStatus e' = AircraftPhysics.boundaryStatus e /\
  e' = AircraftPhysics.with_lastUpdateTime 250 e.
Proof.
  apply (update_skips_stalled_frame 250 1000 (constructor 72 0)).
  cbn [constructor lastUpdateTime]. lra.
Defined.

(** ** Setting the heading *)

(** C10.  For every real [d], [setHeading d] stores
    [((d % 360) + 360) % 360] in [heading], a value of [0, 360); sets
    the yaw [rotation.y] to that heading in radians; calls every
    registered listener, in order, with the updated state; and changes
    no other field of the state or of the engine. *)
Theorem setHeading_normalizes (d : R) (e : AircraftPhysics.t) :
  let h := js_rem (js_rem d 360 + 360) 360 in
  let s := state e in
  let '(e', notifications) := setHeading d e in
  AircraftState.heading (state e') = h /\
  0 <= h < 360 /\
  Euler.y (AircraftState.rotation (state e')) = MathUtils.degToRad h /\
  notifications = map (fun listener => notified listener (state e')) (updateListeners e) /\
  state e' =
    AircraftState.mk
      (AircraftState.position s) (AircraftState.velocity s)
      (AircraftState.speed s) (AircraftState.altitude s)
      h
      (AircraftState.pitch s) (AircraftState.roll s)
      (Euler.mk (Euler.x (AircraftState.rotation s))
                (MathUtils.degToRad h)
                (Euler.z (AircraftState.rotation s)))
      (AircraftState.angularVelocity s) (AircraftState.throttle s)
      (AircraftState.isFlying s) (AircraftState.isGrounded s)
      (AircraftState.mapPosition s) (AircraftState.boundaryStatus s) /\
  e' = AircraftPhysics.with_state (state e') e.
Proof.
  cbv zeta. unfold setHeading. cbv zeta.
  repeat split; try reflexivity; apply normalizedHeading_range.
Qed.

(** A heading given as -90 degrees is stored as 270. *)
Example setHeading_minus_90 (e : AircraftPhysics.t) :
  AircraftState.heading (state (fst (setHeading (-90) e))) = 270.
Proof.
  unfold setHeading. cbv zeta.
  cbn [fst state AircraftPhysics.with_state AircraftState.heading
       AircraftState.with_heading AircraftState.with_rotation].
  assert (H1 : js_rem (-90) 360 = -90).
  { unfold js_rem, Math_trunc.
    destruct (Rle_dec 0 (-90 / 360)) as [Hc | _]; [lra |].
    rewrite <- (Int_part_spec (- (-90 / 360)) 0) by lra.
    change (- 0)%Z with 0%Z. lra. }
  rewrite H1.
  unfold js_rem, Math_trunc.
  destruct (Rle_dec 0 ((-90 + 360) / 360)) as [_ | Hc]; [| lra].
  rewrite <- (Int_part_spec ((-90 + 360) / 360) 0) by lra.
  lra.
Qed.

(** ** What each block of the integrator touches *)

Lemma updateAircraftPhysics_state (deltaTime now : R) (e : AircraftPhysics.t) :
  state (updateAircraftPhysics deltaTime now e) =
  let vt := AircraftControls.verticalThrust (prevControls e) in
  updateDerivedFields
    (enforceGroundCollision
       (integratePosition deltaTime
          (applyStabilization deltaTime (hasUserInput e)
             (applySpeedLimit
                (applyThrottleDecay deltaTime (hasUserInput e)
                   (applyDrag deltaTime
                      (applyVerticalThrust deltaTime vt
                         (applyThrust deltaTime vt
                            (applyAngularDamping deltaTime
                               (applyRotation deltaTime now (state e))))))))))).
Proof. unfold updateAircraftPhysics. cbv zeta. now destruct (logDue _ _). Qed.

Lemma updateAircraftPhysics_private (deltaTime now : R) (e : AircraftPhysics.t) :
  let e' := updateAircraftPhysics deltaTime now e in
  AircraftPhysics.boundaryStatus e' = AircraftPhysics.boundaryStatus e /\
  updateListeners e' = updateListeners e /\
  hasUserInput e' = hasUserInput e /\
  lastUpdateTime e' = lastUpdateTime e /\
  prevControls e' = prevControls e.
Proof. unfold updateAircraftPhysics. cbv zeta. now destruct (logDue _ _). Qed.

Ltac stage_frame f :=
  intros; unfold f; cbv zeta; repeat case_if; reflexivity.

Section Frames.
Variables (deltaTime : R) (s : AircraftState.t).

(** Throttle is written by the throttle decay only. *)
Lemma throttle_applyRotation now :
  AircraftState.throttle (applyRotation deltaTime now s) = AircraftState.throttle s.
Proof. stage_frame applyRotation. Qed.
Lemma throttle_applyAngularDamping :
  AircraftState.throttle (applyAngularDamping deltaTime s) = AircraftState.throttle s.
Proof. stage_frame applyAngularDamping. Qed.
Lemma throttle_applyThrust vt :
  AircraftState.throttle (applyThrust deltaTime vt s) = AircraftState.throttle s.
Proof. stage_frame applyThrust. Qed.
Lemma throttle_applyVerticalThrust vt :
  AircraftState.throttle (applyVerticalThrust deltaTime vt s) = AircraftState.throttle s.
Proof. stage_frame applyVerticalThrust. Qed.
Lemma throttle_applyDrag :
  AircraftState.throttle (applyDrag deltaTime s) = AircraftState.throttle s.
Proof. stage_frame applyDrag. Qed.
Lemma throttle_applySpeedLimit :
  AircraftState.throttle (applySpeedLimit s) = AircraftState.throttle s.
Proof. stage_frame applySpeedLimit. Qed.
Lemma throttle_applyStabilization hui :
  AircraftState.throttle (applyStabilization deltaTime hui s) = AircraftState.throttle s.
Proof. intros; unfold applyStabilization; destruct hui; reflexivity. Qed.
Lemma throttle_integratePosition :
  AircraftState.throttle (integratePosition deltaTime s) = AircraftState.throttle s.
Proof. stage_frame integratePosition. Qed.
Lemma throttle_enforceGroundCollision :
  AircraftState.throttle (enforceGroundCollision s) = AircraftState.throttle s.
Proof. stage_frame enforceGroundCollision. Qed.
Lemma throttle_updateDerivedFields :
  AircraftState.throttle (updateDerivedFields s) = AircraftState.throttle s.
Proof. reflexivity. Qed.

(** The rotation is written by the rotation block and by the
    stabilization. *)
Lemma rotation_applyAngularDamping :
  AircraftState.rotation (applyAngularDamping deltaTime s) = AircraftState.rotation s.
Proof. stage_frame applyAngularDamping. Qed.
Lemma rotation_applyThrust vt :
  AircraftState.rotation (applyThrust deltaTime vt s) = AircraftState.rotation s.
Proof. stage_frame applyThrust. Qed.
Lemma rotation_applyVerticalThrust vt :
  AircraftState.rotation (applyVerticalThrust deltaTime vt s) = AircraftState.rotation s.
Proof. stage_frame applyVerticalThrust. Qed.
Lemma rotation_applyDrag :
  AircraftState.rotation (applyDrag deltaTime s) = AircraftState.rotation s.
Proof. stage_frame applyDrag. Qed.
Lemma rotation_applyThrottleDecay hui :
  AircraftState.rotation (applyThrottleDecay deltaTime hui s) = AircraftState.rotation s.
Proof. intros; unfold applyThrottleDecay; destruct hui; cbn; repeat case_if; reflexivity. Qed.
Lemma rotation_applySpeedLimit :
  AircraftState.rotation (applySpeedLimit s) = AircraftState.rotation s.
Proof. stage_frame applySpeedLimit. Qed.
Lemma rotation_integratePosition :
  AircraftState.rotation (integratePosition deltaTime s) = AircraftState.rotation s.
Proof. stage_frame integratePosition. Qed.
Lemma rotation_enforceGroundCollision :
  AircraftState.rotation (enforceGroundCollision s) = AircraftState.rotation s.
Proof. stage_frame enforceGroundCollision. Qed.

(** The angular velocity is written by the damping only. *)
Lemma angularVelocity_applyRotation now :
  AircraftState.angularVelocity (applyRotation deltaTime now s) =
  AircraftState.angularVelocity s.
Proof. stage_frame applyRotation. Qed.
Lemma angularVelocity_applyThrust vt :
  AircraftState.angularVelocity (applyThrust deltaTime vt s) =
  AircraftState.angularVelocity s.
Proof. stage_frame applyThrust. Qed.
Lemma angularVelocity_applyVerticalThrust vt :
  AircraftState.angularVelocity (applyVerticalThrust deltaTime vt s) =
  AircraftState.angularVelocity s.
Proof. stage_frame applyVerticalThrust. Qed.
Lemma angularVelocity_applyDrag :
  AircraftState.angularVelocity (applyDrag deltaTime s) =
  AircraftState.angularVelocity s.
Proof. stage_frame applyDrag. Qed.
Lemma angularVelocity_applyThrottleDecay hui :
  AircraftState.angularVelocity (applyThrottleDecay deltaTime hui s) =
  AircraftState.angularVelocity s.
Proof. intros; unfold applyThrottleDecay; destruct hui; cbn; repeat case_if; reflexivity. Qed.
Lemma angularVelocity_applySpeedLimit :
  AircraftState.angularVelocity (applySpeedLimit s) =
  AircraftState.angularVelocity s.
Proof. stage_frame applySpeedLimit. Qed.
Lemma angularVelocity_applyStabilization hui :
  AircraftState.angularVelocity (applyStabilization deltaTime hui s) =
  AircraftState.angularVelocity s.
Proof. intros; unfold applyStabilization; destruct hui; reflexivity. Qed.
Lemma angularVelocity_integratePosition :
  AircraftState.angularVelocity (integratePosition deltaTime s) =
  AircraftState.angularVelocity s.
Proof. stage_frame integratePosition. Qed.
Lemma angularVelocity_enforceGroundCollision :
  AircraftState.angularVelocity (enforceGroundCollision s) =
  AircraftState.angularVelocity s.
Proof. stage_frame enforceGroundCollision. Qed.
End Frames.

Create Rewrite HintDb frames.
#[local] Hint Rewrite
  throttle_applyRotation throttle_applyAngularDamping throttle_applyThrust
  throttle_applyVerticalThrust throttle_applyDrag throttle_applySpeedLimit
  throttle_applyStabilization throttle_integratePosition
  throttle_enforceGroundCollision throttle_updateDerivedFields
  rotation_applyAngularDamping rotation_applyThrust
  rotation_applyVerticalThrust rotation_applyDrag rotation_applyThrottleDecay
  rotation_applySpeedLimit rotation_integratePosition
  rotation_enforceGroundCollision
  angularVelocity_applyRotation angularVelocity_applyThrust
  angularVelocity_applyVerticalThrust angularVelocity_applyDrag
  angularVelocity_applyThrottleDecay angularVelocity_applySpeedLimit
  angularVelocity_applyStabilization angularVelocity_integratePosition
  angularVelocity_enforceGroundCollision : frames.

Lemma throttle_updateAircraftPhysics (deltaTime now : R) (e : AircraftPhysics.t) :
  AircraftState.throttle (state (updateAircraftPhysics deltaTime now e)) =
  AircraftState.throttle (applyThrottleDecay deltaTime (hasUserInput e) (state e)).
Proof.
  rewrite updateAircraftPhysics_state. cbv zeta.
  autorewrite with frames.
  unfold applyThrottleDecay.
  destruct (hasUserInput e); cbn [negb]; autorewrite with frames; [reflexivity |].
  case_if; cbn; autorewrite with frames; reflexivity.
Qed.

Lemma rotation_updateAircraftPhysics (deltaTime now : R) (e : AircraftPhysics.t) :
  AircraftState.rotation (state (updateAircraftPhysics deltaTime now e)) =
  AircraftState.rotation
    (applyStabilization deltaTime (hasUserInput e)
       (applyRotation deltaTime now (state e))).
Proof.
  rewrite updateAircraftPhysics_state. cbv zeta.
  change (AircraftState.rotation (updateDerivedFields ?s)) with (AircraftState.rotation s).
  autorewrite with frames.
  unfold applyStabilization.
  destruct (hasUserInput e); cbn [negb]; autorewrite with frames; [reflexivity |].
  cbn. autorewrite with frames. reflexivity.
Qed.

Lemma angularVelocity_updateAircraftPhysics (deltaTime now : R) (e : AircraftPhysics.t) :
  AircraftState.angularVelocity (state (updateAircraftPhysics deltaTime now e)) =
  AircraftState.angularVelocity (applyAngularDamping deltaTime (state e)).
Proof.
  rewrite updateAircraftPhysics_state. cbv zeta.
  change (AircraftState.angularVelocity (updateDerivedFields ?s))
    with (AircraftState.angularVelocity s).
  autorewrite with frames.
  unfold applyAngularDamping, applyRotation. cbv zeta. reflexivity.
Qed.

(** The boundary forces write the velocity and the map position only,
    and leave the vertical velocity alone. *)
Lemma applyBoundaryForces_frame (deltaTime : R) (e : AircraftPhysics.t) :
  let e' := applyBoundaryForces deltaTime e in
  let s := state e in
  let s' := state e' in
  e' = AircraftPhysics.with_state s' e /\
  s' = AircraftState.with_mapPosition (AircraftState.mapPosition s')
         (AircraftState.with_velocity (AircraftState.velocity s') s) /\
  Vector3.y (AircraftState.velocity s') = Vector3.y (AircraftState.velocity s).
Proof.
  destruct e as [[p v sp al hd pi ro rot av th fl gr mp bs] ba tb bm ty pc lu ll lb ebs ul hui].
  cbv zeta. unfold applyBoundaryForces, applyBoundaryForce.
  cbn [negb MAP_BOUNDARY.ENABLED MAP_BOUNDARY.HARD_BOUNDARY
       AircraftPhysics.boundaryStatus state].
  destruct (BoundaryStatus.isCrossingBoundary ebs).
  - cbv zeta. repeat case_if; repeat split.
  - destruct (BoundaryStatus.isNearBoundary ebs); repeat case_if; repeat split.
Qed.

Lemma applyBoundaryForcesIfNeeded_frame (deltaTime : R) (e : AircraftPhysics.t) :
  let e' := applyBoundaryForcesIfNeeded deltaTime e in
  let s := state e in
  let s' := state e' in
  e' = AircraftPhysics.with_state s' e /\
  s' = AircraftState.with_mapPosition (AircraftState.mapPosition s')
         (AircraftState.with_velocity (AircraftState.velocity s') s) /\
  Vector3.y (AircraftState.velocity s') = Vector3.y (AircraftState.velocity s).
Proof.
  unfold applyBoundaryForcesIfNeeded.
  destruct (_ && _); [apply applyBoundaryForces_frame |].
  destruct e as [[p v sp al hd pi ro rot av th fl gr mp bs] ba tb bm ty pc lu ll lb ebs ul hui].
  repeat split.
Qed.

(** ** What the control processor touches *)

Lemma processControls_frame (rawControls : AircraftControls.t) (e : AircraftPhysics.t) :
  let e' := fst (processControls rawControls e) in
  state e' = state e /\
  lastUpdateTime e' = lastUpdateTime e /\
  _lastBoundaryCheck e' = _lastBoundaryCheck e /\
  AircraftPhysics.boundaryStatus e' = AircraftPhysics.boundaryStatus e /\
  updateListeners e' = updateListeners e /\
  hasUserInput e' = hasUserInput e.
Proof.
  unfold processControls. cbv zeta.
  repeat case_match; repeat split.
Qed.

(** The state [applyControlInputs] leaves, in terms of the processed
    controls. *)
Lemma applyControlInputs_state (rawControls : AircraftControls.t) (e : AircraftPhysics.t) :
  let controls := snd (processControls rawControls e) in
  let s := state e in
  let av := AircraftState.angularVelocity s in
  let r := AircraftState.rotation s in
  let s' := state (applyControlInputs rawControls e) in
  AircraftState.angularVelocity s' =
    Vector3.mk
      (clampSym AIRCRAFT.PHYSICS.MAX_ANGULAR_VELOCITY
         (Vector3.x av + AircraftControls.pitch controls *
                         AIRCRAFT.PHYSICS.CONTROL_SENSITIVITY.PITCH))
      (clampSym AIRCRAFT.PHYSICS.MAX_ANGULAR_VELOCITY
         (Vector3.y av + AircraftControls.yaw controls *
                         AIRCRAFT.PHYSICS.CONTROL_SENSITIVITY.YAW))
      (clampSym AIRCRAFT.PHYSICS.MAX_ANGULAR_VELOCITY
         (Vector3.z av + AircraftControls.roll controls *
                         AIRCRAFT.PHYSICS.CONTROL_SENSITIVITY.ROLL)) /\
  AircraftState.rotation s' =
    Euler.mk (clampSym AIRCRAFT.PHYSICS.MAX_ROTATION (Euler.x r))
             (Euler.y r)
             (clampSym AIRCRAFT.PHYSICS.MAX_ROTATION (Euler.z r)) /\
  AircraftState.throttle s' =
    (if Req_dec_T (AircraftControls.throttle controls) 0
     then AircraftState.throttle s
     else Rmax 0 (Rmin MAX_THROTTLE
                    (AircraftState.throttle s +
                     AircraftControls.throttle controls * THROTTLE_CHANGE_RATE))) /\
  AircraftState.position s' = AircraftState.position s /\
  AircraftState.velocity s' = AircraftState.velocity s.
Proof.
  cbv zeta. unfold applyControlInputs.
  destruct (processControls_frame rawControls e) as (Hs & _).
  destruct (processControls rawControls e) as [e1 controls].
  cbn [fst snd] in *. cbv zeta.
  cbn [state AircraftPhysics.with_state AircraftPhysics.with_hasUserInput].
  rewrite Hs.
  destruct (Req_dec_T (AircraftControls.throttle controls) 0); repeat split.
Qed.

Lemma applyControlInputs_lastUpdateTime (rawControls : AircraftControls.t)
    (e : AircraftPhysics.t) :
  lastUpdateTime (applyControlInputs rawControls e) = lastUpdateTime e.
Proof.
  unfold applyControlInputs.
  destruct (processControls_frame rawControls e) as (_ & Ht & _).
  destruct (processControls rawControls e) as [e1 controls].
  cbn [fst] in Ht. cbv zeta. exact Ht.
Qed.

(** ** Invariants of the engine *)

Lemma MAX_THROTTLE_pos : 0 <= MAX_THROTTLE.
Proof. unfold MAX_THROTTLE, AIRCRAFT.MAX_THROTTLE. lra. Qed.

Lemma applyControlInputs_throttleInRange rawControls e :
  throttleInRange e -> throttleInRange (applyControlInputs rawControls e).
Proof.
  unfold throttleInRange. intros H.
  destruct (applyControlInputs_state rawControls e) as (_ & _ & Ht & _).
  cbv zeta in Ht. rewrite Ht.
  pose proof MAX_THROTTLE_pos.
  case_if; [exact H |].
  unfold Rmax, Rmin. repeat case_if; lra.
Qed.

Lemma applyThrottleDecay_range deltaTime hui s :
  0 <= deltaTime ->
  0 <= AircraftState.throttle s <= MAX_THROTTLE ->
  0 <= AircraftState.throttle (applyThrottleDecay deltaTime hui s) <= MAX_THROTTLE.
Proof.
  intros Hdt H. unfold applyThrottleDecay.
  destruct hui; cbn [negb]; [exact H |].
  case_if; [| exact H]. cbn.
  unfold THROTTLE_DECAY_RATE, AIRCRAFT.DECAY_RATES.THROTTLE, Rmax.
  case_if; nra.
Qed.

Lemma update_state (currentTime now : R) (e : AircraftPhysics.t) :
  let deltaTime := (currentTime - lastUpdateTime e) / 1000 in
  ~ 0.1 < deltaTime ->
  fst (update currentTime now e) =
    AircraftPhysics.with_hasUserInput false
      (applyBoundaryForcesIfNeeded deltaTime
         (updateAircraftPhysics deltaTime now
            (checkBoundaryStatus now
               (AircraftPhysics.with_lastUpdateTime currentTime e)))).
Proof.
  cbv zeta. intros H. unfold update. cbv zeta.
  cbn [lastUpdateTime AircraftPhysics.with_lastUpdateTime].
  destruct (Rlt_dec 0.1 _); [contradiction | reflexivity].
Qed.

Lemma checkBoundaryStatus_frame (now : R) (e : AircraftPhysics.t) :
  let e' := checkBoundaryStatus now e in
  state e' = AircraftState.with_boundaryStatus
               (AircraftState.boundaryStatus (state e')) (state e) /\
  hasUserInput e' = hasUserInput e /\
  prevControls e' = prevControls e /\
  lastUpdateTime e' = lastUpdateTime e /\
  updateListeners e' = updateListeners e.
Proof.
  cbv zeta. unfold checkBoundaryStatus, updateBoundaryStatus.
  cbn [MAP_BOUNDARY.ENABLED negb andb].
  destruct e as [[p v sp al hd pi ro rot av th fl gr mp bs] ba tb bm ty pc lu ll lb ebs ul hui].
  destruct (Rltb _ _); repeat split.
Qed.

Lemma update_throttle (currentTime now : R) (e : AircraftPhysics.t) :
  let deltaTime := (currentTime - lastUpdateTime e) / 1000 in
  ~ 0.1 < deltaTime ->
  AircraftState.throttle (state (fst (update currentTime now e))) =
  AircraftState.throttle (applyThrottleDecay deltaTime (hasUserInput e) (state e)).
Proof.
  cbv zeta. intros H. rewrite update_state by exact H.
  cbn [state AircraftPhysics.with_hasUserInput].
  destruct (applyBoundaryForcesIfNeeded_frame
              ((currentTime - lastUpdateTime e) / 1000)
              (updateAircraftPhysics ((currentTime - lastUpdateTime e) / 1000) now
                 (checkBoundaryStatus now
                    (AircraftPhysics.with_lastUpdateTime currentTime e))))
    as (_ & Hs & _).
  cbv zeta in Hs. rewrite Hs. cbn [AircraftState.throttle AircraftState.with_mapPosition
    AircraftState.with_velocity].
  rewrite throttle_updateAircraftPhysics.
  destruct (checkBoundaryStatus_frame now
              (AircraftPhysics.with_lastUpdateTime currentTime e)) as (Hc & Hh & _).
  cbv zeta in Hc, Hh. rewrite Hh, Hc.
  cbn [hasUserInput AircraftPhysics.with_lastUpdateTime state].
  unfold applyThrottleDecay.
  destruct (hasUserInput e); cbn [negb AircraftState.throttle AircraftState.with_boundaryStatus];
    [reflexivity |].
  case_if; reflexivity.
Qed.

Lemma update_throttleInRange currentTime now e :
  lastUpdateTime e <= currentTime ->
  throttleInRange e -> throttleInRange (fst (update currentTime now e)).
Proof.
  intros Ht H. unfold throttleInRange.
  destruct (Rlt_dec 0.1 ((currentTime - lastUpdateTime e) / 1000)) as [Hskip | Hrun].
  - rewrite update_stalled by exact Hskip. exact H.
  - rewrite update_throttle by exact Hrun.
    apply applyThrottleDecay_range; [lra | exact H].
Qed.

Lemma setHeading_frame (d : R) (e : AircraftPhysics.t) :
  let e' := fst (setHeading d e) in
  AircraftState.throttle (state e') = AircraftState.throttle (state e) /\
  AircraftState.position (state e') = AircraftState.position (state e) /\
  lastUpdateTime e' = lastUpdateTime e.
Proof. repeat split. Qed.

Lemma updateMapPosition_frame (mapPosition : LngLat.t) (e : AircraftPhysics.t) :
  let e' := updateMapPosition mapPosition e in
  AircraftState.throttle (state e') = AircraftState.throttle (state e) /\
  AircraftState.position (state e') = AircraftState.position (state e) /\
  lastUpdateTime e' = lastUpdateTime e.
Proof. repeat split. Qed.

Lemma update_lastUpdateTime (currentTime now : R) (e : AircraftPhysics.t) :
  lastUpdateTime (fst (update currentTime now e)) = currentTime.
Proof.
  destruct (Rlt_dec 0.1 ((currentTime - lastUpdateTime e) / 1000)) as [Hskip | Hrun].
  - rewrite update_stalled by exact Hskip. reflexivity.
  - rewrite update_state by exact Hrun.
    cbn [lastUpdateTime AircraftPhysics.with_hasUserInput].
    match goal with
    | |- lastUpdateTime (applyBoundaryForcesIfNeeded ?dt ?e1) = _ =>
        destruct (applyBoundaryForcesIfNeeded_frame dt e1) as (He & _);
        cbv zeta in He; rewrite He
    end.
    cbn [lastUpdateTime AircraftPhysics.with_state].
    match goal with
    | |- lastUpdateTime (updateAircraftPhysics ?dt ?n ?e1) = _ =>
        destruct (updateAircraftPhysics_private dt n e1) as (_ & _ & _ & Hl & _);
        cbv zeta in Hl; rewrite Hl
    end.
    match goal with
    | |- lastUpdateTime (checkBoundaryStatus ?n ?e1) = _ =>
        destruct (checkBoundaryStatus_frame n e1) as (_ & _ & _ & Hl' & _);
        cbv zeta in Hl'; rewrite Hl'
    end.
    reflexivity.
Qed.

Lemma call_throttleInRange (c : Call) (e : AircraftPhysics.t) :
  match c with
  | Update currentTime _ => lastUpdateTime e <= currentTime
  | _ => True
  end ->
  throttleInRange e -> throttleInRange (fst (call c e)).
Proof.
  destruct c; cbn [call fst]; intros Ht H.
  - now apply applyControlInputs_throttleInRange.
  - now apply update_throttleInRange.
  - exact H.
  - exact H.
  - exact H.
  - exact H.
Qed.

Lemma run_throttleInRange (calls : list Call) :
  forall e, monotoneTimestamps calls e -> throttleInRange e ->
            throttleInRange (run calls e).
Proof.
  induction calls as [| c rest IH]; intros e Hm H; cbn [run].
  - exact H.
  - destruct Hm as [Hc Hrest].
    apply IH; [exact Hrest | now apply call_throttleInRange].
Qed.

Lemma constructor_throttleInRange (initialHeadingDegrees perfNow : R) :
  throttleInRange (constructor initialHeadingDegrees perfNow).
Proof.
  unfold throttleInRange. cbn. pose proof MAX_THROTTLE_pos. lra.
Qed.

(** ** Clamping of the control state *)

(** C5.  After any call of [applyControlInputs], at any point of any
    sequence of calls on an engine whose updates receive non-decreasing
    timestamps, every component of [angularVelocity] lies in
    [-MAX_ANGULAR_VELOCITY, MAX_ANGULAR_VELOCITY], the pitch and roll
    components of [rotation] lie in [-MAX_ROTATION, MAX_ROTATION], and
    [throttle] lies in [0, MAX_THROTTLE]. *)
Theorem applyControlInputs_clamps (initialHeadingDegrees perfNow : R)
    (calls : list Call) (rawControls : AircraftControls.t) :
  monotoneTimestamps calls (constructor initialHeadingDegrees perfNow) ->
  let s := state (applyControlInputs rawControls
                    (run calls (constructor initialHeadingDegrees perfNow))) in
  let av := AircraftState.angularVelocity s in
  let r := AircraftState.rotation s in
  let maxAV := AIRCRAFT.PHYSICS.MAX_ANGULAR_VELOCITY in
  let maxRot := AIRCRAFT.PHYSICS.MAX_ROTATION in
  - maxAV <= Vector3.x av <= maxAV /\
  - maxAV <= Vector3.y av <= maxAV /\
  - maxAV <= Vector3.z av <= maxAV /\
  - maxRot <= Euler.x r <= maxRot /\
  - maxRot <= Euler.z r <= maxRot /\
  0 <= AircraftState.throttle s <= MAX_THROTTLE.
Proof.
  intros Hm. cbv zeta.
  set (e := run calls (constructor initialHeadingDegrees perfNow)).
  destruct (applyControlInputs_state rawControls e) as (Hav & Hr & _).
  cbv zeta in Hav, Hr. rewrite Hav, Hr. cbn [Vector3.x Vector3.y Vector3.z Euler.x Euler.z].
  assert (HAV : 0 <= AIRCRAFT.PHYSICS.MAX_ANGULAR_VELOCITY)
    by (unfold AIRCRAFT.PHYSICS.MAX_ANGULAR_VELOCITY; lra).
  assert (HROT : 0 <= AIRCRAFT.PHYSICS.MAX_ROTATION)
    by (unfold AIRCRAFT.PHYSICS.MAX_ROTATION; pose proof PI_RGT_0; lra).
  repeat (split; [now apply clampSym_bounds |]).
  apply applyControlInputs_throttleInRange.
  apply run_throttleInRange; [exact Hm | apply constructor_throttleInRange].
Qed.

Lemma applyControlInputs_clamps_witness :
  let calls := [ApplyControlInputs (AircraftControls.mk 0.8 (-0.8) 0 0.5 0.1);
                Update 16 1016;
                ApplyControlInputs (AircraftControls.mk 0 0 0 0 0);
                Update 33 1033] in
  let s := state (applyControlInputs (AircraftControls.mk 0.8 0.8 0.8 0.5 0)
                    (run calls (constructor 72 0))) in
  let av := AircraftState.angularVelocity s in
  let r := AircraftState.rotation s in
  let maxAV := AIRCRAFT.PHYSICS.MAX_ANGULAR_VELOCITY in
  let maxRot := AIRCRAFT.PHYSICS.MAX_ROTATION in
  - maxAV <= Vector3.x av <= maxAV /\
  - maxAV <= Vector3.y av <= maxAV /\
  - maxAV <= Vector3.z av <= maxAV /\
  - maxRot <= Euler.x r <= maxRot /\
  - maxRot <= Euler.z r <= maxRot /\
  0 <= AircraftState.throttle s <= MAX_THROTTLE.
Proof.
  apply (applyControlInputs_clamps 72 0).
  cbn [monotoneTimestamps call fst].
  split; [exact I |].
  split; [rewrite applyControlInputs_lastUpdateTime; cbn; lra |].
  split; [exact I |].
  split; [| exact I].
  rewrite applyControlInputs_lastUpdateTime, update_lastUpdateTime. lra.
Defined.

(** ** The ground clamp *)

Lemma enforceGroundCollision_aboveGround (s : AircraftState.t) :
  0 <= Vector3.y (AircraftState.position (enforceGroundCollision s)).
Proof.
  unfold enforceGroundCollision.
  destruct (Rlt_dec (Vector3.y (AircraftState.position s)) 0) as [Hneg | Hpos].
  - cbv zeta. case_if; cbn; lra.
  - lra.
Qed.

Lemma updateAircraftPhysics_aboveGround (deltaTime now : R) (e : AircraftPhysics.t) :
  aboveGround (updateAircraftPhysics deltaTime now e).
Proof.
  unfold aboveGround. rewrite updateAircraftPhysics_state. cbv zeta.
  change (AircraftState.position (updateDerivedFields ?s)) with (AircraftState.position s).
  apply enforceGroundCollision_aboveGround.
Qed.

Lemma applyBoundaryForcesIfNeeded_position (deltaTime : R) (e : AircraftPhysics.t) :
  AircraftState.position (state (applyBoundaryForcesIfNeeded deltaTime e)) =
  AircraftState.position (state e).
Proof.
  destruct (applyBoundaryForcesIfNeeded_frame deltaTime e) as (_ & Hs & _).
  cbv zeta in Hs. rewrite Hs. reflexivity.
Qed.

(** A frame that is not skipped ends above ground, whatever the state
    it starts from. *)
Lemma update_aboveGround_run (currentTime now : R) (e : AircraftPhysics.t) :
  ~ 0.1 < (currentTime - lastUpdateTime e) / 1000 ->
  aboveGround (fst (update currentTime now e)).
Proof.
  intros Hrun. rewrite update_state by exact Hrun.
  unfold aboveGround. cbn [state AircraftPhysics.with_hasUserInput].
  rewrite applyBoundaryForcesIfNeeded_position.
  apply updateAircraftPhysics_aboveGround.
Qed.

Lemma update_aboveGround (currentTime now : R) (e : AircraftPhysics.t) :
  aboveGround e -> aboveGround (fst (update currentTime now e)).
Proof.
  intros H.
  destruct (Rlt_dec 0.1 ((currentTime - lastUpdateTime e) / 1000)) as [Hskip | Hrun].
  - rewrite update_stalled by exact Hskip. exact H.
  - now apply update_aboveGround_run.
Qed.

Lemma call_aboveGround (c : Call) (e : AircraftPhysics.t) :
  aboveGround e -> aboveGround (fst (call c e)).
Proof.
  destruct c; cbn [call fst]; intros H; try exact H.
  - unfold aboveGround.
    destruct (applyControlInputs_state rawControls e) as (_ & _ & _ & Hp & _).
    cbv zeta in Hp. rewrite Hp. exact H.
  - now apply update_aboveGround.
Qed.

Lemma run_aboveGround (calls : list Call) :
  forall e, aboveGround e -> aboveGround (run calls e).
Proof.
  induction calls as [| c rest IH]; intros e H; cbn [run]; [exact H |].
  apply IH. now apply call_aboveGround.
Qed.

Lemma constructor_aboveGround (initialHeadingDegrees perfNow : R) :
  aboveGround (constructor initialHeadingDegrees perfNow).
Proof. unfold aboveGround. cbn. unfold AIRCRAFT.DEFAULT_ALTITUDE. lra. Qed.

(** C6.  After every [update], at any point of any sequence of calls on
    a constructed engine, [position.y >= 0].  The ground-collision block
    acts only when the integrated [position.y] is negative: it sets
    [position.y] to 0; when the vertical velocity at impact is below
    -0.5 it reflects 10% of it upward and scales both horizontal
    components by 0.8, otherwise it zeroes the vertical velocity. *)
Theorem update_keeps_aircraft_above_ground (initialHeadingDegrees perfNow : R)
    (calls : list Call) (currentTime now : R) :
  let e := run calls (constructor initialHeadingDegrees perfNow) in
  0 <= Vector3.y (AircraftState.position (state (fst (update currentTime now e)))) /\
  forall s : AircraftState.t,
    let p := AircraftState.position s in
    let v := AircraftState.velocity s in
    let s' := enforceGroundCollision s in
    (Vector3.y p < 0 ->
       AircraftState.position s' = Vector3.mk (Vector3.x p) 0 (Vector3.z p) /\
       (Vector3.y v < -0.5 ->
          AircraftState.velocity s' =
            Vector3.mk (Vector3.x v * 0.8) (Rabs (Vector3.y v) * 0.1) (Vector3.z v * 0.8)) /\
       (-0.5 <= Vector3.y v ->
          AircraftState.velocity s' = Vector3.mk (Vector3.x v) 0 (Vector3.z v))) /\
    (0 <= Vector3.y p -> s' = s).
Proof.
  cbv zeta. split.
  - apply update_aboveGround, run_aboveGround, constructor_aboveGround.
  - intros s. unfold enforceGroundCollision. split.
    + intros Hneg.
      destruct (Rlt_dec (Vector3.y (AircraftState.position s)) 0); [| lra].
      cbv zeta.
      destruct (Rlt_dec (Vector3.y (AircraftState.velocity _)) (-0.5)) as [Hb | Hb];
        cbn in Hb |- *; repeat split; intros; try reflexivity; lra.
    + intros Hpos.
      destruct (Rlt_dec (Vector3.y (AircraftState.position s)) 0); [lra | reflexivity].
Qed.

Lemma update_keeps_aircraft_above_ground_witness :
  let s :=
    AircraftState.with_velocity (Vector3.mk 1 (-1) 1)
      (AircraftState.with_position (Vector3.mk 5 (-0.02) 7)
         (state (constructor 72 0))) in
  let s' := enforceGroundCollision s in
  AircraftState.position s' = Vector3.mk 5 0 7 /\
  AircraftState.velocity s' = Vector3.mk (1 * 0.8) (Rabs (-1) * 0.1) (1 * 0.8).
Proof.
  destruct (update_keeps_aircraft_above_ground 72 0 [] 16 1016) as [_ H].
  specialize (H (AircraftState.with_velocity (Vector3.mk 1 (-1) 1)
                   (AircraftState.with_position (Vector3.mk 5 (-0.02) 7)
                      (state (constructor 72 0))))).
  destruct H as [H _].
  destruct H as (Hp & Hv & _); [cbn; lra |].
  split; [exact Hp |].
  apply Hv. cbn. lra.
Defined.

(** ** Boundary detection *)

(** The haversine distance between two points of one meridian is the
    Earth radius times their angular separation. *)
Lemma calculateGeoDistanceKm_meridian (lon lat delta : R) :
  0 <= delta < PI ->
  calculateGeoDistanceKm lon (lat + delta * (180 / PI)) lon lat = 6371 * delta.
Proof.
  intros [Hlo Hhi]. pose proof PI_RGT_0 as HPI.
  unfold calculateGeoDistanceKm, MathUtils.degToRad. cbv zeta.
  replace ((lat - (lat + delta * (180 / PI))) * (PI / 180) / 2)
    with (- (delta / 2)) by (field; lra).
  replace ((lon - lon) * (PI / 180) / 2) with 0 by lra.
  rewrite sin_0, sin_neg.
  set (h := delta / 2).
  assert (Hsin : 0 <= sin h) by (apply sin_ge_0; unfold h; lra).
  assert (Hcos : 0 < cos h) by (apply cos_gt_0; unfold h; lra).
  match goal with
  | |- context [sqrt (1 - ?a)] =>
      replace a with (sin h * sin h) by ring
  end.
  rewrite sqrt_square by exact Hsin.
  replace (1 - sin h * sin h) with (cos h * cos h)
    by (pose proof (sin2_cos2 h) as H2; unfold Rsqr in H2; lra).
  rewrite sqrt_square by lra.
  unfold Math_atan2.
  destruct (Rlt_dec 0 (cos h)) as [_ | Hn]; [| contradiction].
  change (sin h / cos h) with (tan h).
  rewrite atan_tan by (unfold h; lra).
  unfold h. lra.
Qed.

Lemma updateMapPosition_status (mapPosition : LngLat.t) (e : AircraftPhysics.t) :
  let d := calculateGeoDistanceKm (LngLat.lng mapPosition) (LngLat.lat mapPosition)
             (LngLat.lng MAP_BOUNDARY.CENTER) (LngLat.lat MAP_BOUNDARY.CENTER) in
  let dir := calculateGeoDirection (LngLat.lng mapPosition) (LngLat.lat mapPosition)
               (LngLat.lng MAP_BOUNDARY.CENTER) (LngLat.lat MAP_BOUNDARY.CENTER) in
  let e' := updateMapPosition mapPosition e in
  AircraftPhysics.boundaryStatus e' =
    BoundaryStatus.mk d (MAP_BOUNDARY.RADIUS_KM - d) (d / MAP_BOUNDARY.RADIUS_KM)
      (Rleb (MAP_BOUNDARY.RADIUS_KM - d) 0)
      (Rleb MAP_BOUNDARY.WARNING_THRESHOLD (d / MAP_BOUNDARY.RADIUS_KM)
       && Rltb (d / MAP_BOUNDARY.RADIUS_KM) 1)
      (Vector2.mk (- Vector2.x dir) (- Vector2.y dir)) /\
  AircraftState.boundaryStatus (state e') = AircraftPhysics.boundaryStatus e' /\
  state e' =
    AircraftState.with_boundaryStatus (AircraftPhysics.boundaryStatus e')
      (AircraftState.with_mapPosition mapPosition (state e)).
Proof. repeat split. Qed.

(** C8.  With the configured centre, radius R and warning threshold
    0.85: recomputing the boundary status at a map position whose
    haversine distance from the centre is 0.5 R gives
    [isNearBoundary = false] and [isCrossingBoundary = false]; at
    0.9 R it gives [isNearBoundary = true]; at 1.1 R it gives
    [isCrossingBoundary = true]. *)
Theorem boundary_detection (mapPosition : LngLat.t) (e : AircraftPhysics.t) (k : R) :
  calculateGeoDistanceKm (LngLat.lng mapPosition) (LngLat.lat mapPosition)
    (LngLat.lng MAP_BOUNDARY.CENTER) (LngLat.lat MAP_BOUNDARY.CENTER)
  = k * MAP_BOUNDARY.RADIUS_KM ->
  let e' := updateMapPosition mapPosition e in
  let b := AircraftPhysics.boundaryStatus e' in
  AircraftState.boundaryStatus (state e') = b /\
  (k = 0.5 -> BoundaryStatus.isNearBoundary b = false /\
              BoundaryStatus.isCrossingBoundary b = false) /\
  (k = 0.9 -> BoundaryStatus.isNearBoundary b = true) /\
  (k = 1.1 -> BoundaryStatus.isCrossingBoundary b = true).
Proof.
  intros Hd. cbv zeta.
  destruct (updateMapPosition_status mapPosition e) as (Hb & Hs & _).
  cbv zeta in Hb, Hs. rewrite Hs, Hb, Hd.
  cbn [BoundaryStatus.isNearBoundary BoundaryStatus.isCrossingBoundary].
  unfold MAP_BOUNDARY.RADIUS_KM, MAP_BOUNDARY.WARNING_THRESHOLD.
  split; [reflexivity |].
  split; [| split].
  - intros ->. split.
    + apply andb_false_iff. left. apply Rleb_false. lra.
    + apply Rleb_false. lra.
  - intros ->. apply andb_true_iff.
    split; [apply Rleb_true | apply Rltb_true]; lra.
  - intros ->. apply Rleb_true. lra.
Qed.

(** The points 5 km, 9 km and 11 km due north of the centre. *)
Lemma boundary_detection_witness :
  let north (km : R) := LngLat.mk 106.636 (10.811 + km / 6371 * (180 / PI)) in
  let status (km : R) :=
    AircraftPhysics.boundaryStatus (updateMapPosition (north km) (constructor 72 0)) in
  (BoundaryStatus.isNearBoundary (status 5) = false /\
   BoundaryStatus.isCrossingBoundary (status 5) = false) /\
  BoundaryStatus.isNearBoundary (status 9) = true /\
  BoundaryStatus.isCrossingBoundary (status 11) = true.
Proof.
  assert (Hd : forall km k, 0 <= km < 6371 -> km = k * 10 ->
            calculateGeoDistanceKm 106.636 (10.811 + km / 6371 * (180 / PI))
              (LngLat.lng MAP_BOUNDARY.CENTER) (LngLat.lat MAP_BOUNDARY.CENTER)
            = k * MAP_BOUNDARY.RADIUS_KM).
  { intros km k Hkm Hk.
    cbn [MAP_BOUNDARY.CENTER DEFAULT_CENTER LngLat.lng LngLat.lat].
    rewrite calculateGeoDistanceKm_meridian
      by (pose proof PI2_1; split; lra).
    unfold MAP_BOUNDARY.RADIUS_KM. lra. }
  cbv zeta. split; [| split].
  - apply (boundary_detection
             (LngLat.mk 106.636 (10.811 + 5 / 6371 * (180 / PI)))
             (constructor 72 0) 0.5); [apply Hd; lra | reflexivity].
  - apply (boundary_detection
             (LngLat.mk 106.636 (10.811 + 9 / 6371 * (180 / PI)))
             (constructor 72 0) 0.9); [apply Hd; lra | reflexivity].
  - apply (boundary_detection
             (LngLat.mk 106.636 (10.811 + 11 / 6371 * (180 / PI)))
             (constructor 72 0) 1.1); [apply Hd; lra | reflexivity].
Defined.

(** ** Idle decay *)

Lemma Math_pow_decay (b t : R) : 0 < b < 1 -> 0 <= t -> 0 < Math_pow b t <= 1.
Proof.
  intros [Hb0 Hb1] Ht. unfold Math_pow.
  destruct (Rlt_dec 0 b) as [_ | Hn]; [| lra].
  unfold Rpower. split; [apply exp_pos |].
  assert (Hln : ln b < 0) by (rewrite <- ln_1; now apply ln_increasing).
  destruct (Req_dec_T t 0) as [-> | Hne].
  - rewrite Rmult_0_l, exp_0. lra.
  - left. rewrite <- exp_0. apply exp_increasing. nra.
Qed.

Lemma rotation_applyStabilization (deltaTime : R) (hui : bool) (s : AircraftState.t) :
  AircraftState.rotation (applyStabilization deltaTime hui s) =
  let r := AircraftState.rotation s in
  let k := Math_pow (1 - AIRCRAFT.PHYSICS.STABILIZATION.RATE)
             (deltaTime * AIRCRAFT.PHYSICS.DAMPING.PHYSICS_RATE) in
  if hui then r else Euler.mk (Euler.x r * k) (Euler.y r) (Euler.z r * k).
Proof. destruct hui; reflexivity. Qed.

Lemma update_rotation (currentTime now : R) (e : AircraftPhysics.t) :
  let deltaTime := (currentTime - lastUpdateTime e) / 1000 in
  ~ 0.1 < deltaTime ->
  AircraftState.rotation (state (fst (update currentTime now e))) =
  AircraftState.rotation
    (applyStabilization deltaTime (hasUserInput e)
       (applyRotation deltaTime now (state e))).
Proof.
  cbv zeta. intros H. rewrite update_state by exact H.
  cbn [state AircraftPhysics.with_hasUserInput].
  match goal with
  | |- context [applyBoundaryForcesIfNeeded ?dt ?e1] =>
      destruct (applyBoundaryForcesIfNeeded_frame dt e1) as (_ & Hs & _);
      cbv zeta in Hs; rewrite Hs
  end.
  cbn [AircraftState.rotation AircraftState.with_mapPosition AircraftState.with_velocity].
  rewrite rotation_updateAircraftPhysics.
  destruct (checkBoundaryStatus_frame now
              (AircraftPhysics.with_lastUpdateTime currentTime e)) as (Hc & Hh & _).
  cbv zeta in Hc, Hh. rewrite Hh, Hc.
  cbn [hasUserInput AircraftPhysics.with_lastUpdateTime state].
  unfold applyStabilization, applyRotation. cbv zeta.
  destruct (hasUserInput e); reflexivity.
Qed.

Lemma update_angularVelocity (currentTime now : R) (e : AircraftPhysics.t) :
  let deltaTime := (currentTime - lastUpdateTime e) / 1000 in
  ~ 0.1 < deltaTime ->
  AircraftState.angularVelocity (state (fst (update currentTime now e))) =
  AircraftState.angularVelocity (applyAngularDamping deltaTime (state e)).
Proof.
  cbv zeta. intros H. rewrite update_state by exact H.
  cbn [state AircraftPhysics.with_hasUserInput].
  match goal with
  | |- context [applyBoundaryForcesIfNeeded ?dt ?e1] =>
      destruct (applyBoundaryForcesIfNeeded_frame dt e1) as (_ & Hs & _);
      cbv zeta in Hs; rewrite Hs
  end.
  cbn [AircraftState.angularVelocity AircraftState.with_mapPosition
       AircraftState.with_velocity].
  rewrite angularVelocity_updateAircraftPhysics.
  destruct (checkBoundaryStatus_frame now
              (AircraftPhysics.with_lastUpdateTime currentTime e)) as (Hc & _).
  cbv zeta in Hc. rewrite Hc.
  reflexivity.
Qed.

(** One frame without control input: the throttle does not grow. *)
Lemma update_throttle_decays (currentTime now : R) (e : AircraftPhysics.t) :
  lastUpdateTime e <= currentTime ->
  let t := AircraftState.throttle (state e) in
  let t' := AircraftState.throttle (state (fst (update currentTime now e))) in
  t' <= t /\ (0 <= t -> 0 <= t').
Proof.
  intros Ht. cbv zeta.
  destruct (Rlt_dec 0.1 ((currentTime - lastUpdateTime e) / 1000)) as [Hskip | Hrun].
  - rewrite update_stalled by exact Hskip. cbn. lra.
  - rewrite update_throttle by exact Hrun.
    unfold applyThrottleDecay.
    destruct (hasUserInput e); cbn [negb]; [lra |].
    case_if; [| lra]. cbn.
    unfold THROTTLE_DECAY_RATE, AIRCRAFT.DECAY_RATES.THROTTLE, Rmax.
    case_if; nra.
Qed.

(** One frame from a state whose pitch and roll rates are zero: pitch
    and roll do not grow in magnitude, and the rates stay zero. *)
Lemma update_relaxes_level_rates (currentTime now : R) (e : AircraftPhysics.t) :
  lastUpdateTime e <= currentTime ->
  Vector3.x (AircraftState.angularVelocity (state e)) = 0 ->
  Vector3.z (AircraftState.angularVelocity (state e)) = 0 ->
  let r := AircraftState.rotation (state e) in
  let e' := fst (update currentTime now e) in
  let r' := AircraftState.rotation (state e') in
  Rabs (Euler.x r') <= Rabs (Euler.x r) /\
  Rabs (Euler.z r') <= Rabs (Euler.z r) /\
  Vector3.x (AircraftState.angularVelocity (state e')) = 0 /\
  Vector3.z (AircraftState.angularVelocity (state e')) = 0.
Proof.
  intros Ht Hx Hz. cbv zeta.
  destruct (Rlt_dec 0.1 ((currentTime - lastUpdateTime e) / 1000)) as [Hskip | Hrun].
  - rewrite update_stalled by exact Hskip. cbn. repeat split; trivial; lra.
  - rewrite update_rotation, update_angularVelocity by exact Hrun.
    set (dt := (currentTime - lastUpdateTime e) / 1000) in *.
    assert (Hdt : 0 <= dt) by (unfold dt; lra).
    assert (Hrot : AircraftState.rotation (applyRotation dt now (state e)) =
                   Euler.mk (Euler.x (AircraftState.rotation (state e)))
                            (Euler.y (AircraftState.rotation (state e)) +
                             Vector3.y (AircraftState.angularVelocity (state e)) * dt)
                            (Euler.z (AircraftState.rotation (state e)))).
    { unfold applyRotation. cbv zeta. rewrite Hx, Hz, Rabs_R0.
      destruct (Rlt_dec AIRCRAFT.PHYSICS.BANKING.ROLL_VELOCITY_THRESHOLD 0) as [Hc | _].
      - unfold AIRCRAFT.PHYSICS.BANKING.ROLL_VELOCITY_THRESHOLD in Hc. lra.
      - cbn. f_equal; lra. }
    destruct (Math_pow_decay (1 - AIRCRAFT.PHYSICS.STABILIZATION.RATE)
                (dt * AIRCRAFT.PHYSICS.DAMPING.PHYSICS_RATE)) as [Hk0 Hk1].
    { unfold AIRCRAFT.PHYSICS.STABILIZATION.RATE. lra. }
    { unfold AIRCRAFT.PHYSICS.DAMPING.PHYSICS_RATE. lra. }
    rewrite rotation_applyStabilization, Hrot. cbv zeta.
    split; [| split; [| split]].
    + destruct (hasUserInput e); cbn [Euler.x]; [lra |].
      rewrite Rabs_mult, (Rabs_pos_eq (Math_pow _ _)) by lra.
      pose proof (Rabs_pos (Euler.x (AircraftState.rotation (state e)))). nra.
    + destruct (hasUserInput e); cbn [Euler.z]; [lra |].
      rewrite Rabs_mult, (Rabs_pos_eq (Math_pow _ _)) by lra.
      pose proof (Rabs_pos (Euler.z (AircraftState.rotation (state e)))). nra.
    + unfold applyAngularDamping. cbn. rewrite Hx. lra.
    + unfold applyAngularDamping. cbn. rewrite Hz. lra.
Qed.

Lemma idleTicks_level_rates (n : nat) (deltaTime : R) (clock : nat -> R)
    (e : AircraftPhysics.t) :
  0 < deltaTime ->
  Vector3.x (AircraftState.angularVelocity (state e)) = 0 ->
  Vector3.z (AircraftState.angularVelocity (state e)) = 0 ->
  Vector3.x (AircraftState.angularVelocity (state (idleTicks n deltaTime clock e))) = 0 /\
  Vector3.z (AircraftState.angularVelocity (state (idleTicks n deltaTime clock e))) = 0.
Proof.
  intros Hdt Hx Hz. induction n as [| k [IHx IHz]]; cbn [idleTicks]; [now split |].
  cbv zeta.
  destruct (update_relaxes_level_rates
              (lastUpdateTime (idleTicks k deltaTime clock e) + deltaTime * 1000)
              (clock k) (idleTicks k deltaTime clock e)) as (_ & _ & Hx' & Hz');
    trivial; lra.
Qed.

Lemma idleTicks_throttle_nonneg (n : nat) (deltaTime : R) (clock : nat -> R)
    (e : AircraftPhysics.t) :
  0 < deltaTime ->
  0 <= AircraftState.throttle (state e) ->
  0 <= AircraftState.throttle (state (idleTicks n deltaTime clock e)).
Proof.
  intros Hdt H. induction n as [| k IH]; cbn [idleTicks]; [exact H |].
  cbv zeta.
  apply (update_throttle_decays
           (lastUpdateTime (idleTicks k deltaTime clock e) + deltaTime * 1000)
           (clock k) (idleTicks k deltaTime clock e)); [lra | exact IH].
Qed.

(** C9, as the code has it.  Over consecutive frames a fixed positive
    [deltaTime] apart with no control input in between, the throttle
    never increases from one frame to the next and stays non-negative
    when it starts so, for every starting state; and when the starting
    state has zero pitch and roll angular velocity, the magnitudes of
    the pitch ([rotation.x]) and roll ([rotation.z]) components never
    increase from one frame to the next. *)
Theorem idle_decay (n : nat) (deltaTime : R) (clock : nat -> R)
    (e : AircraftPhysics.t) :
  0 < deltaTime ->
  let e1 := idleTicks n deltaTime clock e in
  let e2 := idleTicks (S n) deltaTime clock e in
  AircraftState.throttle (state e2) <= AircraftState.throttle (state e1) /\
  (0 <= AircraftState.throttle (state e) -> 0 <= AircraftState.throttle (state e2)) /\
  (Vector3.x (AircraftState.angularVelocity (state e)) = 0 ->
   Vector3.z (AircraftState.angularVelocity (state e)) = 0 ->
   Rabs (Euler.x (AircraftState.rotation (state e2)))
   <= Rabs (Euler.x (AircraftState.rotation (state e1))) /\
   Rabs (Euler.z (AircraftState.rotation (state e2)))
   <= Rabs (Euler.z (AircraftState.rotation (state e1)))).
Proof.
  intros Hdt. cbv zeta. split; [| split].
  - cbn [idleTicks]. cbv zeta.
    apply (update_throttle_decays
             (lastUpdateTime (idleTicks n deltaTime clock e) + deltaTime * 1000)
             (clock n) (idleTicks n deltaTime clock e)). lra.
  - intros H. now apply idleTicks_throttle_nonneg.
  - intros Hx Hz.
    destruct (idleTicks_level_rates n deltaTime clock e Hdt Hx Hz) as [Hx' Hz'].
    cbn [idleTicks]. cbv zeta.
    destruct (update_relaxes_level_rates
                (lastUpdateTime (idleTicks n deltaTime clock e) + deltaTime * 1000)
                (clock n) (idleTicks n deltaTime clock e)) as (H1 & H2 & _);
      trivial; [lra | now split].
Qed.

(** An engine gliding with throttle 0.3, pitched 0.2 rad and rolled
    -0.1 rad, with no angular velocity, over three frames at 62.5 Hz. *)
Lemma idle_decay_witness :
  let s0 := state (constructor 72 0) in
  let e := AircraftPhysics.with_state
             (AircraftState.with_throttle 0.3
                (AircraftState.with_rotation (Euler.mk 0.2 0 (-0.1)) s0))
             (constructor 72 0) in
  let clock := fun k : nat => 1000 + 16 * INR k in
  let e1 := idleTicks 2 0.016 clock e in
  let e2 := idleTicks 3 0.016 clock e in
  AircraftState.throttle (state e2) <= AircraftState.throttle (state e1) /\
  0 <= AircraftState.throttle (state e2) /\
  Rabs (Euler.x (AircraftState.rotation (state e2)))
  <= Rabs (Euler.x (AircraftState.rotation (state e1))) /\
  Rabs (Euler.z (AircraftState.rotation (state e2)))
  <= Rabs (Euler.z (AircraftState.rotation (state e1))).
Proof.
  cbv zeta.
  match goal with
  | |- context [idleTicks 3 ?dt ?clock ?e] =>
      destruct (idle_decay 2 dt clock e) as (Ht & Hpos & Hrot); [lra |]
  end.
  split; [exact Ht |].
  split; [apply Hpos; cbn; lra |].
  apply Hrot; reflexivity.
Defined.

(** C9 as stated fails on a state with a residual pitch rate: level
    (pitch 0) with [angularVelocity.x = 1], one idle frame of 16 ms
    leaves a non-zero pitch. *)
Lemma idle_decay_counterexample :
  let s0 := state (constructor 0 0) in
  let e := AircraftPhysics.with_state
             (AircraftState.with_angularVelocity (Vector3.mk 1 0 0) s0)
             (constructor 0 0) in
  let e1 := idleTicks 1 0.016 (fun _ => 0) e in
  Rabs (Euler.x (AircraftState.rotation (state e))) <
  Rabs (Euler.x (AircraftState.rotation (state e1))).
Proof.
  cbv zeta. cbn [idleTicks]. cbv zeta.
  rewrite update_rotation by (cbn; lra).
  rewrite rotation_applyStabilization. cbv zeta.
  cbn [hasUserInput AircraftPhysics.with_state constructor lastUpdateTime state].
  unfold applyRotation. cbv zeta.
  cbn [AircraftState.rotation AircraftState.with_rotation AircraftState.angularVelocity
       AircraftState.with_angularVelocity Vector3.x Vector3.y Vector3.z
       Euler.x Euler.y Euler.z].
  rewrite Rabs_R0.
  destruct (Rlt_dec AIRCRAFT.PHYSICS.BANKING.ROLL_VELOCITY_THRESHOLD 0) as [Hc | _].
  { unfold AIRCRAFT.PHYSICS.BANKING.ROLL_VELOCITY_THRESHOLD in Hc. lra. }
  cbn [Euler.x].
  destruct (Math_pow_decay (1 - AIRCRAFT.PHYSICS.STABILIZATION.RATE)
              ((0 + 0.016 * 1000 - 0) / 1000 * AIRCRAFT.PHYSICS.DAMPING.PHYSICS_RATE))
    as [Hk0 Hk1].
  { unfold AIRCRAFT.PHYSICS.STABILIZATION.RATE. lra. }
  { unfold AIRCRAFT.PHYSICS.DAMPING.PHYSICS_RATE. lra. }
  rewrite Rabs_mult, (Rabs_pos_eq (Math_pow _ _)) by lra.
  rewrite (Rabs_pos_eq (0 + _)) by lra.
  nra.
Qed.
(** ** Straight and level flight *)

Lemma Math_sign_0 : Math_sign 0 = 0.
Proof. unfold Math_sign. repeat case_if; lra. Qed.

Lemma applyRotation_still (deltaTime now : R) (s : AircraftState.t) :
  AircraftState.angularVelocity s = Vector3.mk 0 0 0 ->
  applyRotation deltaTime now s = s.
Proof.
  intros Hav. unfold applyRotation. cbv zeta. rewrite Hav.
  cbn [Vector3.x Vector3.y Vector3.z]. rewrite Rabs_R0.
  destruct (Rlt_dec AIRCRAFT.PHYSICS.BANKING.ROLL_VELOCITY_THRESHOLD 0) as [Hc | _].
  { unfold AIRCRAFT.PHYSICS.BANKING.ROLL_VELOCITY_THRESHOLD in Hc. lra. }
  destruct s as [p v sp al hd pi ro [rx ry rz] av th fl gr mp bs].
  unfold AircraftState.with_rotation. cbn. do 2 f_equal; lra.
Qed.

Lemma applyAngularDamping_still (deltaTime : R) (s : AircraftState.t) :
  AircraftState.angularVelocity s = Vector3.mk 0 0 0 ->
  applyAngularDamping deltaTime s = s.
Proof.
  intros Hav. unfold applyAngularDamping. cbv zeta. rewrite Hav.
  cbn [Vector3.x Vector3.y Vector3.z].
  destruct s as [p v sp al hd pi ro rot av th fl gr mp bs].
  cbn in Hav |- *. subst av. unfold AircraftState.with_angularVelocity. cbn.
  do 2 f_equal; lra.
Qed.

(** Thrust with wings level, no pitch, heading due south: the velocity
    gains [throttle * THRUST_MULTIPLIER * deltaTime] along +z. *)
Lemma applyThrust_level_south (deltaTime vt : R) (s : AircraftState.t) :
  AircraftState.rotation s = Euler.mk 0 PI 0 ->
  MIN_THROTTLE_TO_MOVE < AircraftState.throttle s ->
  applyThrust deltaTime vt s =
  AircraftState.with_velocity
    (Vector3.mk (Vector3.x (AircraftState.velocity s))
                (Vector3.y (AircraftState.velocity s))
                (Vector3.z (AircraftState.velocity s) +
                 AircraftState.throttle s * 3 * deltaTime)) s.
Proof.
  intros Hrot Hthr. unfold applyThrust, applyYawMatrix. cbv zeta. rewrite Hrot.
  cbn [Euler.x Euler.y Euler.z Vector3.x Vector3.y Vector3.z].
  destruct (Rlt_dec MIN_THROTTLE_TO_MOVE (AircraftState.throttle s)) as [_ | Hn];
    [| contradiction].
  rewrite sin_PI, cos_PI, Math_sign_0, Rabs_R0.
  destruct (Rlt_dec AIRCRAFT.PHYSICS.BANK_LIFT_LOSS.ANGLE_THRESHOLD 0) as [Hc | _].
  { unfold AIRCRAFT.PHYSICS.BANK_LIFT_LOSS.ANGLE_THRESHOLD in Hc. lra. }
  unfold AIRCRAFT.PHYSICS.FORWARD_MOVEMENT.THRUST_MULTIPLIER,
         AIRCRAFT.PHYSICS.FORWARD_MOVEMENT.PITCH_INFLUENCE.
  do 2 f_equal; lra.
Qed.

(** The speed limit on a velocity along +z. *)
Lemma applySpeedLimit_along_z (w : R) (s : AircraftState.t) :
  MAX_SPEED < w ->
  AircraftState.velocity s = Vector3.mk 0 0 w ->
  applySpeedLimit s = AircraftState.with_velocity (Vector3.mk 0 0 MAX_SPEED) s.
Proof.
  intros Hw Hv. unfold applySpeedLimit. cbv zeta. rewrite Hv.
  assert (Hpos : 0 < w) by (unfold MAX_SPEED, AIRCRAFT.MAX_SPEED in Hw; lra).
  assert (Hlen : Vector3.length (Vector3.mk 0 0 w) = w).
  { unfold Vector3.length. cbn [Vector3.x Vector3.y Vector3.z].
    replace (0 * 0 + 0 * 0 + w * w) with (w * w) by lra.
    apply sqrt_square. lra. }
  rewrite Hlen.
  destruct (Rlt_dec MAX_SPEED w) as [_ | Hn]; [| contradiction].
  unfold Vector3.normalize, Vector3.divideScalar, Vector3.multiplyScalar, num_or.
  rewrite Hlen.
  destruct (Req_dec_T w 0) as [Hz | _]; [lra |].
  cbn [Vector3.x Vector3.y Vector3.z].
  do 2 f_equal; field; lra.
Qed.

Lemma length_along_z (w : R) : 0 <= w -> Vector3.length (Vector3.mk 0 0 w) = w.
Proof.
  intros Hw. unfold Vector3.length. cbn [Vector3.x Vector3.y Vector3.z].
  replace (0 * 0 + 0 * 0 + w * w) with (w * w) by lra.
  now apply sqrt_square.
Qed.

Lemma applyVerticalThrust_none (deltaTime : R) (s : AircraftState.t) :
  applyVerticalThrust deltaTime 0 s = s.
Proof.
  unfold applyVerticalThrust. destruct (Req_dec_T 0 0); [reflexivity | contradiction].
Qed.

Lemma enforceGroundCollision_airborne (s : AircraftState.t) :
  0 <= Vector3.y (AircraftState.position s) -> enforceGroundCollision s = s.
Proof.
  intros H. unfold enforceGroundCollision.
  destruct (Rlt_dec (Vector3.y (AircraftState.position s)) 0); [lra | reflexivity].
Qed.

(** One integration step of an airborne aircraft flying level and due
    south under throttle, a key held, fast enough for the speed limit to
    act: the step ends with the velocity at [MAX_SPEED] along +z, and
    with [speed = MAX_SPEED]. *)
Lemma updateAircraftPhysics_level_south (deltaTime now w0 : R) (e : AircraftPhysics.t) :
  AircraftState.angularVelocity (state e) = Vector3.mk 0 0 0 ->
  AircraftState.rotation (state e) = Euler.mk 0 PI 0 ->
  AircraftState.velocity (state e) = Vector3.mk 0 0 w0 ->
  MIN_THROTTLE_TO_MOVE < AircraftState.throttle (state e) ->
  AircraftControls.verticalThrust (prevControls e) = 0 ->
  hasUserInput e = true ->
  0 <= Vector3.y (AircraftState.position (state e)) ->
  MAX_SPEED < (w0 + AircraftState.throttle (state e) * 3 * deltaTime) *
              (1 - HORIZONTAL_DECAY_RATE * deltaTime) ->
  let s' := state (updateAircraftPhysics deltaTime now e) in
  AircraftState.velocity s' = Vector3.mk 0 0 MAX_SPEED /\
  AircraftState.speed s' = MAX_SPEED /\
  AircraftState.mapPosition s' = AircraftState.mapPosition (state e).
Proof.
  intros Hav Hrot Hv Hthr Hvt Hhui Hpos Hfast. cbv zeta.
  rewrite updateAircraftPhysics_state. cbv zeta. rewrite Hvt, Hhui.
  rewrite applyRotation_still, applyAngularDamping_still by exact Hav.
  rewrite applyThrust_level_south by assumption.
  rewrite applyVerticalThrust_none.
  change (applyThrottleDecay deltaTime true ?s) with s.
  change (applyStabilization deltaTime true ?s) with s.
  rewrite Hv. cbn [Vector3.x Vector3.y Vector3.z].
  set (w := (w0 + AircraftState.throttle (state e) * 3 * deltaTime) *
            (1 - HORIZONTAL_DECAY_RATE * deltaTime)) in *.
  set (s1 := applyDrag deltaTime _).
  assert (Hv1 : AircraftState.velocity s1 = Vector3.mk 0 0 w).
  { unfold s1, applyDrag. cbn. unfold w. f_equal; lra. }
  assert (Hp1 : AircraftState.position s1 = AircraftState.position (state e)) by reflexivity.
  assert (Hm1 : AircraftState.mapPosition s1 = AircraftState.mapPosition (state e)) by reflexivity.
  rewrite (applySpeedLimit_along_z w s1 Hfast Hv1).
  set (s2 := integratePosition deltaTime _).
  assert (Hp2 : 0 <= Vector3.y (AircraftState.position s2)).
  { unfold s2, integratePosition. cbn. lra. }
  rewrite (enforceGroundCollision_airborne s2 Hp2).
  cbn [updateDerivedFields AircraftState.velocity AircraftState.speed
       AircraftState.mapPosition].
  assert (Hv2 : AircraftState.velocity s2 = Vector3.mk 0 0 MAX_SPEED) by reflexivity.
  rewrite Hv2. rewrite length_along_z by (unfold MAX_SPEED, AIRCRAFT.MAX_SPEED; lra).
  repeat split.
Qed.

(** ** The speed limit inside the integrator *)

Lemma length_sqr (v : Vector3.t) :
  Vector3.length v * Vector3.length v =
  Vector3.x v * Vector3.x v + Vector3.y v * Vector3.y v + Vector3.z v * Vector3.z v.
Proof. unfold Vector3.length. apply sqrt_sqrt. nra. Qed.

Lemma applySpeedLimit_cap (s : AircraftState.t) :
  Vector3.length (AircraftState.velocity (applySpeedLimit s)) <= MAX_SPEED.
Proof.
  unfold applySpeedLimit. cbv zeta.
  destruct (Rlt_dec MAX_SPEED (Vector3.length (AircraftState.velocity s))) as [Hfast | Hslow];
    [| lra].
  cbn [AircraftState.velocity AircraftState.with_velocity].
  set (v := AircraftState.velocity s) in *.
  set (l := Vector3.length v) in *.
  assert (HM : 0 < MAX_SPEED) by (unfold MAX_SPEED, AIRCRAFT.MAX_SPEED; lra).
  assert (Hl : 0 < l) by lra.
  unfold Vector3.normalize, Vector3.divideScalar, Vector3.multiplyScalar, num_or.
  fold l. destruct (Req_dec_T l 0) as [Hz | _]; [lra |].
  unfold Vector3.length at 1. cbn [Vector3.x Vector3.y Vector3.z].
  pose proof (length_sqr v) as Hsq. fold l in Hsq.
  match goal with
  | |- sqrt ?a <= _ => replace a with (MAX_SPEED * MAX_SPEED)
  end.
  - rewrite sqrt_square; lra.
  - transitivity
      ((Vector3.x v * Vector3.x v + Vector3.y v * Vector3.y v + Vector3.z v * Vector3.z v)
       * (MAX_SPEED * MAX_SPEED) / (l * l)).
    + rewrite <- Hsq. field. lra.
    + field. lra.
Qed.

Lemma enforceGroundCollision_slows (s : AircraftState.t) :
  Vector3.length (AircraftState.velocity (enforceGroundCollision s))
  <= Vector3.length (AircraftState.velocity s).
Proof.
  unfold enforceGroundCollision.
  destruct (Rlt_dec (Vector3.y (AircraftState.position s)) 0); [| lra].
  cbv zeta.
  destruct (AircraftState.velocity s) as [vx vy vz] eqn:Hv.
  cbn [AircraftState.velocity AircraftState.with_position AircraftState.with_velocity].
  rewrite Hv.
  destruct (Rlt_dec (Vector3.y _) (-0.5));
    cbn [AircraftState.velocity AircraftState.with_velocity];
    unfold Vector3.length, Vector3.with_x, Vector3.with_y, Vector3.with_z;
    cbn [Vector3.x Vector3.y Vector3.z];
    apply sqrt_le_1_alt.
  - assert (Rabs vy * Rabs vy = vy * vy)
      by (rewrite <- Rabs_mult; apply Rabs_pos_eq; nra).
    nra.
  - nra.
Qed.

(** At the end of the integration the velocity is within the cap and
    [speed] is its norm; what [update] does afterwards is the boundary
    forces. *)
Lemma updateAircraftPhysics_speed_cap (deltaTime now : R) (e : AircraftPhysics.t) :
  let s' := state (updateAircraftPhysics deltaTime now e) in
  Vector3.length (AircraftState.velocity s') <= MAX_SPEED /\
  AircraftState.speed s' = Vector3.length (AircraftState.velocity s').
Proof.
  cbv zeta. rewrite updateAircraftPhysics_state. cbv zeta.
  split; [| reflexivity].
  change (AircraftState.velocity (updateDerivedFields ?s)) with (AircraftState.velocity s).
  eapply Rle_trans; [apply enforceGroundCollision_slows |].
  change (AircraftState.velocity (integratePosition ?dt ?s)) with (AircraftState.velocity s).
  match goal with
  | |- context [applyStabilization ?dt ?hui ?s] =>
      replace (AircraftState.velocity (applyStabilization dt hui s))
        with (AircraftState.velocity s) by (destruct hui; reflexivity)
  end.
  apply applySpeedLimit_cap.
Qed.


(** ** The frame that breaks the speed cap *)

Lemma calculateGeoDirection_meridian (lon lat d : R) :
  0 < d -> calculateGeoDirection lon (lat + d) lon lat = Vector2.mk 0 (-1).
Proof.
  intros Hd. unfold calculateGeoDirection. cbv zeta.
  replace ((lon - lon) * (lon - lon) + (lat - (lat + d)) * (lat - (lat + d)))
    with (d * d) by lra.
  rewrite sqrt_square by lra.
  destruct (Req_dec_T d 0); [lra |].
  f_equal; field; lra.
Qed.

(** 9.5 km due north of the centre the status is "near", 95% of the way
    to the edge, and [directionToCenter] is (0, 1). *)
Lemma nearEdge_boundaryStatus :
  let b := AircraftPhysics.boundaryStatus nearEdge in
  BoundaryStatus.isCrossingBoundary b = false /\
  BoundaryStatus.isNearBoundary b = true /\
  BoundaryStatus.percentToEdge b = 0.95 /\
  BoundaryStatus.directionToCenter b = Vector2.mk 0 1.
Proof.
  cbv zeta. unfold nearEdge.
  destruct (updateMapPosition_status (northOfCenter 9.5) cruisingSouth) as (Hb & _).
  cbv zeta in Hb. rewrite Hb. clear Hb.
  cbn [BoundaryStatus.isCrossingBoundary BoundaryStatus.isNearBoundary
       BoundaryStatus.percentToEdge BoundaryStatus.directionToCenter
       northOfCenter LngLat.lng LngLat.lat].
  rewrite calculateGeoDistanceKm_meridian by (pose proof PI2_1; split; lra).
  rewrite calculateGeoDirection_meridian
    by (pose proof PI_RGT_0; apply Rmult_lt_0_compat;
        [lra | apply Rdiv_lt_0_compat; lra]).
  unfold MAP_BOUNDARY.RADIUS_KM, MAP_BOUNDARY.WARNING_THRESHOLD.
  cbn [Vector2.x Vector2.y].
  split; [apply Rleb_false; lra |].
  split; [apply andb_true_iff; split; [apply Rleb_true | apply Rltb_true]; lra |].
  split; [lra | f_equal; lra].
Qed.

(** The cached status survives the periodic recomputation: the map
    position has not changed. *)
Lemma checkBoundaryStatus_nearEdge (currentTime now : R) :
  let e := checkBoundaryStatus now
             (AircraftPhysics.with_lastUpdateTime currentTime nearEdge) in
  state e = state nearEdge /\
  AircraftPhysics.boundaryStatus e = AircraftPhysics.boundaryStatus nearEdge /\
  prevControls e = prevControls nearEdge /\
  hasUserInput e = true /\
  updateListeners e = [7%nat].
Proof.
  cbv zeta. unfold checkBoundaryStatus.
  destruct (MAP_BOUNDARY.ENABLED && Rltb _ _); repeat split.
Qed.

(** The warning-band force on a status 95% of the way to the edge with
    [directionToCenter = (0, 1)]: 20 units per second along +z. *)
Lemma applyBoundaryForcesIfNeeded_near (deltaTime : R) (e : AircraftPhysics.t) :
  0 < deltaTime ->
  let b := AircraftPhysics.boundaryStatus e in
  BoundaryStatus.isCrossingBoundary b = false ->
  BoundaryStatus.isNearBoundary b = true ->
  BoundaryStatus.percentToEdge b = 0.95 ->
  BoundaryStatus.directionToCenter b = Vector2.mk 0 1 ->
  let v := AircraftState.velocity (state e) in
  AircraftState.velocity (state (applyBoundaryForcesIfNeeded deltaTime e)) =
  Vector3.mk (Vector3.x v) (Vector3.y v) (Vector3.z v + 20 * deltaTime).
Proof.
  intros Hdt b Hcross Hnear Hpct Hdir v. subst b v.
  unfold applyBoundaryForcesIfNeeded. rewrite Hnear, Hcross.
  cbn [MAP_BOUNDARY.ENABLED andb orb].
  unfold applyBoundaryForces. rewrite Hnear, Hcross, Hpct.
  cbn [MAP_BOUNDARY.ENABLED negb]. cbv zeta.
  unfold applyBoundaryForce. rewrite Hdir.
  unfold MAP_BOUNDARY.WARNING_THRESHOLD, MAP_BOUNDARY.FORCE_MULTIPLIER.
  destruct (Rle_dec _ 0) as [Hc | _]; [lra |].
  cbn [Vector2.x Vector2.y].
  assert (Hn : Vector3.normalize (Vector3.mk 0 0 1) = Vector3.mk 0 0 1).
  { unfold Vector3.normalize, Vector3.divideScalar, Vector3.multiplyScalar, num_or.
    rewrite length_along_z by lra.
    destruct (Req_dec_T 1 0); [lra |].
    cbn [Vector3.x Vector3.y Vector3.z]. f_equal; lra. }
  rewrite Hn.
  cbn [state AircraftPhysics.with_state AircraftState.velocity
       AircraftState.with_velocity Vector3.with_x Vector3.with_z].
  destruct (AircraftState.velocity (state e)) as [vx vy vz].
  unfold Vector3.with_x, Vector3.with_z.
  cbn [Vector3.x Vector3.y Vector3.z]. f_equal; lra.
Qed.

Lemma nearEdge_fields :
  AircraftState.angularVelocity (state nearEdge) = Vector3.mk 0 0 0 /\
  AircraftState.rotation (state nearEdge) = Euler.mk 0 PI 0 /\
  AircraftState.velocity (state nearEdge) = Vector3.mk 0 0 2 /\
  AircraftState.throttle (state nearEdge) = 0.5 /\
  AircraftControls.verticalThrust (prevControls nearEdge) = 0 /\
  Vector3.y (AircraftState.position (state nearEdge)) = 100 /\
  lastUpdateTime nearEdge = 0.
Proof. repeat split. Qed.

(** The frame 20 ms after the last one, from [nearEdge]: the integrator
    leaves the velocity at the cap and [speed = MAX_SPEED]; the boundary
    force then adds 0.4 along +z. *)
Lemma update_nearEdge (now : R) :
  let e' := fst (update 20 now nearEdge) in
  AircraftState.velocity (state e') = Vector3.mk 0 0 (MAX_SPEED + 20 * (20 / 1000)) /\
  AircraftState.speed (state e') = MAX_SPEED /\
  snd (update 20 now nearEdge) = [notified 7%nat (state e')].
Proof.
  cbv zeta.
  destruct nearEdge_fields as (Hav & Hrot & Hv & Hthr & Hvt & Hpos & Hlast).
  destruct nearEdge_boundaryStatus as (Hcross & Hnear & Hpct & Hdir).
  assert (Hrun : ~ 0.1 < (20 - lastUpdateTime nearEdge) / 1000) by (rewrite Hlast; lra).
  pose proof (update_state 20 now nearEdge Hrun) as Hu.
  assert (Hsnd : snd (update 20 now nearEdge) =
                 notifyUpdateListeners (fst (update 20 now nearEdge))).
  { unfold update. cbv zeta.
    destruct (Rlt_dec 0.1 _) as [Hc | _]; [rewrite Hlast in Hc; lra | reflexivity]. }
  rewrite Hsnd, Hu. clear Hsnd Hu.
  rewrite Hlast.
  replace ((20 - 0) / 1000) with (20 / 1000) by lra.
  destruct (checkBoundaryStatus_nearEdge 20 now) as (Hs1 & Hb1 & Hp1 & Hh1 & Hl1).
  set (e1 := checkBoundaryStatus now (AircraftPhysics.with_lastUpdateTime 20 nearEdge)) in *.
  destruct (updateAircraftPhysics_level_south (20 / 1000) now 2 e1) as (Hv2 & Hsp2 & _);
    rewrite ?Hs1, ?Hp1; trivial.
  { rewrite Hthr. unfold MIN_THROTTLE_TO_MOVE, AIRCRAFT.MIN_THROTTLE_TO_MOVE. lra. }
  { rewrite Hpos. lra. }
  { rewrite Hthr. unfold MAX_SPEED, AIRCRAFT.MAX_SPEED, HORIZONTAL_DECAY_RATE,
      AIRCRAFT.DECAY_RATES.HORIZONTAL. lra. }
  destruct (updateAircraftPhysics_private (20 / 1000) now e1) as (Hb2 & Hl2 & _).
  cbv zeta in Hb2, Hl2.
  set (e2 := updateAircraftPhysics (20 / 1000) now e1) in *.
  assert (Hv3 : AircraftState.velocity (state (applyBoundaryForcesIfNeeded (20 / 1000) e2)) =
                Vector3.mk 0 0 (MAX_SPEED + 20 * (20 / 1000))).
  { rewrite applyBoundaryForcesIfNeeded_near; rewrite ?Hb2, ?Hb1; trivial; [| lra].
    rewrite Hv2. reflexivity. }
  destruct (applyBoundaryForcesIfNeeded_frame (20 / 1000) e2) as (He3 & Hs3 & _).
  cbv zeta in He3, Hs3.
  set (e3 := applyBoundaryForcesIfNeeded (20 / 1000) e2) in *.
  cbn [state AircraftPhysics.with_hasUserInput fst].
  split; [exact Hv3 |].
  split.
  - rewrite Hs3. cbn [AircraftState.speed AircraftState.with_mapPosition
                      AircraftState.with_velocity]. exact Hsp2.
  - unfold notifyUpdateListeners, getState.
    cbn [updateListeners state AircraftPhysics.with_hasUserInput].
    rewrite He3. cbn [updateListeners AircraftPhysics.with_state].
    rewrite Hl2, Hl1. reflexivity.
Qed.

(** C1 at the failing input.  [nearEdge] flies due south at full
    throttle, at the speed cap, 9.5 km north of the centre.  After the
    next frame, 20 ms later, the velocity handed to the listener has
    magnitude 2.4, above [MAX_SPEED = 2]: the boundary force is added
    after the speed limit has been applied. *)
Theorem speed_cap_exceeded_near_boundary (now : R) :
  let e' := fst (update 20 now nearEdge) in
  Vector3.length (AircraftState.velocity (state nearEdge)) <= MAX_SPEED /\
  Vector3.length (AircraftState.velocity (state e')) = 2.4 /\
  MAX_SPEED < Vector3.length (AircraftState.velocity (state e')) /\
  snd (update 20 now nearEdge) = [notified 7%nat (state e')].
Proof.
  cbv zeta. destruct (update_nearEdge now) as (Hv & _ & Hn). cbv zeta in Hv, Hn.
  rewrite Hv.
  unfold MAX_SPEED, AIRCRAFT.MAX_SPEED in *.
  rewrite length_along_z by lra.
  destruct nearEdge_fields as (_ & _ & Hv0 & _). rewrite Hv0.
  rewrite length_along_z by lra.
  repeat split; try lra. exact Hn.
Qed.

(** C4 at the failing input.  After the same frame the field [speed] is
    2, the norm of the velocity before the boundary force, while the
    velocity of the state has norm 2.4. *)
Theorem speed_stale_near_boundary (now : R) :
  let s' := state (fst (update 20 now nearEdge)) in
  AircraftState.speed s' = 2 /\
  Vector3.length (AircraftState.velocity s') = 2.4 /\
  AircraftState.speed s' <> Vector3.length (AircraftState.velocity s').
Proof.
  cbv zeta. destruct (update_nearEdge now) as (Hv & Hsp & _). cbv zeta in Hv, Hsp.
  rewrite Hv, Hsp.
  unfold MAX_SPEED, AIRCRAFT.MAX_SPEED.
  rewrite length_along_z by lra.
  repeat split; lra.
Qed.

(** ** The place of the boundary forces in a frame *)

(** With the boundary forces applied before the integration, the order
    of the specification, the speed limit and the derived fields come
    last: every frame that is not skipped ends within the speed cap and
    with [speed] equal to the norm of the velocity. *)
Lemma update_boundary_first_speed_cap (currentTime now : R) (e : AircraftPhysics.t) :
  ~ 0.1 < (currentTime - lastUpdateTime e) / 1000 ->
  let s' := state (fst (update_boundary_first currentTime now e)) in
  Vector3.length (AircraftState.velocity s') <= MAX_SPEED /\
  AircraftState.speed s' = Vector3.length (AircraftState.velocity s').
Proof.
  intros Hrun. cbv zeta. unfold update_boundary_first. cbv zeta.
  destruct (Rlt_dec 0.1 _) as [Hc | _]; [contradiction |].
  cbn [fst state AircraftPhysics.with_hasUserInput].
  apply updateAircraftPhysics_speed_cap.
Qed.

(** The same frame from [nearEdge] in the order of the specification:
    the boundary force raises the velocity to 2.4 first, and the
    integration that follows brings it back to the cap. *)
Lemma update_boundary_first_nearEdge (now : R) :
  let s' := state (fst (update_boundary_first 20 now nearEdge)) in
  AircraftState.velocity s' = Vector3.mk 0 0 MAX_SPEED /\
  AircraftState.speed s' = MAX_SPEED.
Proof.
  cbv zeta.
  destruct nearEdge_fields as (Hav & Hrot & Hv0 & Hthr & Hvt & Hpos & Hlast).
  destruct nearEdge_boundaryStatus as (Hcross & Hnear & Hpct & Hdir).
  unfold update_boundary_first. cbv zeta. rewrite Hlast.
  destruct (Rlt_dec 0.1 ((20 - 0) / 1000)) as [Hc | _]; [lra |].
  replace ((20 - 0) / 1000) with (20 / 1000) by lra.
  destruct (checkBoundaryStatus_nearEdge 20 now) as (Hs1 & Hb1 & Hp1 & Hh1 & Hl1).
  set (e1 := checkBoundaryStatus now (AircraftPhysics.with_lastUpdateTime 20 nearEdge)) in *.
  assert (Hv2 : AircraftState.velocity (state (applyBoundaryForcesIfNeeded (20 / 1000) e1)) =
                Vector3.mk 0 0 (2 + 20 * (20 / 1000))).
  { rewrite applyBoundaryForcesIfNeeded_near; rewrite ?Hb1; trivial; [| lra].
    rewrite Hs1, Hv0. reflexivity. }
  destruct (applyBoundaryForcesIfNeeded_frame (20 / 1000) e1) as (He2 & Hs2 & _).
  cbv zeta in He2, Hs2.
  set (e2 := applyBoundaryForcesIfNeeded (20 / 1000) e1) in *.
  destruct (updateAircraftPhysics_level_south (20 / 1000) now (2 + 20 * (20 / 1000)) e2)
    as (Hv3 & Hsp3 & _); trivial.
  - rewrite Hs2. cbn. rewrite Hs1. exact Hav.
  - rewrite Hs2. cbn. rewrite Hs1. exact Hrot.
  - rewrite Hs2. cbn. rewrite Hs1, Hthr.
    unfold MIN_THROTTLE_TO_MOVE, AIRCRAFT.MIN_THROTTLE_TO_MOVE. lra.
  - rewrite He2. cbn. rewrite Hp1. exact Hvt.
  - rewrite He2. cbn. exact Hh1.
  - rewrite Hs2. cbn. rewrite Hs1, Hpos. lra.
  - rewrite Hs2. cbn. rewrite Hs1, Hthr.
    unfold MAX_SPEED, AIRCRAFT.MAX_SPEED, HORIZONTAL_DECAY_RATE,
      AIRCRAFT.DECAY_RATES.HORIZONTAL. lra.
  - cbn [fst state AircraftPhysics.with_hasUserInput]. split; assumption.
Qed.

(** C3 at the failing input.  On [nearEdge], whose cached status is
    near, the frame 20 ms later applies the boundary force after the
    integration of the aircraft forces, not before it as the claim
    says.  The two orders end differently: the code leaves the velocity
    at 2.4 along +z, above [MAX_SPEED], with [speed] still 2; with the
    boundary force applied first the frame ends with velocity 2 along
    +z, within the cap, and with [speed] equal to its norm. *)
Theorem boundary_forces_applied_after_speed_limit (now : R) :
  let s_code := state (fst (update 20 now nearEdge)) in
  let s_first := state (fst (update_boundary_first 20 now nearEdge)) in
  AircraftState.velocity s_code = Vector3.mk 0 0 2.4 /\
  AircraftState.velocity s_first = Vector3.mk 0 0 2 /\
  AircraftState.velocity s_code <> AircraftState.velocity s_first /\
  (MAX_SPEED < Vector3.length (AircraftState.velocity s_code) /\
   AircraftState.speed s_code <> Vector3.length (AircraftState.velocity s_code)) /\
  (Vector3.length (AircraftState.velocity s_first) <= MAX_SPEED /\
   AircraftState.speed s_first = Vector3.length (AircraftState.velocity s_first)).
Proof.
  cbv zeta.
  destruct (update_nearEdge now) as (Hv & Hsp & _). cbv zeta in Hv, Hsp.
  destruct (update_boundary_first_nearEdge now) as (Hv' & _). cbv zeta in Hv'.
  assert (Hrun : ~ 0.1 < (20 - lastUpdateTime nearEdge) / 1000).
  { change (lastUpdateTime nearEdge) with 0. lra. }
  pose proof (update_boundary_first_speed_cap 20 now nearEdge Hrun) as Hcap.
  cbv zeta in Hcap.
  split; [| split; [| split; [| split; [| exact Hcap]]]].
  - rewrite Hv. unfold MAX_SPEED, AIRCRAFT.MAX_SPEED. f_equal. lra.
  - rewrite Hv'. unfold MAX_SPEED, AIRCRAFT.MAX_SPEED. f_equal. lra.
  - rewrite Hv, Hv'. unfold MAX_SPEED, AIRCRAFT.MAX_SPEED.
    intros Heq. injection Heq. lra.
  - rewrite Hv, Hsp. unfold MAX_SPEED, AIRCRAFT.MAX_SPEED.
    rewrite length_along_z by lra. split; lra.
Qed.

(** ** Snapshots handed to listeners *)

Module StoreFacts.
Import Store.


Section Monotone.
Variables h h' : heap.
Hypothesis Hsub : h ⊆ h'.






End Monotone.
End StoreFacts.

Module SnapshotFacts.
Import Store.




End SnapshotFacts.




(** * Further properties of the code *)

(** ** Heading, pitch and roll in degrees *)

Lemma js_rem_negative (a m : R) : 0 < m -> a <= 0 -> - m < js_rem a m <= 0.
Proof.
  intros Hm Ha. split; [apply js_rem_bounds; exact Hm |].
  destruct (Req_dec_T a 0) as [-> | Hne].
  - destruct (js_rem_nonneg 0 m Hm ltac:(lra)) as [H0 _].
    unfold js_rem, Math_trunc in *.
    replace (0 / m) with 0 in * by (unfold Rdiv; ring).
    destruct (Rle_dec 0 0); [| lra].
    replace (Int_part 0) with 0%Z; [lra |].
    apply Int_part_spec. simpl. lra.
  - assert (Hneg : a < 0) by lra.
    destruct (js_rem_nonneg (- a) m Hm ltac:(lra)) as [H0 _].
    unfold js_rem, Math_trunc in *.
    assert (Hq : a / m < 0).
    { unfold Rdiv. rewrite <- (Rmult_0_l (/ m)).
      apply Rmult_lt_compat_r; [now apply Rinv_0_lt_compat | exact Hneg]. }
    replace (- a / m) with (- (a / m)) in H0 by (field; lra).
    destruct (Rle_dec 0 (a / m)); [lra |].
    destruct (Rle_dec 0 (- (a / m))); [| lra].
    rewrite opp_IZR. lra.
Qed.

(** Without rounding the functions are those of the real-number model. *)
Lemma eulerToHPR_rounded_exact (euler : Euler.t) :
  eulerToHPR_rounded (fun x => x) euler = eulerToHPR euler.
Proof. reflexivity. Qed.

Lemma Int_part_le (x y : R) : x <= y -> (Int_part x <= Int_part y)%Z.
Proof.
  intros Hxy.
  destruct (base_Int_part x) as [Hx _]. destruct (base_Int_part y) as [_ Hy].
  assert (H : IZR (Int_part x) < IZR (Int_part y + 1)) by (rewrite plus_IZR; lra).
  apply lt_IZR in H. lia.
Qed.

Lemma Int_part_half (n : Z) : Int_part (IZR n + 1 / 2) = n.
Proof. symmetry. apply Int_part_spec. lra. Qed.

Lemma coarseRounding_monotone : monotoneRounding coarseRounding.
Proof.
  unfold monotoneRounding, coarseRounding. split; [| split].
  - intros x y Hxy.
    destruct (Rlt_dec x 256) as [Hx | Hx]; destruct (Rlt_dec y 256) as [Hy | Hy]; try lra.
    + assert (H : (Int_part (256 + 1 / 2) <= Int_part (y + 1 / 2))%Z)
        by (apply Int_part_le; lra).
      rewrite (Int_part_half 256) in H. apply IZR_le in H. lra.
    + apply IZR_le, Int_part_le. lra.
  - destruct (Rlt_dec 0 256); [reflexivity | lra].
  - destruct (Rlt_dec 360 256); [lra |]. now rewrite (Int_part_half 360).
Qed.

(** The remainder of a quarter of a degree below zero, and the heading
    it becomes under [coarseRounding]. *)
Lemma eulerToHPR_rounded_reaches_360 :
  hpr_heading (eulerToHPR_rounded coarseRounding (Euler.mk 0 (- (PI / 720)) 0)) = 360.
Proof.
  pose proof PI2_1 as Hpi. pose proof PI_4 as Hpi4.
  assert (Hc : forall x, x < 256 -> coarseRounding x = x).
  { intros x Hx. unfold coarseRounding. destruct (Rlt_dec x 256); [reflexivity | lra]. }
  assert (Hk : 180 / PI < 256).
  { apply (Rmult_lt_reg_r PI); [lra |]. unfold Rdiv. rewrite Rmult_assoc, Rinv_l; lra. }
  assert (Hdeg : radToDeg_rounded coarseRounding (- (PI / 720)) = - (1 / 4)).
  { unfold radToDeg_rounded. rewrite (Hc PI) by lra. rewrite (Hc (180 / PI)) by exact Hk.
    replace (- (PI / 720) * (180 / PI)) with (- (1 / 4)) by (field; lra).
    apply Hc. lra. }
  unfold eulerToHPR_rounded. cbv zeta. cbn [hpr_heading Euler.y]. rewrite Hdeg.
  assert (Hrem : js_rem (- (1 / 4)) 360 = - (1 / 4)).
  { unfold js_rem, Math_trunc.
    destruct (Rle_dec 0 (- (1 / 4) / 360)) as [Hq | _]; [lra |].
    replace (Int_part (- (- (1 / 4) / 360))) with 0%Z; [rewrite opp_IZR; lra |].
    apply Int_part_spec. lra. }
  rewrite Hrem. destruct (Rlt_dec (- (1 / 4)) 0) as [_ | Hn]; [| lra].
  unfold coarseRounding. destruct (Rlt_dec (- (1 / 4) + 360) 256); [lra |].
  replace (- (1 / 4) + 360 + 1 / 2) with (IZR 360 + 1 / 4) by lra.
  replace (Int_part (IZR 360 + 1 / 4)) with 360%Z; [reflexivity |].
  apply Int_part_spec. lra.
Qed.

(** X1.  The heading [eulerToHPR] returns lies between 0 and 360, both
    included, under every monotone rounding that represents 0 and 360,
    for every yaw, negative or beyond a full turn.  A non-negative
    remainder is returned as it is and is below 360; a negative
    remainder is returned as the rounded sum with 360, which no final
    [% 360] reduces: under a rounding whose grid is coarser near 360
    than near 0 a small negative remainder gives exactly 360. *)
Theorem eulerToHPR_heading_range :
  (forall (rnd : R -> R) (euler : Euler.t),
     monotoneRounding rnd ->
     let h := hpr_heading (eulerToHPR_rounded rnd euler) in
     let remainder := js_rem (radToDeg_rounded rnd (Euler.y euler)) 360 in
     0 <= h <= 360 /\
     (0 <= remainder -> h = remainder /\ h < 360) /\
     (remainder < 0 -> h = rnd (remainder + 360))) /\
  (exists (rnd : R -> R) (euler : Euler.t),
     monotoneRounding rnd /\ hpr_heading (eulerToHPR_rounded rnd euler) = 360).
Proof.
  split.
  - intros rnd euler (Hmono & H0 & H360). cbv zeta.
    unfold eulerToHPR_rounded. cbv zeta. cbn [hpr_heading].
    set (d := radToDeg_rounded rnd (Euler.y euler)).
    pose proof (js_rem_bounds d 360 ltac:(lra)) as Hb.
    destruct (Rlt_dec (js_rem d 360) 0) as [Hneg | Hpos].
    + assert (Hlo : rnd 0 <= rnd (js_rem d 360 + 360)) by (apply Hmono; lra).
      assert (Hhi : rnd (js_rem d 360 + 360) <= rnd 360) by (apply Hmono; lra).
      repeat split; intros; lra.
    + repeat split; intros; lra.
  - exists coarseRounding, (Euler.mk 0 (- (PI / 720)) 0).
    split; [exact coarseRounding_monotone | exact eulerToHPR_rounded_reaches_360].
Qed.

Lemma eulerToHPR_heading_range_witness :
  0 <= hpr_heading (eulerToHPR_rounded coarseRounding (Euler.mk 0 (- (PI / 720)) 0)) <= 360.
Proof.
  destruct eulerToHPR_heading_range as [Hrange _].
  apply (Hrange coarseRounding (Euler.mk 0 (- (PI / 720)) 0) coarseRounding_monotone).
Defined.

(** The state a frame that is not skipped leaves: the derived fields of
    the integration, with the velocity and the map position the boundary
    forces may have replaced. *)
Lemma update_state_shape (currentTime now : R) (e : AircraftPhysics.t) :
  ~ 0.1 < (currentTime - lastUpdateTime e) / 1000 ->
  exists (s : AircraftState.t) (v : Vector3.t) (mp : LngLat.t),
    state (fst (update currentTime now e)) =
    AircraftState.with_mapPosition mp
      (AircraftState.with_velocity v (updateDerivedFields s)).
Proof.
  intros Hrun. rewrite update_state by exact Hrun.
  cbn [state AircraftPhysics.with_hasUserInput].
  match goal with
  | |- context [applyBoundaryForcesIfNeeded ?dt ?e1] =>
      destruct (applyBoundaryForcesIfNeeded_frame dt e1) as (_ & Hs & _);
      cbv zeta in Hs; rewrite Hs
  end.
  rewrite updateAircraftPhysics_state. cbv zeta.
  eexists _, _, _. reflexivity.
Qed.

(** X2.  After every frame that is not skipped the derived fields other
    than [speed] agree with the state they are derived from, also when
    boundary forces follow the integration: [heading], [pitch] and
    [roll] are what [eulerToHPR] gives for the rotation of the state,
    [altitude] is [position.y], [isGrounded] holds exactly when
    [position.y <= 0.5], and [isFlying] is its negation. *)
Theorem update_derived_fields_agree (currentTime now : R) (e : AircraftPhysics.t) :
  ~ 0.1 < (currentTime - lastUpdateTime e) / 1000 ->
  let s := state (fst (update currentTime now e)) in
  let hpr := eulerToHPR (AircraftState.rotation s) in
  AircraftState.heading s = hpr_heading hpr /\
  AircraftState.pitch s = hpr_pitch hpr /\
  AircraftState.roll s = hpr_roll hpr /\
  AircraftState.altitude s = Vector3.y (AircraftState.position s) /\
  (AircraftState.isGrounded s = true <-> Vector3.y (AircraftState.position s) <= 0.5) /\
  AircraftState.isFlying s = negb (AircraftState.isGrounded s).
Proof.
  intros Hrun. cbv zeta.
  destruct (update_state_shape currentTime now e Hrun) as (s0 & v & mp & ->).
  cbn [AircraftState.heading AircraftState.pitch AircraftState.roll AircraftState.altitude
       AircraftState.isGrounded AircraftState.isFlying AircraftState.rotation
       AircraftState.position AircraftState.with_mapPosition AircraftState.with_velocity
       updateDerivedFields].
  do 4 (split; [reflexivity |]).
  split; [apply Rleb_true | reflexivity].
Qed.

Lemma update_derived_fields_agree_witness :
  let s := state (fst (update 16 1016 (constructor 400 0))) in
  AircraftState.heading s = hpr_heading (eulerToHPR (AircraftState.rotation s)) /\
  AircraftState.altitude s = Vector3.y (AircraftState.position s) /\
  AircraftState.isFlying s = negb (AircraftState.isGrounded s).
Proof.
  destruct (update_derived_fields_agree 16 1016 (constructor 400 0))
    as (Hh & _ & _ & Ha & _ & Hf).
  - cbn [constructor lastUpdateTime]. lra.
  - repeat split; assumption.
Defined.

(** ** The geographic helpers *)


Lemma calculateGeoDistanceKm_same_aux (lon lat : R) :
  calculateGeoDistanceKm lon lat lon lat = 0.
Proof.
  unfold calculateGeoDistanceKm, MathUtils.degToRad. cbv zeta.
  replace ((lat - lat) * (PI / 180) / 2) with 0 by lra.
  replace ((lon - lon) * (PI / 180) / 2) with 0 by lra.
  rewrite sin_0.
  match goal with
  | |- context [sqrt (1 - ?a)] => replace a with 0 by ring
  end.
  rewrite sqrt_0, Rminus_0_r, sqrt_1.
  unfold Math_atan2. destruct (Rlt_dec 0 1); [| lra].
  replace (0 / 1) with 0 by lra. rewrite atan_0. lra.
Qed.

(** X3.  The haversine distance of a point to itself is 0, and the
    distance does not depend on the order of the two points. *)
Theorem calculateGeoDistanceKm_zero_and_symmetric (lon1 lat1 lon2 lat2 : R) :
  calculateGeoDistanceKm lon1 lat1 lon1 lat1 = 0 /\
  calculateGeoDistanceKm lon1 lat1 lon2 lat2 = calculateGeoDistanceKm lon2 lat2 lon1 lat1.
Proof.
  split; [apply calculateGeoDistanceKm_same_aux |].
  unfold calculateGeoDistanceKm, MathUtils.degToRad. cbv zeta.
  replace ((lat1 - lat2) * (PI / 180) / 2) with (- ((lat2 - lat1) * (PI / 180) / 2)) by lra.
  replace ((lon1 - lon2) * (PI / 180) / 2) with (- ((lon2 - lon1) * (PI / 180) / 2)) by lra.
  rewrite !sin_neg.
  set (s := sin ((lat2 - lat1) * (PI / 180) / 2)).
  set (t := sin ((lon2 - lon1) * (PI / 180) / 2)).
  set (c1 := cos (lat1 * (PI / 180))). set (c2 := cos (lat2 * (PI / 180))).
  replace (- s * - s + c2 * c1 * - t * - t) with (s * s + c1 * c2 * t * t) by ring.
  reflexivity.
Qed.


(** X5.  Between two points of one meridian less than 180 degrees apart
    the haversine distance is exact: the Earth radius times the
    difference of latitude in radians. *)
Theorem calculateGeoDistanceKm_along_meridian (lon lat1 lat2 : R) :
  0 <= lat1 - lat2 < 180 ->
  calculateGeoDistanceKm lon lat1 lon lat2 = 6371 * MathUtils.degToRad (lat1 - lat2).
Proof.
  intros [Hlo Hhi]. pose proof PI_RGT_0 as HPI.
  replace lat1 with (lat2 + MathUtils.degToRad (lat1 - lat2) * (180 / PI)) at 1
    by (unfold MathUtils.degToRad; field; lra).
  apply calculateGeoDistanceKm_meridian.
  unfold MathUtils.degToRad. split.
  - apply Rmult_le_pos; [lra | apply Rlt_le, Rdiv_lt_0_compat; lra].
  - replace PI with (180 * (PI / 180)) at 2 by (field; lra).
    apply Rmult_lt_compat_r; [apply Rdiv_lt_0_compat; lra | lra].
Qed.

(** One degree of latitude north of the boundary centre. *)
Lemma calculateGeoDistanceKm_along_meridian_witness :
  calculateGeoDistanceKm 106.636 11.811 106.636 10.811
  = 6371 * MathUtils.degToRad (11.811 - 10.811).
Proof.
  apply (calculateGeoDistanceKm_along_meridian 106.636 11.811 10.811). lra.
Defined.

(** X6.  [calculateGeoDirection] returns the zero vector when the two
    points coincide and a vector of length 1 otherwise, and swapping the
    two points negates it. *)
Theorem calculateGeoDirection_unit_or_zero (fromLon fromLat toLon toLat : R) :
  let d := calculateGeoDirection fromLon fromLat toLon toLat in
  let d' := calculateGeoDirection toLon toLat fromLon fromLat in
  (fromLon = toLon /\ fromLat = toLat -> d = Vector2.mk 0 0) /\
  (~ (fromLon = toLon /\ fromLat = toLat) -> Vector2.length d = 1) /\
  Vector2.x d' = - Vector2.x d /\ Vector2.y d' = - Vector2.y d.
Proof.
  cbv zeta. unfold calculateGeoDirection. cbv zeta.
  set (dLon := toLon - fromLon). set (dLat := toLat - fromLat).
  replace (fromLon - toLon) with (- dLon) by (unfold dLon; lra).
  replace (fromLat - toLat) with (- dLat) by (unfold dLat; lra).
  replace (- dLon * - dLon + - dLat * - dLat) with (dLon * dLon + dLat * dLat) by ring.
  set (l := sqrt (dLon * dLon + dLat * dLat)).
  assert (Hl : 0 <= l) by apply sqrt_pos.
  assert (Hsq : l * l = dLon * dLon + dLat * dLat) by (apply sqrt_sqrt; nra).
  split; [| split].
  - intros [H1 H2].
    assert (Hz : l = 0) by (unfold dLon, dLat in Hsq; subst; nra).
    destruct (Req_dec_T l 0); [reflexivity | contradiction].
  - intros Hne.
    destruct (Req_dec_T l 0) as [Hz | Hnz].
    + exfalso. apply Hne. rewrite Hz in Hsq.
      assert (H1 : dLon * dLon = 0) by nra.
      assert (H2 : dLat * dLat = 0) by nra.
      apply Rmult_integral in H1. apply Rmult_integral in H2.
      unfold dLon, dLat in H1, H2. split; lra.
    + unfold Vector2.length. cbn [Vector2.x Vector2.y].
      replace (dLon / l * (dLon / l) + dLat / l * (dLat / l)) with 1.
      * apply sqrt_1.
      * transitivity ((dLon * dLon + dLat * dLat) / (l * l)); [| field; exact Hnz].
        rewrite <- Hsq. field. exact Hnz.
  - destruct (Req_dec_T l 0); cbn [Vector2.x Vector2.y]; split; try lra; field; assumption.
Qed.

Lemma calculateGeoDirection_unit_or_zero_witness :
  calculateGeoDirection 1 2 1 2 = Vector2.mk 0 0 /\
  Vector2.length (calculateGeoDirection 0 0 3 4) = 1.
Proof.
  split.
  - apply (calculateGeoDirection_unit_or_zero 1 2 1 2). split; reflexivity.
  - apply (calculateGeoDirection_unit_or_zero 0 0 3 4). intros [H _]. lra.
Defined.

(** ** Listeners of the engine *)

Lemma remove_first_absent (callback : PhysicsUpdateCallback)
    (l : list PhysicsUpdateCallback) :
  ~ In callback l -> remove_first callback l = l.
Proof.
  induction l as [| c l IH]; intros Hn; cbn [remove_first]; [reflexivity |].
  destruct (Nat.eqb_spec c callback) as [-> | Hne].
  - exfalso. apply Hn. now left.
  - f_equal. apply IH. intros Hin. apply Hn. now right.
Qed.

Lemma remove_first_appended (callback : PhysicsUpdateCallback)
    (l : list PhysicsUpdateCallback) :
  ~ In callback l -> remove_first callback (l ++ [callback]) = l.
Proof.
  induction l as [| c l IH]; intros Hn; cbn [remove_first app].
  - now rewrite Nat.eqb_refl.
  - destruct (Nat.eqb_spec c callback) as [-> | Hne].
    + exfalso. apply Hn. now left.
    + f_equal. apply IH. intros Hin. apply Hn. now right.
Qed.

Lemma remove_first_present (callback : PhysicsUpdateCallback)
    (l : list PhysicsUpdateCallback) :
  In callback l -> S (length (remove_first callback l)) = length l.
Proof.
  induction l as [| c l IH]; intros Hin; [destruct Hin |].
  cbn [remove_first].
  destruct (Nat.eqb_spec c callback) as [-> | Hne]; [reflexivity |].
  cbn [length]. f_equal. apply IH. destruct Hin as [-> | Hin]; [contradiction | exact Hin].
Qed.

(** X7.  Unsubscribing a callback that is not registered changes
    nothing; subscribing a new callback and unsubscribing it again gives
    the engine back; unsubscribing a registered callback removes exactly
    one registration. *)
Theorem listener_subscription (callback : PhysicsUpdateCallback)
    (e : AircraftPhysics.t) :
  (~ In callback (updateListeners e) ->
     removeUpdateListener callback e = e /\
     removeUpdateListener callback (onPhysicsUpdate callback e) = e) /\
  (In callback (updateListeners e) ->
     S (length (updateListeners (removeUpdateListener callback e)))
     = length (updateListeners e)).
Proof.
  destruct e as [s ba tb bm ty pc lu ll lb ebs ul hui].
  unfold removeUpdateListener, onPhysicsUpdate, AircraftPhysics.with_updateListeners.
  cbn [updateListeners state bankAngle targetBankAngle bankMomentum turnYawRate
       prevControls lastUpdateTime _lastAircraftLog _lastBoundaryCheck
       AircraftPhysics.boundaryStatus hasUserInput].
  split.
  - intros Hn. rewrite remove_first_absent, remove_first_appended by exact Hn.
    split; reflexivity.
  - apply remove_first_present.
Qed.

Lemma listener_subscription_witness :
  let e := onPhysicsUpdate 2%nat (onPhysicsUpdate 1%nat (constructor 0 0)) in
  removeUpdateListener 5%nat (onPhysicsUpdate 5%nat e) = e /\
  S (length (updateListeners (removeUpdateListener 1%nat e))) = length (updateListeners e).
Proof.
  destruct (listener_subscription 5%nat
              (onPhysicsUpdate 2%nat (onPhysicsUpdate 1%nat (constructor 0 0)))) as [Ha _].
  destruct (listener_subscription 1%nat
              (onPhysicsUpdate 2%nat (onPhysicsUpdate 1%nat (constructor 0 0)))) as [_ Hp].
  split.
  - apply Ha. cbn. intros [H | [H | []]]; discriminate.
  - apply Hp. cbn. now left.
Defined.


(** ** Throttle decay to zero *)




(** ** The control processor *)

(** X10.  [processControls] never overrides what the pilot commands: the
    throttle input is returned as given, and a non-zero pitch, roll, yaw
    or vertical-thrust input is returned unchanged.  A zero roll or
    vertical-thrust input, and with no throttle input also a zero pitch
    or yaw input, is replaced by the previous processed value times
    [DECAY_FACTOR].  The controls returned are stored as
    [prevControls]. *)
Theorem processControls_passes_pilot_input (rawControls : AircraftControls.t)
    (e : AircraftPhysics.t) :
  let c := snd (processControls rawControls e) in
  let prev := prevControls e in
  let k := AIRCRAFT.CONTROLS.SMOOTHING.DECAY_FACTOR in
  prevControls (fst (processControls rawControls e)) = c /\
  AircraftControls.throttle c = AircraftControls.throttle rawControls /\
  (AircraftControls.pitch rawControls <> 0 ->
     AircraftControls.pitch c = AircraftControls.pitch rawControls) /\
  (AircraftControls.roll rawControls <> 0 ->
     AircraftControls.roll c = AircraftControls.roll rawControls) /\
  (AircraftControls.yaw rawControls <> 0 ->
     AircraftControls.yaw c = AircraftControls.yaw rawControls) /\
  (AircraftControls.verticalThrust rawControls <> 0 ->
     AircraftControls.verticalThrust c = AircraftControls.verticalThrust rawControls) /\
  (AircraftControls.roll rawControls = 0 ->
     AircraftControls.roll c = AircraftControls.roll prev * k) /\
  (AircraftControls.verticalThrust rawControls = 0 ->
     AircraftControls.verticalThrust c = AircraftControls.verticalThrust prev * k) /\
  (AircraftControls.throttle rawControls = 0 ->
     (AircraftControls.pitch rawControls = 0 ->
        AircraftControls.pitch c = AircraftControls.pitch prev * k) /\
     (AircraftControls.yaw rawControls = 0 ->
        AircraftControls.yaw c = AircraftControls.yaw prev * k)).
Proof.
  cbv zeta. unfold processControls. cbv zeta.
  destruct rawControls as [p r y t v].
  cbn [AircraftControls.pitch AircraftControls.roll AircraftControls.yaw
       AircraftControls.throttle AircraftControls.verticalThrust].
  assert (Hcoord : t = 0 -> Rltb 0 t || Rltb t 0 = false).
  { intros ->. unfold Rltb. repeat case_if; first [lra | reflexivity]. }
  destruct (Rlt_dec r 0); [| destruct (Rlt_dec 0 r)];
    (destruct (Rltb 0 t || Rltb t 0) eqn:Hc;
     [destruct (Rltb MIN_THROTTLE_TO_MOVE (AircraftState.throttle (state e)));
      cbn [andb];
      [destruct (Rlt_dec AIRCRAFT.CONTROLS.BANK.MIN_ANGLE_FOR_TURN _);
       [destruct (Req_dec_T y 0);
        (destruct (Rlt_dec AIRCRAFT.CONTROLS.BANK.STEEP_TURN_THRESHOLD _);
         [destruct (Req_dec_T p 0) |]) |] |] |];
     cbn [andb fst snd prevControls AircraftControls.pitch AircraftControls.roll
          AircraftControls.yaw AircraftControls.throttle AircraftControls.verticalThrust];
     repeat split; intros;
     try (specialize (Hcoord ltac:(assumption)); congruence);
     repeat case_if; try reflexivity; try contradiction; try lra).
Qed.

Lemma processControls_passes_pilot_input_witness :
  AircraftControls.pitch
    (snd (processControls (AircraftControls.mk 0.8 0 0 0 0) (constructor 0 0))) = 0.8.
Proof.
  destruct (processControls_passes_pilot_input (AircraftControls.mk 0.8 0 0 0 0)
              (constructor 0 0)) as (_ & _ & Hpitch & _).
  apply Hpitch. cbn. lra.
Defined.

(** ** Bank state *)

Lemma Rabs_bound (a b : R) : Rabs a <= b <-> - b <= a <= b.
Proof. unfold Rabs. destruct (Rcase_abs a); split; intros; lra. Qed.

Lemma turnRate_range (bank throttle : R) :
  0 < Rabs bank <= 35 ->
  let bankRadians := Rabs bank * (PI / 180) in
  let airspeedMultiplier :=
    AIRCRAFT.CONTROLS.TURN.AIRSPEED_BASE_MULTIPLIER +
    Rabs throttle * AIRCRAFT.CONTROLS.TURN.AIRSPEED_FACTOR in
  0 <= Rmin AIRCRAFT.CONTROLS.TURN.MAX_TURN_RATE
         (AIRCRAFT.CONTROLS.TURN.TURN_RATE_BASE_FACTOR * tan bankRadians * airspeedMultiplier)
    <= AIRCRAFT.CONTROLS.TURN.MAX_TURN_RATE.
Proof.
  intros [Hlo Hhi]. cbv zeta. pose proof PI_RGT_0 as HPI.
  unfold AIRCRAFT.CONTROLS.TURN.MAX_TURN_RATE, AIRCRAFT.CONTROLS.TURN.TURN_RATE_BASE_FACTOR,
    AIRCRAFT.CONTROLS.TURN.AIRSPEED_BASE_MULTIPLIER, AIRCRAFT.CONTROLS.TURN.AIRSPEED_FACTOR.
  assert (Htan : 0 < tan (Rabs bank * (PI / 180))).
  { apply tan_gt_0; [apply Rmult_lt_0_compat; lra |].
    apply Rle_lt_trans with (35 * (PI / 180)); [| lra].
    apply Rmult_le_compat_r; lra. }
  pose proof (Rabs_pos throttle) as Hthr.
  assert (Hprod : 0 <= 0.2 * tan (Rabs bank * (PI / 180)) * (0.3 + Rabs throttle * 0.3)).
  { apply Rmult_le_pos; [apply Rmult_le_pos; lra | nra]. }
  unfold Rmin. case_if; lra.
Qed.

Lemma processControls_bankInRange (rawControls : AircraftControls.t)
    (e : AircraftPhysics.t) :
  bankInRange e -> bankInRange (fst (processControls rawControls e)).
Proof.
  unfold bankInRange.
  unfold AIRCRAFT.CONTROLS.BANK.TARGET_RIGHT, AIRCRAFT.CONTROLS.TURN.MAX_TURN_RATE.
  rewrite !Rabs_bound. intros (Hb & Ht & Hy).
  unfold processControls. cbv zeta.
  set (thr := AircraftState.throttle (state e)).
  assert (Hrate : forall bank, 5 < Rabs bank -> - 35 <= bank <= 35 ->
            0 <= turnYawRate e * AIRCRAFT.CONTROLS.TURN.TURN_RATE_RETENTION_FACTOR +
                 Rmin AIRCRAFT.CONTROLS.TURN.MAX_TURN_RATE
                   (AIRCRAFT.CONTROLS.TURN.TURN_RATE_BASE_FACTOR *
                    tan (Rabs bank * (PI / 180)) *
                    (AIRCRAFT.CONTROLS.TURN.AIRSPEED_BASE_MULTIPLIER +
                     Rabs thr * AIRCRAFT.CONTROLS.TURN.AIRSPEED_FACTOR)) *
                 AIRCRAFT.CONTROLS.TURN.TURN_RATE_BLEND_FACTOR <= 1.2).
  { intros bank H5 Hbank.
    assert (Hr : 0 < Rabs bank <= 35) by (split; [lra | now apply Rabs_bound]).
    pose proof (turnRate_range bank thr Hr) as Htr. cbv zeta in Htr.
    unfold AIRCRAFT.CONTROLS.TURN.MAX_TURN_RATE,
      AIRCRAFT.CONTROLS.TURN.TURN_RATE_RETENTION_FACTOR,
      AIRCRAFT.CONTROLS.TURN.TURN_RATE_BLEND_FACTOR in *. nra. }
  unfold AIRCRAFT.CONTROLS.BANK.TARGET_LEFT, AIRCRAFT.CONTROLS.BANK.TARGET_RIGHT,
    AIRCRAFT.CONTROLS.BANK.MOMENTUM_FACTOR,
    AIRCRAFT.CONTROLS.BANK.ANGLE_RETENTION_FACTOR, AIRCRAFT.CONTROLS.BANK.ANGLE_BLEND_FACTOR,
    AIRCRAFT.CONTROLS.BANK.MIN_ANGLE_FOR_TURN,
    AIRCRAFT.CONTROLS.NO_THROTTLE_DECAY.BANK_ANGLE_DECAY,
    AIRCRAFT.CONTROLS.NO_THROTTLE_DECAY.TARGET_BANK_DECAY,
    AIRCRAFT.CONTROLS.NO_THROTTLE_DECAY.TURN_YAW_RATE_DECAY in *.
  destruct (Rlt_dec (AircraftControls.roll rawControls) 0);
    [| destruct (Rlt_dec 0 (AircraftControls.roll rawControls))];
    (destruct (Rltb 0 (AircraftControls.throttle rawControls)
               || Rltb (AircraftControls.throttle rawControls) 0);
     [destruct (Rltb MIN_THROTTLE_TO_MOVE thr); cbn [andb];
      [match goal with
       | |- context [Rlt_dec 5 (Rabs ?b)] =>
           destruct (Rlt_dec 5 (Rabs b)) as [H5 | H5];
           [pose proof (Hrate b H5) as Hr | ]
       end |] |];
     cbn [andb fst bankAngle targetBankAngle turnYawRate];
     rewrite ?Rabs_bound;
     repeat split; try lra; try (apply Hr; lra)).
Qed.

Lemma applyControlInputs_bankInRange (rawControls : AircraftControls.t)
    (e : AircraftPhysics.t) :
  bankInRange e -> bankInRange (applyControlInputs rawControls e).
Proof.
  intros H. pose proof (processControls_bankInRange rawControls e H) as Hp.
  unfold applyControlInputs.
  destruct (processControls rawControls e) as [e1 controls]. exact Hp.
Qed.

Lemma update_bank_fields (currentTime now : R) (e : AircraftPhysics.t) :
  let e' := fst (update currentTime now e) in
  bankAngle e' = bankAngle e /\
  targetBankAngle e' = targetBankAngle e /\
  turnYawRate e' = turnYawRate e /\
  bankMomentum e' = bankMomentum e.
Proof.
  cbv zeta.
  destruct (Rlt_dec 0.1 ((currentTime - lastUpdateTime e) / 1000)) as [Hskip | Hrun].
  - rewrite update_stalled by exact Hskip. repeat split.
  - rewrite update_state by exact Hrun.
    match goal with
    | |- context [applyBoundaryForcesIfNeeded ?dt ?e1] =>
        destruct (applyBoundaryForcesIfNeeded_frame dt e1) as (He & _);
        cbv zeta in He; rewrite He
    end.
    cbn [bankAngle targetBankAngle turnYawRate bankMomentum
         AircraftPhysics.with_hasUserInput AircraftPhysics.with_state].
    assert (Hphys : forall dt n e1,
              bankAngle (updateAircraftPhysics dt n e1) = bankAngle e1 /\
              targetBankAngle (updateAircraftPhysics dt n e1) = targetBankAngle e1 /\
              turnYawRate (updateAircraftPhysics dt n e1) = turnYawRate e1 /\
              bankMomentum (updateAircraftPhysics dt n e1) = bankMomentum e1).
    { intros. unfold updateAircraftPhysics. cbv zeta. destruct (logDue _ _); repeat split. }
    assert (Hcheck : forall n e1,
              bankAngle (checkBoundaryStatus n e1) = bankAngle e1 /\
              targetBankAngle (checkBoundaryStatus n e1) = targetBankAngle e1 /\
              turnYawRate (checkBoundaryStatus n e1) = turnYawRate e1 /\
              bankMomentum (checkBoundaryStatus n e1) = bankMomentum e1).
    { intros. unfold checkBoundaryStatus. destruct (_ && _); repeat split. }
    match goal with
    | |- context [updateAircraftPhysics ?dt ?n ?e1] =>
        destruct (Hphys dt n e1) as (-> & -> & -> & ->);
        destruct (Hcheck n (AircraftPhysics.with_lastUpdateTime currentTime e))
          as (-> & -> & -> & ->)
    end.
    repeat split.
Qed.

Lemma call_bankInRange (c : Call) (e : AircraftPhysics.t) :
  bankInRange e -> bankInRange (fst (call c e)).
Proof.
  destruct c; cbn [call fst]; intros H; try exact H.
  - now apply applyControlInputs_bankInRange.
  - unfold bankInRange.
    destruct (update_bank_fields currentTime now e) as (-> & -> & -> & _). exact H.
Qed.

(** X11.  Whatever the calls made on a constructed engine, the bank
    angle and the target bank angle of the control processor stay within
    35 degrees either side, and the coordinated-turn yaw rate stays
    within [0, MAX_TURN_RATE]. *)
Theorem bank_state_stays_in_range (initialHeadingDegrees perfNow : R)
    (calls : list Call) :
  let e := run calls (constructor initialHeadingDegrees perfNow) in
  Rabs (bankAngle e) <= 35 /\
  Rabs (targetBankAngle e) <= 35 /\
  0 <= turnYawRate e <= AIRCRAFT.CONTROLS.TURN.MAX_TURN_RATE.
Proof.
  cbv zeta.
  assert (Hrun : forall e, bankInRange e -> bankInRange (run calls e)).
  { induction calls as [| c rest IH]; intros e H; cbn [run]; [exact H |].
    apply IH. now apply call_bankInRange. }
  apply (Hrun (constructor initialHeadingDegrees perfNow)).
  unfold bankInRange. cbn [constructor bankAngle targetBankAngle turnYawRate].
  unfold AIRCRAFT.CONTROLS.BANK.TARGET_RIGHT, AIRCRAFT.CONTROLS.TURN.MAX_TURN_RATE.
  rewrite Rabs_R0. lra.
Qed.

(** ** Angular velocity across frames *)

Lemma Math_pow_damping (b t : R) : 0 < b <= 1 -> 0 <= t -> 0 < Math_pow b t <= 1.
Proof.
  intros [Hb0 [Hb1 | ->]] Ht.
  - apply Math_pow_decay; lra.
  - unfold Math_pow. destruct (Rlt_dec 0 1); [| lra].
    unfold Rpower. rewrite ln_1, Rmult_0_r, exp_0. lra.
Qed.

Lemma applyAngularDamping_scales (deltaTime : R) (s : AircraftState.t) :
  0 <= deltaTime -> 0 <= AircraftState.speed s ->
  exists k, 0 < k <= 1 /\
    AircraftState.angularVelocity (applyAngularDamping deltaTime s) =
    Vector3.mk (Vector3.x (AircraftState.angularVelocity s) * k)
               (Vector3.y (AircraftState.angularVelocity s) * k)
               (Vector3.z (AircraftState.angularVelocity s) * k).
Proof.
  intros Hdt Hsp. unfold applyAngularDamping. cbv zeta.
  eexists. split; [| reflexivity].
  apply Math_pow_damping.
  - unfold AIRCRAFT.PHYSICS.DAMPING.BASE_DAMPING,
      AIRCRAFT.PHYSICS.DAMPING.SPEED_DEPENDENT_FACTOR,
      AIRCRAFT.PHYSICS.DAMPING.SPEED_DIVISOR, Rmin.
    case_if; lra.
  - unfold AIRCRAFT.PHYSICS.DAMPING.PHYSICS_RATE. lra.
Qed.

Lemma applyControlInputs_speed (rawControls : AircraftControls.t) (e : AircraftPhysics.t) :
  AircraftState.speed (state (applyControlInputs rawControls e)) =
  AircraftState.speed (state e).
Proof.
  unfold applyControlInputs.
  destruct (processControls_frame rawControls e) as (Hs & _).
  destruct (processControls rawControls e) as [e1 controls].
  cbn [fst] in Hs. cbv zeta.
  cbn [state AircraftPhysics.with_state AircraftPhysics.with_hasUserInput].
  rewrite Hs. case_if; reflexivity.
Qed.

Lemma applyControlInputs_ratesInRange (rawControls : AircraftControls.t)
    (e : AircraftPhysics.t) :
  ratesInRange e -> ratesInRange (applyControlInputs rawControls e).
Proof.
  unfold ratesInRange. cbv zeta. intros (_ & _ & _ & Hsp).
  rewrite applyControlInputs_speed.
  destruct (applyControlInputs_state rawControls e) as (Hav & _).
  cbv zeta in Hav. rewrite Hav. cbn [Vector3.x Vector3.y Vector3.z].
  assert (HAV : 0 <= AIRCRAFT.PHYSICS.MAX_ANGULAR_VELOCITY)
    by (unfold AIRCRAFT.PHYSICS.MAX_ANGULAR_VELOCITY; lra).
  repeat (split; [now apply clampSym_bounds |]). exact Hsp.
Qed.

Lemma update_ratesInRange (currentTime now : R) (e : AircraftPhysics.t) :
  lastUpdateTime e <= currentTime ->
  ratesInRange e -> ratesInRange (fst (update currentTime now e)).
Proof.
  intros Ht H.
  destruct (Rlt_dec 0.1 ((currentTime - lastUpdateTime e) / 1000)) as [Hskip | Hrun].
  - rewrite update_stalled by exact Hskip. exact H.
  - unfold ratesInRange in *. cbv zeta in *.
    destruct H as (Hx & Hy & Hz & Hsp).
    rewrite update_angularVelocity by exact Hrun.
    destruct (applyAngularDamping_scales ((currentTime - lastUpdateTime e) / 1000) (state e))
      as (k & Hk & ->); [lra | exact Hsp |].
    cbn [Vector3.x Vector3.y Vector3.z].
    destruct (update_state_shape currentTime now e Hrun) as (s0 & v & mp & ->).
    cbn [AircraftState.speed AircraftState.with_mapPosition AircraftState.with_velocity
         updateDerivedFields].
    unfold AIRCRAFT.PHYSICS.MAX_ANGULAR_VELOCITY in *.
    repeat split; try nra. apply sqrt_pos.
Qed.

Lemma call_ratesInRange (c : Call) (e : AircraftPhysics.t) :
  match c with
  | Update currentTime _ => lastUpdateTime e <= currentTime
  | _ => True
  end ->
  ratesInRange e -> ratesInRange (fst (call c e)).
Proof.
  destruct c; cbn [call fst]; intros Ht H; try exact H.
  - now apply applyControlInputs_ratesInRange.
  - now apply update_ratesInRange.
Qed.

(** X12.  The clamp on the angular velocity holds at every moment, not
    only right after a control input: after any sequence of calls on a
    constructed engine whose updates receive non-decreasing timestamps,
    every component of [angularVelocity] is within
    [-MAX_ANGULAR_VELOCITY, MAX_ANGULAR_VELOCITY], and [speed] is not
    negative. *)
Theorem angular_velocity_always_clamped (initialHeadingDegrees perfNow : R)
    (calls : list Call) :
  monotoneTimestamps calls (constructor initialHeadingDegrees perfNow) ->
  let s := state (run calls (constructor initialHeadingDegrees perfNow)) in
  let av := AircraftState.angularVelocity s in
  let m := AIRCRAFT.PHYSICS.MAX_ANGULAR_VELOCITY in
  - m <= Vector3.x av <= m /\
  - m <= Vector3.y av <= m /\
  - m <= Vector3.z av <= m /\
  0 <= AircraftState.speed s.
Proof.
  intros Hm.
  assert (Hrun : forall e, monotoneTimestamps calls e -> ratesInRange e ->
                           ratesInRange (run calls e)).
  { clear Hm. induction calls as [| c rest IH]; intros e Hm H; cbn [run]; [exact H |].
    destruct Hm as [Hc Hrest]. apply IH; [exact Hrest | now apply call_ratesInRange]. }
  apply (Hrun _ Hm).
  unfold ratesInRange. cbn. unfold AIRCRAFT.PHYSICS.MAX_ANGULAR_VELOCITY. lra.
Qed.

Lemma angular_velocity_always_clamped_witness :
  let calls := [ApplyControlInputs (AircraftControls.mk 0.8 (-0.8) 0.8 0.5 0.1);
                Update 16 1016;
                Update 33 1033] in
  let s := state (run calls (constructor 72 0)) in
  let av := AircraftState.angularVelocity s in
  let m := AIRCRAFT.PHYSICS.MAX_ANGULAR_VELOCITY in
  - m <= Vector3.x av <= m /\
  - m <= Vector3.y av <= m /\
  - m <= Vector3.z av <= m /\
  0 <= AircraftState.speed s.
Proof.
  apply (angular_velocity_always_clamped 72 0).
  cbn [monotoneTimestamps call fst].
  split; [exact I |].
  split; [rewrite applyControlInputs_lastUpdateTime; cbn; lra |].
  split; [| exact I].
  rewrite update_lastUpdateTime. lra.
Defined.

(** ** The hard boundary *)

Lemma Vector2_length_sqr (v : Vector2.t) :
  Vector2.length v * Vector2.length v = Vector2.x v * Vector2.x v + Vector2.y v * Vector2.y v.
Proof. unfold Vector2.length. apply sqrt_sqrt. nra. Qed.

Lemma Vector2_length_scaled_unit (r : R) (v : Vector2.t) :
  0 <= r -> 0 < Vector2.length v ->
  Vector2.length (Vector2.multiplyScalar r (Vector2.normalize v)) = r.
Proof.
  intros Hr Hl. pose proof (Vector2_length_sqr v) as Hsq.
  unfold Vector2.normalize, Vector2.divideScalar, Vector2.multiplyScalar, num_or.
  destruct (Req_dec_T (Vector2.length v) 0) as [Hz | Hnz]; [lra |].
  set (l := Vector2.length v) in *.
  unfold Vector2.length at 1. cbn [Vector2.x Vector2.y].
  match goal with
  | |- sqrt ?a = _ => replace a with (r * r)
  end.
  - now apply sqrt_square.
  - transitivity ((Vector2.x v * Vector2.x v + Vector2.y v * Vector2.y v) * (r * r) / (l * l)).
    + rewrite <- Hsq. field. exact Hnz.
    + field. exact Hnz.
Qed.

(** The state the hard boundary leaves when the aircraft is not at the
    centre. *)
Lemma applyBoundaryForces_crossing (deltaTime : R) (e : AircraftPhysics.t) :
  BoundaryStatus.isCrossingBoundary (AircraftPhysics.boundaryStatus e) = true ->
  let p := AircraftState.mapPosition (state e) in
  let off := Vector2.mk (LngLat.lng p - LngLat.lng MAP_BOUNDARY.CENTER)
                        (LngLat.lat p - LngLat.lat MAP_BOUNDARY.CENTER) in
  let n := Vector2.multiplyScalar (MAP_BOUNDARY.RADIUS_KM * 0.00009 * 0.99)
             (Vector2.normalize off) in
  let v := AircraftState.velocity (state e) in
  let d := Vector2.normalize (Vector2.mk (Vector3.x v) (Vector3.z v)) in
  (~ 0 < Vector2.length off -> applyBoundaryForces deltaTime e = e) /\
  (0 < Vector2.length off ->
     AircraftState.mapPosition (state (applyBoundaryForces deltaTime e)) =
       LngLat.mk (LngLat.lng MAP_BOUNDARY.CENTER + Vector2.x n)
                 (LngLat.lat MAP_BOUNDARY.CENTER + Vector2.y n) /\
     AircraftState.velocity (state (applyBoundaryForces deltaTime e)) =
       if Rlt_dec 0 (Vector2.dot d n) then
         Vector3.mk
           (Vector3.x v - Vector2.x n * (Vector2.dot d n * Vector2.length d) * 1.2 * 0.8)
           (Vector3.y v)
           (Vector3.z v - Vector2.y n * (Vector2.dot d n * Vector2.length d) * 1.2 * 0.8)
       else v).
Proof.
  intros Hcross. cbv zeta. unfold applyBoundaryForces. rewrite Hcross.
  cbn [negb MAP_BOUNDARY.ENABLED MAP_BOUNDARY.HARD_BOUNDARY]. cbv zeta.
  destruct (Rlt_dec 0 _) as [Hpos | Hzero].
  - split; [intros Hn; contradiction |]. intros _.
    destruct (Rlt_dec 0 _); split; reflexivity.
  - split; [reflexivity | intros Hn; contradiction].
Qed.

(** X13.  When the status is crossing and the aircraft is not exactly at
    the centre, the hard boundary moves the map position onto the circle
    of radius [RADIUS_KM * 0.00009 * 0.99] coordinate units around the
    centre, along the ray from the centre through the old position.  At
    the centre itself it does nothing. *)
Theorem hard_boundary_snaps_position (deltaTime : R) (e : AircraftPhysics.t) :
  BoundaryStatus.isCrossingBoundary (AircraftPhysics.boundaryStatus e) = true ->
  let offset (p : LngLat.t) :=
    Vector2.mk (LngLat.lng p - LngLat.lng MAP_BOUNDARY.CENTER)
               (LngLat.lat p - LngLat.lat MAP_BOUNDARY.CENTER) in
  let off := offset (AircraftState.mapPosition (state e)) in
  let off' := offset (AircraftState.mapPosition (state (applyBoundaryForces deltaTime e))) in
  (0 < Vector2.length off ->
     Vector2.length off' = MAP_BOUNDARY.RADIUS_KM * 0.00009 * 0.99 /\
     exists k, 0 < k /\ Vector2.x off' = k * Vector2.x off /\
                        Vector2.y off' = k * Vector2.y off) /\
  (~ 0 < Vector2.length off -> applyBoundaryForces deltaTime e = e).
Proof.
  intros Hcross. cbv zeta.
  destruct (applyBoundaryForces_crossing deltaTime e Hcross) as [Hcentre Haway].
  cbv zeta in Hcentre, Haway.
  split; [| exact Hcentre].
  intros Hpos. destruct (Haway Hpos) as [Hmp _]. rewrite Hmp.
  cbn [LngLat.lng LngLat.lat].
  set (off := Vector2.mk _ _) in *.
  set (r := MAP_BOUNDARY.RADIUS_KM * 0.00009 * 0.99) in *.
  assert (Hr : 0 < r) by (unfold r, MAP_BOUNDARY.RADIUS_KM; lra).
  set (n := Vector2.multiplyScalar r (Vector2.normalize off)) in *.
  replace (Vector2.mk (LngLat.lng MAP_BOUNDARY.CENTER + Vector2.x n
                       - LngLat.lng MAP_BOUNDARY.CENTER)
                      (LngLat.lat MAP_BOUNDARY.CENTER + Vector2.y n
                       - LngLat.lat MAP_BOUNDARY.CENTER))
    with n by (destruct n; cbn [Vector2.x Vector2.y]; f_equal; lra).
  split.
  - unfold n. apply Vector2_length_scaled_unit; lra.
  - exists (1 / Vector2.length off * r). split.
    + apply Rmult_lt_0_compat; [apply Rdiv_lt_0_compat; lra | exact Hr].
    + unfold n, Vector2.normalize, Vector2.divideScalar, Vector2.multiplyScalar, num_or.
      destruct (Req_dec_T (Vector2.length off) 0); [lra |].
      cbn [Vector2.x Vector2.y]. split; ring.
Qed.

Lemma hard_boundary_snaps_position_witness :
  let e := updateMapPosition (northOfCenter 11) (constructor 0 0) in
  let offset (p : LngLat.t) :=
    Vector2.mk (LngLat.lng p - LngLat.lng MAP_BOUNDARY.CENTER)
               (LngLat.lat p - LngLat.lat MAP_BOUNDARY.CENTER) in
  Vector2.length (offset (AircraftState.mapPosition (state (applyBoundaryForces 0.02 e))))
  = MAP_BOUNDARY.RADIUS_KM * 0.00009 * 0.99.
Proof.
  cbv zeta.
  assert (Hcross : BoundaryStatus.isCrossingBoundary
                     (AircraftPhysics.boundaryStatus
                        (updateMapPosition (northOfCenter 11) (constructor 0 0))) = true).
  { destruct (updateMapPosition_status (northOfCenter 11) (constructor 0 0)) as (Hb & _).
    cbv zeta in Hb. rewrite Hb. cbn [BoundaryStatus.isCrossingBoundary northOfCenter
                                      LngLat.lng LngLat.lat].
    rewrite calculateGeoDistanceKm_meridian by (pose proof PI2_1; split; lra).
    apply Rleb_true. unfold MAP_BOUNDARY.RADIUS_KM. lra. }
  destruct (hard_boundary_snaps_position 0.02 _ Hcross) as [H _].
  apply H.
  cbn [updateMapPosition updateBoundaryStatus MAP_BOUNDARY.ENABLED negb state
       AircraftPhysics.with_state AircraftState.mapPosition
       AircraftState.with_boundaryStatus AircraftState.with_mapPosition
       AircraftPhysics.with_boundaryStatus northOfCenter LngLat.lng LngLat.lat].
  unfold Vector2.length. cbn [Vector2.x Vector2.y].
  apply sqrt_lt_R0.
  assert (0 < 11 / 6371 * (180 / PI)).
  { pose proof PI_RGT_0. apply Rmult_lt_0_compat; [lra | apply Rdiv_lt_0_compat; lra]. }
  nra.
Defined.

(** X14.  The radius the hard boundary snaps to is in coordinate units
    of about 0.0009 degrees, not 10 km: an aircraft that crosses the
    boundary due north of the centre is put back [RADIUS_KM * 0.00009 *
    0.99] degrees of latitude north of the centre, and the next
    recomputation of the status finds it less than 0.2 km from the
    centre, neither crossing nor near. *)
Theorem hard_boundary_lands_near_centre (km deltaTime : R) (e : AircraftPhysics.t) :
  10 <= km < 19000 ->
  let e1 := updateMapPosition (northOfCenter km) e in
  let e2 := applyBoundaryForces deltaTime e1 in
  let e3 := updateBoundaryStatus e2 in
  let b3 := AircraftPhysics.boundaryStatus e3 in
  BoundaryStatus.isCrossingBoundary (AircraftPhysics.boundaryStatus e1) = true /\
  LngLat.lng (AircraftState.mapPosition (state e2)) = LngLat.lng MAP_BOUNDARY.CENTER /\
  LngLat.lat (AircraftState.mapPosition (state e2))
  = LngLat.lat MAP_BOUNDARY.CENTER + MAP_BOUNDARY.RADIUS_KM * 0.00009 * 0.99 /\
  BoundaryStatus.distanceToCenter b3 < 0.2 /\
  BoundaryStatus.isCrossingBoundary b3 = false /\
  BoundaryStatus.isNearBoundary b3 = false.
Proof.
  intros [Hlo Hhi]. cbv zeta. pose proof PI_RGT_0 as HPI. pose proof PI2_3_2 as HPI3.
  pose proof PI_4 as HPI4.
  set (e1 := updateMapPosition (northOfCenter km) e).
  assert (Hcross : BoundaryStatus.isCrossingBoundary (AircraftPhysics.boundaryStatus e1) = true).
  { destruct (updateMapPosition_status (northOfCenter km) e) as (Hb & _).
    cbv zeta in Hb. unfold e1. rewrite Hb.
    cbn [BoundaryStatus.isCrossingBoundary northOfCenter LngLat.lng LngLat.lat].
    rewrite calculateGeoDistanceKm_meridian by (split; lra).
    apply Rleb_true. unfold MAP_BOUNDARY.RADIUS_KM. lra. }
  split; [exact Hcross |].
  destruct (applyBoundaryForces_crossing deltaTime e1 Hcross) as [_ Haway].
  cbv zeta in Haway.
  assert (Hmp1 : AircraftState.mapPosition (state e1) = northOfCenter km) by reflexivity.
  rewrite Hmp1 in Haway.
  set (d := km / 6371 * (180 / PI)) in *.
  assert (Hd : 0 < d).
  { unfold d. apply Rmult_lt_0_compat; [lra | apply Rdiv_lt_0_compat; lra]. }
  assert (Hoff : Vector2.mk (LngLat.lng (northOfCenter km) - LngLat.lng MAP_BOUNDARY.CENTER)
                            (LngLat.lat (northOfCenter km) - LngLat.lat MAP_BOUNDARY.CENTER)
                 = Vector2.mk 0 d).
  { unfold northOfCenter. cbn [LngLat.lng LngLat.lat]. fold d. f_equal; lra. }
  rewrite Hoff in Haway.
  assert (Hlen : Vector2.length (Vector2.mk 0 d) = d).
  { unfold Vector2.length. cbn [Vector2.x Vector2.y].
    replace (0 * 0 + d * d) with (d * d) by lra. apply sqrt_square. lra. }
  destruct Haway as [Hmp2 _]; [rewrite Hlen; exact Hd |].
  set (r := MAP_BOUNDARY.RADIUS_KM * 0.00009 * 0.99) in *.
  assert (Hr : r = 0.000891) by (unfold r, MAP_BOUNDARY.RADIUS_KM; lra).
  assert (Hn : Vector2.multiplyScalar r (Vector2.normalize (Vector2.mk 0 d)) = Vector2.mk 0 r).
  { unfold Vector2.normalize, Vector2.divideScalar, Vector2.multiplyScalar, num_or.
    rewrite Hlen. destruct (Req_dec_T d 0); [lra |].
    cbn [Vector2.x Vector2.y]. f_equal; field; lra. }
  rewrite Hn in Hmp2. cbn [Vector2.x Vector2.y] in Hmp2.
  set (e2 := applyBoundaryForces deltaTime e1) in *.
  rewrite Hmp2. cbn [LngLat.lng LngLat.lat].
  split; [lra |]. split; [reflexivity |].
  assert (Hdist : BoundaryStatus.distanceToCenter
                    (AircraftPhysics.boundaryStatus (updateBoundaryStatus e2))
                  = 6371 * (r * (PI / 180))).
  { unfold updateBoundaryStatus.
    cbn [MAP_BOUNDARY.ENABLED negb AircraftPhysics.boundaryStatus
         AircraftPhysics.with_state AircraftPhysics.with_boundaryStatus
         BoundaryStatus.distanceToCenter].
    rewrite Hmp2. cbn [LngLat.lng LngLat.lat].
    replace (LngLat.lng MAP_BOUNDARY.CENTER + 0) with (LngLat.lng MAP_BOUNDARY.CENTER) by lra.
    replace (LngLat.lat MAP_BOUNDARY.CENTER + r)
      with (LngLat.lat MAP_BOUNDARY.CENTER + r * (PI / 180) * (180 / PI)) by (field; lra).
    apply calculateGeoDistanceKm_meridian. rewrite Hr. split; nra. }
  assert (Hflags : forall b, b = AircraftPhysics.boundaryStatus (updateBoundaryStatus e2) ->
            BoundaryStatus.isCrossingBoundary b
            = Rleb (MAP_BOUNDARY.RADIUS_KM - BoundaryStatus.distanceToCenter b) 0 /\
            BoundaryStatus.isNearBoundary b
            = Rleb MAP_BOUNDARY.WARNING_THRESHOLD
                (BoundaryStatus.distanceToCenter b / MAP_BOUNDARY.RADIUS_KM)
              && Rltb (BoundaryStatus.distanceToCenter b / MAP_BOUNDARY.RADIUS_KM) 1).
  { intros b ->. split; reflexivity. }
  destruct (Hflags _ eq_refl) as [Hc Hnr].
  rewrite Hc, Hnr, Hdist, Hr.
  unfold MAP_BOUNDARY.RADIUS_KM, MAP_BOUNDARY.WARNING_THRESHOLD.
  split; [nra |].
  split; [apply Rleb_false; nra |].
  apply andb_false_iff. left. apply Rleb_false. nra.
Qed.

Lemma hard_boundary_lands_near_centre_witness :
  let e1 := updateMapPosition (northOfCenter 11) (constructor 0 0) in
  let b3 := AircraftPhysics.boundaryStatus
              (updateBoundaryStatus (applyBoundaryForces 0.02 e1)) in
  BoundaryStatus.isCrossingBoundary (AircraftPhysics.boundaryStatus e1) = true /\
  BoundaryStatus.distanceToCenter b3 < 0.2.
Proof.
  destruct (hard_boundary_lands_near_centre 11 0.02 (constructor 0 0))
    as (H1 & _ & _ & H2 & _); [lra |].
  split; assumption.
Defined.

(** The hard boundary, seen along the offset of the aircraft from the
    centre: [along w] is the product of the horizontal velocity
    [(w.x, w.z)] with the offset [(lng, lat)]. *)
Lemma applyBoundaryForces_crossing_along (deltaTime : R) (e : AircraftPhysics.t) :
  BoundaryStatus.isCrossingBoundary (AircraftPhysics.boundaryStatus e) = true ->
  let p := AircraftState.mapPosition (state e) in
  let off := Vector2.mk (LngLat.lng p - LngLat.lng MAP_BOUNDARY.CENTER)
                        (LngLat.lat p - LngLat.lat MAP_BOUNDARY.CENTER) in
  0 < Vector2.length off ->
  let v := AircraftState.velocity (state e) in
  let v' := AircraftState.velocity (state (applyBoundaryForces deltaTime e)) in
  let along (w : Vector3.t) := Vector2.dot (Vector2.mk (Vector3.x w) (Vector3.z w)) off in
  Vector3.y v' = Vector3.y v /\
  (along v <= 0 -> v' = v) /\
  (0 < along v -> along v' < along v).
Proof.
  intros Hcross p off Hpos v v' along. subst p off v v' along. cbv beta.
  destruct (applyBoundaryForces_crossing deltaTime e Hcross) as [_ Haway].
  cbv zeta in Haway. destruct (Haway Hpos) as [_ Hv]. clear Haway. rewrite Hv. clear Hv.
  set (off := Vector2.mk (LngLat.lng _ - _) (LngLat.lat _ - _)) in *.
  destruct (AircraftState.velocity (state e)) as [vx vy vz].
  cbn [Vector3.x Vector3.y Vector3.z].
  set (r := MAP_BOUNDARY.RADIUS_KM * 0.00009 * 0.99).
  assert (Hr : 0 < r) by (unfold r, MAP_BOUNDARY.RADIUS_KM; lra).
  set (l := Vector2.length off) in *.
  pose proof (Vector2_length_sqr off) as Hlsq. fold l in Hlsq.
  set (h := Vector2.mk vx vz).
  set (m := num_or (Vector2.length h) 1).
  assert (Hm : 0 < m).
  { unfold m, num_or. destruct (Req_dec_T (Vector2.length h) 0); [lra |].
    pose proof (sqrt_pos (Vector2.x h * Vector2.x h + Vector2.y h * Vector2.y h)) as Hp.
    unfold Vector2.length in *. lra. }
  assert (Hn : Vector2.multiplyScalar r (Vector2.normalize off)
               = Vector2.mk (Vector2.x off * (1 / l) * r) (Vector2.y off * (1 / l) * r)).
  { unfold Vector2.normalize, Vector2.divideScalar, Vector2.multiplyScalar, num_or.
    fold l. destruct (Req_dec_T l 0); [lra | reflexivity]. }
  rewrite Hn.
  assert (Hd : Vector2.normalize h = Vector2.mk (vx * (1 / m)) (vz * (1 / m))) by reflexivity.
  rewrite Hd.
  set (n := Vector2.mk (Vector2.x off * (1 / l) * r) (Vector2.y off * (1 / l) * r)).
  set (d := Vector2.mk (vx * (1 / m)) (vz * (1 / m))).
  set (ox := Vector2.x off) in *. set (oy := Vector2.y off) in *.
  assert (Hk : 0 < r / (m * l)).
  { apply Rdiv_lt_0_compat; [exact Hr | now apply Rmult_lt_0_compat]. }
  assert (Hdot : Vector2.dot d n = (vx * ox + vz * oy) * (r / (m * l))).
  { unfold Vector2.dot, d, n. cbn [Vector2.x Vector2.y]. field. lra. }
  assert (Hout : Vector2.dot h off = vx * ox + vz * oy) by reflexivity.
  rewrite !Hout.
  destruct (Rlt_dec 0 (Vector2.dot d n)) as [Hmove | Hstay].
  - cbn [Vector3.x Vector3.y Vector3.z]. split; [reflexivity |].
    assert (Hq : 0 < vx * ox + vz * oy).
    { rewrite Hdot in Hmove.
      destruct (Rle_dec (vx * ox + vz * oy) 0) as [Hle | Hgt]; [| lra].
      exfalso. apply (Rmult_le_compat_r (r / (m * l))) in Hle; lra. }
    split; [intros Hle; lra |]. intros _.
    assert (Hdl : 0 < Vector2.length d).
    { unfold Vector2.length, d. cbn [Vector2.x Vector2.y]. apply sqrt_lt_R0.
      assert (Hi : 0 < 1 / m) by (apply Rdiv_lt_0_compat; lra).
      assert (Hv : 0 < vx * vx + vz * vz).
      { destruct (Req_dec_T vx 0) as [-> | Hx]; [| nra].
        destruct (Req_dec_T vz 0) as [-> | Hz]; [lra | nra]. }
      replace (vx * (1 / m) * (vx * (1 / m)) + vz * (1 / m) * (vz * (1 / m)))
        with ((vx * vx + vz * vz) * (1 / m * (1 / m))) by ring.
      apply Rmult_lt_0_compat; [exact Hv | nra]. }
    unfold Vector2.dot at 1. cbn [Vector2.x Vector2.y].
    set (oc := Vector2.dot d n * Vector2.length d).
    assert (Hoc : 0 < oc) by (unfold oc; now apply Rmult_lt_0_compat).
    assert (Hno : Vector2.x n * ox + Vector2.y n * oy = r * l).
    { unfold n. cbn [Vector2.x Vector2.y].
      transitivity ((ox * ox + oy * oy) * (r / l)); [field; lra |].
      rewrite <- Hlsq. field. lra. }
    assert (Hgain : 0 < oc * (r * l)) by (apply Rmult_lt_0_compat; nra).
    fold ox oy.
    replace ((vx - Vector2.x n * oc * 1.2 * 0.8) * ox + (vz - Vector2.y n * oc * 1.2 * 0.8) * oy)
      with (vx * ox + vz * oy - 0.96 * (oc * (Vector2.x n * ox + Vector2.y n * oy))) by lra.
    rewrite Hno. lra.
  - split; [reflexivity |]. split; [reflexivity |].
    intros Hq. exfalso. apply Hstay. rewrite Hdot. now apply Rmult_lt_0_compat.
Qed.

(** The force of [applyBoundaryForce], "in the direction toward the
    center", when the status was computed at the map position: it is
    added along the offset of the aircraft from the centre. *)
Lemma applyBoundaryForce_along_offset (forceMagnitude deltaTime : R)
    (mapPosition : LngLat.t) (e0 : AircraftPhysics.t) :
  let e := updateMapPosition mapPosition e0 in
  let off := Vector2.mk (LngLat.lng mapPosition - LngLat.lng MAP_BOUNDARY.CENTER)
                        (LngLat.lat mapPosition - LngLat.lat MAP_BOUNDARY.CENTER) in
  let l := Vector2.length off in
  let v := AircraftState.velocity (state e) in
  0 < l -> 0 < forceMagnitude ->
  AircraftState.velocity (state (applyBoundaryForce forceMagnitude deltaTime e))
  = Vector3.mk (Vector3.x v + Vector2.x off / l * forceMagnitude * deltaTime * 5)
               (Vector3.y v)
               (Vector3.z v + Vector2.y off / l * forceMagnitude * deltaTime * 5).
Proof.
  cbv zeta. intros Hl Hf.
  destruct (updateMapPosition_status mapPosition e0) as (Hb & _ & Hs).
  cbv zeta in Hb, Hs.
  unfold applyBoundaryForce. destruct (Rle_dec forceMagnitude 0) as [Hc | _]; [lra |].
  cbv zeta. rewrite Hb. cbn [BoundaryStatus.directionToCenter].
  cbn [state AircraftPhysics.with_state AircraftState.velocity AircraftState.with_velocity].
  rewrite Hs. cbn [AircraftState.velocity AircraftState.with_boundaryStatus
                   AircraftState.with_mapPosition].
  set (off := Vector2.mk (LngLat.lng mapPosition - LngLat.lng MAP_BOUNDARY.CENTER)
                         (LngLat.lat mapPosition - LngLat.lat MAP_BOUNDARY.CENTER)) in *.
  set (l := Vector2.length off) in *.
  pose proof (Vector2_length_sqr off) as Hsq. fold l in Hsq.
  cbn [Vector2.x Vector2.y off] in Hsq.
  assert (Hdir : calculateGeoDirection (LngLat.lng mapPosition) (LngLat.lat mapPosition)
                   (LngLat.lng MAP_BOUNDARY.CENTER) (LngLat.lat MAP_BOUNDARY.CENTER)
                 = Vector2.mk (- Vector2.x off / l) (- Vector2.y off / l)).
  { unfold calculateGeoDirection. cbv zeta.
    assert (Hlen : sqrt ((LngLat.lng MAP_BOUNDARY.CENTER - LngLat.lng mapPosition) *
                         (LngLat.lng MAP_BOUNDARY.CENTER - LngLat.lng mapPosition) +
                         (LngLat.lat MAP_BOUNDARY.CENTER - LngLat.lat mapPosition) *
                         (LngLat.lat MAP_BOUNDARY.CENTER - LngLat.lat mapPosition)) = l).
    { unfold l, Vector2.length, off. cbn [Vector2.x Vector2.y]. f_equal. ring. }
    rewrite Hlen. destruct (Req_dec_T l 0) as [Hz | _]; [lra |].
    unfold off. cbn [Vector2.x Vector2.y]. f_equal; field; lra. }
  rewrite Hdir. cbn [Vector2.x Vector2.y].
  set (ox := Vector2.x off) in *. set (oy := Vector2.y off) in *.
  assert (Hunit : Vector3.length (Vector3.mk (- (- ox / l)) 0 (- (- oy / l))) = 1).
  { unfold Vector3.length. cbn [Vector3.x Vector3.y Vector3.z].
    replace (- (- ox / l) * - (- ox / l) + 0 * 0 + - (- oy / l) * - (- oy / l))
      with ((ox * ox + oy * oy) / (l * l)) by (field; lra).
    unfold ox, oy, off. cbn [Vector2.x Vector2.y]. rewrite <- Hsq.
    replace (l * l / (l * l)) with 1 by (field; lra). apply sqrt_1. }
  unfold Vector3.normalize, Vector3.divideScalar, Vector3.multiplyScalar, num_or.
  rewrite Hunit. destruct (Req_dec_T 1 0) as [Hz | _]; [lra |].
  unfold Vector3.with_x, Vector3.with_z. cbn [Vector3.x Vector3.y Vector3.z].
  f_equal; field; lra.
Qed.

(** X15.  The velocity correction of the hard boundary works against the
    force that [applyBoundaryForce] applies "in the direction toward the
    center".  With the status computed at the aircraft's map position,
    that force adds to the horizontal velocity [(x, z)] along the offset
    [(lng, lat)] of the aircraft from the centre: the product of the two
    grows by [forceMagnitude * deltaTime * 5] times the length of the
    offset.  The hard boundary leaves the velocity alone when that
    product is not positive and strictly reduces the product when it is
    positive: it takes speed from an aircraft that moves in the
    direction of the restoring force and none from one that moves
    against it.  The vertical velocity is never changed. *)
Theorem hard_boundary_correction_opposes_restoring_force (forceMagnitude deltaTime : R)
    (mapPosition : LngLat.t) (e0 : AircraftPhysics.t) :
  let e := updateMapPosition mapPosition e0 in
  let off := Vector2.mk (LngLat.lng mapPosition - LngLat.lng MAP_BOUNDARY.CENTER)
                        (LngLat.lat mapPosition - LngLat.lat MAP_BOUNDARY.CENTER) in
  let along (w : Vector3.t) := Vector2.dot (Vector2.mk (Vector3.x w) (Vector3.z w)) off in
  let v := AircraftState.velocity (state e) in
  let pushed := AircraftState.velocity (state (applyBoundaryForce forceMagnitude deltaTime e)) in
  let corrected := AircraftState.velocity (state (applyBoundaryForces deltaTime e)) in
  0 < Vector2.length off ->
  0 < forceMagnitude ->
  along pushed = along v + forceMagnitude * deltaTime * 5 * Vector2.length off /\
  (BoundaryStatus.isCrossingBoundary (AircraftPhysics.boundaryStatus e) = true ->
     Vector3.y corrected = Vector3.y v /\
     (along v <= 0 -> corrected = v) /\
     (0 < along v -> along corrected < along v)).
Proof.
  cbv zeta. intros Hl Hf. split.
  - rewrite (applyBoundaryForce_along_offset forceMagnitude deltaTime mapPosition e0 Hl Hf).
    set (off := Vector2.mk _ _) in *.
    pose proof (Vector2_length_sqr off) as Hsq.
    set (l := Vector2.length off) in *.
    unfold Vector2.dot. cbn [Vector2.x Vector2.y Vector3.x Vector3.z].
    set (ox := Vector2.x off) in *. set (oy := Vector2.y off) in *.
    set (k := forceMagnitude * deltaTime * 5).
    replace ((Vector3.x (AircraftState.velocity (state (updateMapPosition mapPosition e0)))
              + ox / l * forceMagnitude * deltaTime * 5) * ox
             + (Vector3.z (AircraftState.velocity (state (updateMapPosition mapPosition e0)))
                + oy / l * forceMagnitude * deltaTime * 5) * oy)
      with (Vector3.x (AircraftState.velocity (state (updateMapPosition mapPosition e0))) * ox
            + Vector3.z (AircraftState.velocity (state (updateMapPosition mapPosition e0))) * oy
            + k * ((ox * ox + oy * oy) / l))
      by (unfold k; field; lra).
    rewrite <- Hsq. replace (l * l / l) with l by (field; lra). unfold k. ring.
  - intros Hcross.
    apply (applyBoundaryForces_crossing_along deltaTime
             (updateMapPosition mapPosition e0) Hcross).
    exact Hl.
Qed.

Lemma hard_boundary_correction_opposes_restoring_force_witness :
  let e0 := AircraftPhysics.with_state
              (AircraftState.with_velocity (Vector3.mk 0 0 (-1)) (state (constructor 0 0)))
              (constructor 0 0) in
  let e := updateMapPosition (northOfCenter 11) e0 in
  AircraftState.velocity (state (applyBoundaryForces 0.02 e)) = Vector3.mk 0 0 (-1).
Proof.
  cbv zeta.
  set (e0 := AircraftPhysics.with_state
               (AircraftState.with_velocity (Vector3.mk 0 0 (-1)) (state (constructor 0 0)))
               (constructor 0 0)).
  set (e := updateMapPosition (northOfCenter 11) e0).
  assert (Hd : 0 < 11 / 6371 * (180 / PI)).
  { pose proof PI_RGT_0. apply Rmult_lt_0_compat; [lra | apply Rdiv_lt_0_compat; lra]. }
  assert (Hcross : BoundaryStatus.isCrossingBoundary (AircraftPhysics.boundaryStatus e) = true).
  { destruct (updateMapPosition_status (northOfCenter 11) e0) as (Hb & _).
    cbv zeta in Hb. unfold e. rewrite Hb.
    cbn [BoundaryStatus.isCrossingBoundary northOfCenter LngLat.lng LngLat.lat].
    rewrite calculateGeoDistanceKm_meridian by (pose proof PI2_1; split; lra).
    apply Rleb_true. unfold MAP_BOUNDARY.RADIUS_KM. lra. }
  destruct (hard_boundary_correction_opposes_restoring_force 1 0.02 (northOfCenter 11) e0)
    as (_ & Hhard).
  - unfold Vector2.length, northOfCenter. cbn [Vector2.x Vector2.y LngLat.lng LngLat.lat].
    apply sqrt_lt_R0. nra.
  - lra.
  - destruct (Hhard Hcross) as (_ & Hstay & _). apply Hstay.
    change (AircraftState.velocity (state (updateMapPosition (northOfCenter 11) e0)))
      with (Vector3.mk 0 0 (-1)).
    unfold Vector2.dot, northOfCenter. cbn [Vector2.x Vector2.y Vector3.x Vector3.z
                                            LngLat.lng LngLat.lat]. nra.
Defined.

(** ** What the boundary forces leave alone *)

(** X16.  In every mode (hard boundary, warning band, or no force at
    all) [applyBoundaryForces] writes only the velocity and the map
    position of the state, and of the velocity only the horizontal
    components: position, rotation, angular velocity, throttle, the
    derived fields, the vertical velocity, both copies of the boundary
    status and every private field of the engine are unchanged. *)
Theorem boundary_forces_act_horizontally (deltaTime : R) (e : AircraftPhysics.t) :
  let e' := applyBoundaryForces deltaTime e in
  let s := state e in
  let s' := state e' in
  e' = AircraftPhysics.with_state s' e /\
  s' = AircraftState.with_mapPosition (AircraftState.mapPosition s')
         (AircraftState.with_velocity
            (Vector3.mk (Vector3.x (AircraftState.velocity s'))
                        (Vector3.y (AircraftState.velocity s))
                        (Vector3.z (AircraftState.velocity s'))) s).
Proof.
  cbv zeta.
  destruct (applyBoundaryForces_frame deltaTime e) as (He & Hs & Hy).
  cbv zeta in He, Hs, Hy.
  split; [exact He |].
  rewrite <- Hy. rewrite Hs at 1.
  destruct (AircraftState.velocity (state (applyBoundaryForces deltaTime e))). reflexivity.
Qed.

(** ** The speed cap away from the boundary *)


(** The status of an engine at the centre of the boundary, before and
    after a recomputation. *)
Lemma checkBoundaryStatus_at_centre (now : R) (e : AircraftPhysics.t) :
  AircraftState.mapPosition (state e) = MAP_BOUNDARY.CENTER ->
  BoundaryStatus.isNearBoundary (AircraftPhysics.boundaryStatus e) = false ->
  BoundaryStatus.isCrossingBoundary (AircraftPhysics.boundaryStatus e) = false ->
  let b := AircraftPhysics.boundaryStatus (checkBoundaryStatus now e) in
  BoundaryStatus.isNearBoundary b = false /\ BoundaryStatus.isCrossingBoundary b = false.
Proof.
  intros Hmp Hn Hc. cbv zeta. unfold checkBoundaryStatus.
  destruct (MAP_BOUNDARY.ENABLED && Rltb _ _); [| now split].
  unfold updateBoundaryStatus.
  cbn [MAP_BOUNDARY.ENABLED negb AircraftPhysics.boundaryStatus AircraftPhysics.with_state
       AircraftPhysics.with_boundaryStatus AircraftPhysics.with__lastBoundaryCheck
       BoundaryStatus.isNearBoundary BoundaryStatus.isCrossingBoundary].
  rewrite Hmp, calculateGeoDistanceKm_same_aux.
  unfold MAP_BOUNDARY.RADIUS_KM, MAP_BOUNDARY.WARNING_THRESHOLD.
  split.
  - apply andb_false_iff. left. apply Rleb_false. lra.
  - apply Rleb_false. lra.
Qed.


(** ** Ground contact *)

(** X18.  When the integrated position is below ground, the collision
    block puts the aircraft on the ground with a vertical velocity that
    is not negative, and never with more speed than it arrived with. *)
Theorem ground_contact_stops_descent (s : AircraftState.t) :
  Vector3.y (AircraftState.position s) < 0 ->
  let s' := enforceGroundCollision s in
  Vector3.y (AircraftState.position s') = 0 /\
  0 <= Vector3.y (AircraftState.velocity s') /\
  Vector3.length (AircraftState.velocity s') <= Vector3.length (AircraftState.velocity s).
Proof.
  intros Hneg. cbv zeta.
  split; [| split; [| apply enforceGroundCollision_slows]].
  - unfold enforceGroundCollision.
    destruct (Rlt_dec _ 0); [| contradiction]. cbv zeta. case_if; reflexivity.
  - unfold enforceGroundCollision.
    destruct (Rlt_dec _ 0); [| contradiction]. cbv zeta.
    case_if; cbn; [| lra].
    pose proof (Rabs_pos (Vector3.y (AircraftState.velocity s))). lra.
Qed.

Lemma ground_contact_stops_descent_witness :
  let s := AircraftState.with_velocity (Vector3.mk 1 (-3) 0)
             (AircraftState.with_position (Vector3.mk 0 (-0.06) 0)
                (state (constructor 0 0))) in
  let s' := enforceGroundCollision s in
  Vector3.y (AircraftState.position s') = 0 /\
  0 <= Vector3.y (AircraftState.velocity s') /\
  Vector3.length (AircraftState.velocity s') <= Vector3.length (AircraftState.velocity s).
Proof.
  apply (ground_contact_stops_descent
           (AircraftState.with_velocity (Vector3.mk 1 (-3) 0)
              (AircraftState.with_position (Vector3.mk 0 (-0.06) 0)
                 (state (constructor 0 0))))).
  cbn. lra.
Defined.

(** ** An aircraft left alone on the ground *)

Lemma applyThrust_idle (deltaTime vt : R) (s : AircraftState.t) :
  AircraftState.throttle s = 0 -> applyThrust deltaTime vt s = s.
Proof.
  intros Ht. unfold applyThrust. cbv zeta. rewrite Ht.
  destruct (Rlt_dec MIN_THROTTLE_TO_MOVE 0) as [Hc | _]; [| reflexivity].
  unfold MIN_THROTTLE_TO_MOVE, AIRCRAFT.MIN_THROTTLE_TO_MOVE in Hc. lra.
Qed.

Lemma applyDrag_rest (deltaTime : R) (s : AircraftState.t) :
  AircraftState.velocity s = Vector3.mk 0 0 0 -> applyDrag deltaTime s = s.
Proof.
  intros Hv. unfold applyDrag. cbv zeta. rewrite Hv.
  destruct s as [p v sp al hd pi ro rot av th fl gr mp bs].
  cbn in Hv |- *. subst v. unfold AircraftState.with_velocity. cbn.
  do 2 f_equal; lra.
Qed.

Lemma applyThrottleDecay_idle (deltaTime : R) (hui : bool) (s : AircraftState.t) :
  AircraftState.throttle s = 0 -> applyThrottleDecay deltaTime hui s = s.
Proof.
  intros Ht. unfold applyThrottleDecay. rewrite Ht.
  destruct hui; cbn [negb]; [reflexivity |].
  destruct (Rlt_dec 0 0); [lra | reflexivity].
Qed.

Lemma applySpeedLimit_rest (s : AircraftState.t) :
  AircraftState.velocity s = Vector3.mk 0 0 0 -> applySpeedLimit s = s.
Proof.
  intros Hv. unfold applySpeedLimit. cbv zeta. rewrite Hv.
  rewrite length_along_z by lra.
  destruct (Rlt_dec MAX_SPEED 0) as [Hc | _]; [| reflexivity].
  unfold MAX_SPEED, AIRCRAFT.MAX_SPEED in Hc. lra.
Qed.

Lemma applyStabilization_level (deltaTime : R) (hui : bool) (s : AircraftState.t) :
  Euler.x (AircraftState.rotation s) = 0 -> Euler.z (AircraftState.rotation s) = 0 ->
  applyStabilization deltaTime hui s = s.
Proof.
  intros Hx Hz. unfold applyStabilization.
  destruct hui; cbn [negb]; [reflexivity |]. cbv zeta.
  destruct s as [p v sp al hd pi ro [rx ry rz] av th fl gr mp bs].
  cbn in Hx, Hz. subst rx rz.
  unfold AircraftState.with_rotation, Euler.with_x, Euler.with_z.
  cbn [AircraftState.rotation AircraftState.position AircraftState.velocity
       AircraftState.speed AircraftState.altitude AircraftState.heading
       AircraftState.pitch AircraftState.roll AircraftState.angularVelocity
       AircraftState.throttle AircraftState.isFlying AircraftState.isGrounded
       AircraftState.mapPosition AircraftState.boundaryStatus
       AIRCRAFT.PHYSICS.STABILIZATION.APPLY_TO_PITCH
       AIRCRAFT.PHYSICS.STABILIZATION.APPLY_TO_ROLL Euler.x Euler.y Euler.z].
  rewrite !Rmult_0_l. reflexivity.
Qed.

Lemma integratePosition_rest (deltaTime : R) (s : AircraftState.t) :
  AircraftState.velocity s = Vector3.mk 0 0 0 -> integratePosition deltaTime s = s.
Proof.
  intros Hv. unfold integratePosition. cbv zeta. rewrite Hv.
  destruct s as [[px py pz] v sp al hd pi ro rot av th fl gr mp bs].
  cbn. unfold AircraftState.with_position. cbn. do 2 f_equal; lra.
Qed.

Lemma update_parked (currentTime now : R) (e : AircraftPhysics.t) :
  parked e -> parked (fst (update currentTime now e)).
Proof.
  intros H.
  destruct (Rlt_dec 0.1 ((currentTime - lastUpdateTime e) / 1000)) as [Hskip | Hrun].
  { rewrite update_stalled by exact Hskip. exact H. }
  destruct H as (Hp & Hv & Hav & Hth & Hrx & Hrz & Hvt & Hmp & Hnr & Hcr).
  rewrite update_state by exact Hrun.
  set (dt := (currentTime - lastUpdateTime e) / 1000).
  destruct (checkBoundaryStatus_frame now
              (AircraftPhysics.with_lastUpdateTime currentTime e)) as (Hs1 & _ & Hp1 & _).
  destruct (checkBoundaryStatus_at_centre now
              (AircraftPhysics.with_lastUpdateTime currentTime e) Hmp Hnr Hcr) as [Hn1 Hc1].
  cbv zeta in Hs1, Hp1, Hn1, Hc1.
  set (e1 := checkBoundaryStatus now (AircraftPhysics.with_lastUpdateTime currentTime e)) in *.
  cbn [state prevControls AircraftPhysics.with_lastUpdateTime] in Hs1, Hp1.
  set (s1 := state e1) in *.
  assert (F : AircraftState.position s1 = Vector3.mk 0 0 0 /\
              AircraftState.velocity s1 = Vector3.mk 0 0 0 /\
              AircraftState.angularVelocity s1 = Vector3.mk 0 0 0 /\
              AircraftState.throttle s1 = 0 /\
              Euler.x (AircraftState.rotation s1) = 0 /\
              Euler.z (AircraftState.rotation s1) = 0 /\
              AircraftState.mapPosition s1 = MAP_BOUNDARY.CENTER).
  { rewrite Hs1. cbn. repeat split; assumption. }
  destruct F as (Hp' & Hv' & Hav' & Hth' & Hrx' & Hrz' & Hmp').
  destruct (updateAircraftPhysics_private dt now e1) as (Hb2 & _ & _ & _ & Hp2).
  cbv zeta in Hb2, Hp2.
  assert (Hs2 : state (updateAircraftPhysics dt now e1) = updateDerivedFields s1).
  { rewrite updateAircraftPhysics_state. cbv zeta. fold s1.
    rewrite Hp1, Hvt.
    rewrite applyRotation_still, applyAngularDamping_still by exact Hav'.
    rewrite applyThrust_idle by exact Hth'.
    rewrite applyVerticalThrust_none.
    rewrite applyDrag_rest by exact Hv'.
    rewrite applyThrottleDecay_idle by exact Hth'.
    rewrite applySpeedLimit_rest by exact Hv'.
    rewrite applyStabilization_level by assumption.
    rewrite integratePosition_rest by exact Hv'.
    rewrite enforceGroundCollision_airborne by (rewrite Hp'; cbn; lra).
    reflexivity. }
  set (e2 := updateAircraftPhysics dt now e1) in *.
  assert (He3 : applyBoundaryForcesIfNeeded dt e2 = e2).
  { unfold applyBoundaryForcesIfNeeded. rewrite Hb2, Hn1, Hc1. reflexivity. }
  rewrite He3.
  unfold parked. cbv zeta.
  cbn [state prevControls AircraftPhysics.boundaryStatus AircraftPhysics.with_hasUserInput].
  rewrite Hs2, Hb2, Hp2, Hp1.
  cbn [updateDerivedFields AircraftState.position AircraftState.velocity
       AircraftState.angularVelocity AircraftState.throttle AircraftState.rotation
       AircraftState.mapPosition].
  repeat split; assumption.
Qed.

Lemma call_parked (c : Call) (e : AircraftPhysics.t) :
  passive c -> parked e -> parked (fst (call c e)).
Proof.
  destruct c; cbn [call fst passive]; intros Hc H; try contradiction; try exact H.
  now apply update_parked.
Qed.

(** X19.  A freshly constructed aircraft that receives no control input
    and no new map position does not move: whatever frames (with any
    timestamps), heading changes and listener registrations follow, its
    position and velocity stay at the origin and its throttle at 0. *)
Theorem parked_aircraft_stays_put (initialHeadingDegrees perfNow : R)
    (calls : list Call) :
  Forall passive calls ->
  let s := state (run calls (constructor initialHeadingDegrees perfNow)) in
  AircraftState.position s = Vector3.mk 0 0 0 /\
  AircraftState.velocity s = Vector3.mk 0 0 0 /\
  AircraftState.throttle s = 0.
Proof.
  intros Hpassive.
  assert (Hrun : forall e, parked e -> parked (run calls e)).
  { induction Hpassive as [| c rest Hc _ IH]; intros e H; cbn [run]; [exact H |].
    apply IH. now apply call_parked. }
  destruct (Hrun (constructor initialHeadingDegrees perfNow)) as (Hp & Hv & _ & Ht & _).
  - unfold parked. cbn. unfold AIRCRAFT.DEFAULT_ALTITUDE. repeat split.
  - cbv zeta. repeat split; assumption.
Qed.

Lemma parked_aircraft_stays_put_witness :
  let calls := [OnPhysicsUpdate 1%nat; Update 16 1016; SetHeading 90;
                Update 33 1033; Update 5000 6000; Update 5016 6016] in
  let s := state (run calls (constructor 72 0)) in
  AircraftState.position s = Vector3.mk 0 0 0 /\
  AircraftState.velocity s = Vector3.mk 0 0 0 /\
  AircraftState.throttle s = 0.
Proof.
  apply (parked_aircraft_stays_put 72 0).
  repeat constructor.
Defined.

(** ** The two copies of the boundary status *)

Section StatusFrames.
Variables (deltaTime : R) (s : AircraftState.t).

Lemma boundaryStatus_applyRotation now :
  AircraftState.boundaryStatus (applyRotation deltaTime now s) = AircraftState.boundaryStatus s.
Proof. stage_frame applyRotation. Qed.
Lemma boundaryStatus_applyAngularDamping :
  AircraftState.boundaryStatus (applyAngularDamping deltaTime s) = AircraftState.boundaryStatus s.
Proof. stage_frame applyAngularDamping. Qed.
Lemma boundaryStatus_applyThrust vt :
  AircraftState.boundaryStatus (applyThrust deltaTime vt s) = AircraftState.boundaryStatus s.
Proof. stage_frame applyThrust. Qed.
Lemma boundaryStatus_applyVerticalThrust vt :
  AircraftState.boundaryStatus (applyVerticalThrust deltaTime vt s) = AircraftState.boundaryStatus s.
Proof. stage_frame applyVerticalThrust. Qed.
Lemma boundaryStatus_applyDrag :
  AircraftState.boundaryStatus (applyDrag deltaTime s) = AircraftState.boundaryStatus s.
Proof. stage_frame applyDrag. Qed.
Lemma boundaryStatus_applyThrottleDecay hui :
  AircraftState.boundaryStatus (applyThrottleDecay deltaTime hui s) = AircraftState.boundaryStatus s.
Proof. intros; unfold applyThrottleDecay; destruct hui; cbn; repeat case_if; reflexivity. Qed.
Lemma boundaryStatus_applySpeedLimit :
  AircraftState.boundaryStatus (applySpeedLimit s) = AircraftState.boundaryStatus s.
Proof. stage_frame applySpeedLimit. Qed.
Lemma boundaryStatus_applyStabilization hui :
  AircraftState.boundaryStatus (applyStabilization deltaTime hui s) = AircraftState.boundaryStatus s.
Proof. intros; unfold applyStabilization; destruct hui; reflexivity. Qed.
Lemma boundaryStatus_integratePosition :
  AircraftState.boundaryStatus (integratePosition deltaTime s) = AircraftState.boundaryStatus s.
Proof. stage_frame integratePosition. Qed.
Lemma boundaryStatus_enforceGroundCollision :
  AircraftState.boundaryStatus (enforceGroundCollision s) = AircraftState.boundaryStatus s.
Proof. stage_frame enforceGroundCollision. Qed.
End StatusFrames.

Lemma boundaryStatus_updateAircraftPhysics (deltaTime now : R) (e : AircraftPhysics.t) :
  AircraftState.boundaryStatus (state (updateAircraftPhysics deltaTime now e)) =
  AircraftState.boundaryStatus (state e).
Proof.
  rewrite updateAircraftPhysics_state. cbv zeta.
  change (AircraftState.boundaryStatus (updateDerivedFields ?s))
    with (AircraftState.boundaryStatus s).
  now rewrite boundaryStatus_enforceGroundCollision, boundaryStatus_integratePosition,
    boundaryStatus_applyStabilization, boundaryStatus_applySpeedLimit,
    boundaryStatus_applyThrottleDecay, boundaryStatus_applyDrag,
    boundaryStatus_applyVerticalThrust, boundaryStatus_applyThrust,
    boundaryStatus_applyAngularDamping, boundaryStatus_applyRotation.
Qed.

Lemma updateBoundaryStatus_statusCoherent (e : AircraftPhysics.t) :
  statusCoherent (updateBoundaryStatus e).
Proof.
  unfold statusCoherent, updateBoundaryStatus.
  cbn [MAP_BOUNDARY.ENABLED negb state AircraftPhysics.boundaryStatus
       AircraftPhysics.with_state AircraftPhysics.with_boundaryStatus
       AircraftState.boundaryStatus AircraftState.with_boundaryStatus
       BoundaryStatus.isNearBoundary BoundaryStatus.isCrossingBoundary].
  split; [reflexivity |].
  set (d := calculateGeoDistanceKm _ _ _ _).
  unfold MAP_BOUNDARY.RADIUS_KM, Rleb, Rltb.
  repeat case_if; try reflexivity. lra.
Qed.

Lemma checkBoundaryStatus_statusCoherent (now : R) (e : AircraftPhysics.t) :
  statusCoherent e -> statusCoherent (checkBoundaryStatus now e).
Proof.
  intros H. unfold checkBoundaryStatus.
  destruct (MAP_BOUNDARY.ENABLED && Rltb _ _); [| exact H].
  exact (updateBoundaryStatus_statusCoherent e).
Qed.

Lemma update_statusCoherent (currentTime now : R) (e : AircraftPhysics.t) :
  statusCoherent e -> statusCoherent (fst (update currentTime now e)).
Proof.
  intros H.
  destruct (Rlt_dec 0.1 ((currentTime - lastUpdateTime e) / 1000)) as [Hskip | Hrun].
  { rewrite update_stalled by exact Hskip. exact H. }
  rewrite update_state by exact Hrun.
  set (dt := (currentTime - lastUpdateTime e) / 1000).
  pose proof (checkBoundaryStatus_statusCoherent now
                (AircraftPhysics.with_lastUpdateTime currentTime e) H) as [H1 H1'].
  set (e1 := checkBoundaryStatus now (AircraftPhysics.with_lastUpdateTime currentTime e)) in *.
  destruct (updateAircraftPhysics_private dt now e1) as (Hb2 & _).
  pose proof (boundaryStatus_updateAircraftPhysics dt now e1) as Hs2.
  cbv zeta in Hb2.
  set (e2 := updateAircraftPhysics dt now e1) in *.
  destruct (applyBoundaryForcesIfNeeded_frame dt e2) as (He3 & Hs3 & _).
  cbv zeta in He3, Hs3.
  unfold statusCoherent.
  cbn [state AircraftPhysics.boundaryStatus AircraftPhysics.with_hasUserInput].
  rewrite He3. cbn [state AircraftPhysics.boundaryStatus AircraftPhysics.with_state].
  rewrite Hs3. cbn [AircraftState.boundaryStatus AircraftState.with_mapPosition
                    AircraftState.with_velocity].
  rewrite Hs2, Hb2. split; assumption.
Qed.

Lemma applyControlInputs_statusCoherent (rawControls : AircraftControls.t)
    (e : AircraftPhysics.t) :
  statusCoherent e -> statusCoherent (applyControlInputs rawControls e).
Proof.
  unfold statusCoherent, applyControlInputs.
  destruct (processControls_frame rawControls e) as (Hs & _ & _ & Hb & _).
  destruct (processControls rawControls e) as [e1 controls].
  cbn [fst] in Hs, Hb. cbv zeta.
  cbn [state AircraftPhysics.boundaryStatus AircraftPhysics.with_state
       AircraftPhysics.with_hasUserInput].
  rewrite Hs, Hb. case_if; exact (fun H => H).
Qed.

Lemma call_statusCoherent (c : Call) (e : AircraftPhysics.t) :
  statusCoherent e -> statusCoherent (fst (call c e)).
Proof.
  destruct c; cbn [call fst]; intros H; try exact H.
  - now apply applyControlInputs_statusCoherent.
  - now apply update_statusCoherent.
  - exact (updateBoundaryStatus_statusCoherent _).
Qed.

(** X20.  Whatever the calls made on a constructed engine, the boundary
    status carried by the state (and so by every snapshot) is the cached
    status the engine bases its boundary forces on, and that status is
    never near and crossing at once. *)
Theorem boundary_status_stays_coherent (initialHeadingDegrees perfNow : R)
    (calls : list Call) :
  let e := run calls (constructor initialHeadingDegrees perfNow) in
  AircraftState.boundaryStatus (state e) = AircraftPhysics.boundaryStatus e /\
  BoundaryStatus.isNearBoundary (AircraftPhysics.boundaryStatus e)
  && BoundaryStatus.isCrossingBoundary (AircraftPhysics.boundaryStatus e) = false.
Proof.
  cbv zeta.
  assert (Hrun : forall e, statusCoherent e -> statusCoherent (run calls e)).
  { induction calls as [| c rest IH]; intros e H; cbn [run]; [exact H |].
    apply IH. now apply call_statusCoherent. }
  destruct (Hrun (constructor initialHeadingDegrees perfNow)) as [H1 H2].
  - split; reflexivity.
  - split; [exact H1 | exact H2].
Qed.

(** ** The keyboard *)

(** X21.  The key state is a faithful record of the last event of each
    key: after a key-down the key is pressed, after a key-up it is not,
    an event of one key leaves every other key as it was, and on a new
    handler no key is pressed.  Each event calls every registered
    listener once, in order, with the key state after the event. *)
Theorem key_state_follows_events (key other : string) (h : InputHandler.t) :
  let down := fst (fst (InputHandler.handleKeyDown key h)) in
  let up := fst (InputHandler.handleKeyUp key h) in
  InputHandler.isKeyPressed key down = true /\
  InputHandler.isKeyPressed key up = false /\
  InputHandler.isKeyPressed other InputHandler.constructor = false /\
  (other <> key ->
     InputHandler.isKeyPressed other down = InputHandler.isKeyPressed other h /\
     InputHandler.isKeyPressed other up = InputHandler.isKeyPressed other h) /\
  snd (InputHandler.handleKeyDown key h)
  = map (fun l => InputHandler.keyNotified l (InputHandler.keyState down))
        (InputHandler.listeners h) /\
  snd (InputHandler.handleKeyUp key h)
  = map (fun l => InputHandler.keyNotified l (InputHandler.keyState up))
        (InputHandler.listeners h).
Proof.
  cbv zeta. unfold InputHandler.handleKeyDown, InputHandler.handleKeyUp,
    InputHandler.isKeyPressed, InputHandler.notifyListeners. cbv zeta.
  cbn [fst snd InputHandler.keyState InputHandler.listeners InputHandler.constructor].
  rewrite !lookup_insert_eq, lookup_empty.
  repeat split; try reflexivity.
  - rewrite lookup_insert_ne by congruence. reflexivity.
  - rewrite lookup_insert_ne by congruence. reflexivity.
Qed.

Lemma key_state_follows_events_witness :
  let h := fst (fst (InputHandler.handleKeyDown "w" InputHandler.constructor)) in
  InputHandler.isKeyPressed "w" (fst (InputHandler.handleKeyUp " " h)) = true.
Proof.
  cbv zeta.
  destruct (key_state_follows_events " " "w"
              (fst (fst (InputHandler.handleKeyDown "w" InputHandler.constructor))))
    as (_ & _ & _ & Hother & _).
  destruct Hother as [_ Hup]; [discriminate |].
  rewrite Hup.
  apply (key_state_follows_events "w" "w" InputHandler.constructor).
Defined.

(** ** From keys to controls *)

(** X22.  Whatever keys are held, the controls built from the key state
    are between -1 and 1; the vertical thrust always opposes the pitch
    input in the fixed ratio of the two configured values; with no
    control key held (none pressed, or all released) every control is
    0; and of two opposite keys held together the first one tested wins
    (W over S, A over D, Q over E, Space over Shift). *)
Theorem flightControls_bounded_and_prioritised (keyState : gmap string bool) :
  let c := GameManager.flightControls keyState in
  let held := GameManager.held keyState in
  (-1 <= AircraftControls.pitch c <= 1 /\ -1 <= AircraftControls.roll c <= 1 /\
   -1 <= AircraftControls.yaw c <= 1 /\ -1 <= AircraftControls.throttle c <= 1 /\
   -1 <= AircraftControls.verticalThrust c <= 1) /\
  AircraftControls.verticalThrust c * AIRCRAFT.CONTROLS.INPUT.PITCH_VALUE
  = - AircraftControls.pitch c * AIRCRAFT.CONTROLS.INPUT.VERTICAL_THRUST_VALUE /\
  ((forall key, held key = false) -> c = AircraftControls.mk 0 0 0 0 0) /\
  (held "w" = true -> AircraftControls.pitch c = - AIRCRAFT.CONTROLS.INPUT.PITCH_VALUE) /\
  (held "a" = true -> AircraftControls.roll c = - AIRCRAFT.CONTROLS.INPUT.ROLL_VALUE) /\
  (held "q" = true -> AircraftControls.yaw c = - AIRCRAFT.CONTROLS.INPUT.YAW_VALUE) /\
  (held " " = true -> AircraftControls.throttle c = AIRCRAFT.CONTROLS.INPUT.THROTTLE_VALUE).
Proof.
  cbv zeta. unfold GameManager.flightControls.
  unfold AIRCRAFT.CONTROLS.INPUT.PITCH_VALUE, AIRCRAFT.CONTROLS.INPUT.ROLL_VALUE,
    AIRCRAFT.CONTROLS.INPUT.YAW_VALUE, AIRCRAFT.CONTROLS.INPUT.VERTICAL_THRUST_VALUE,
    AIRCRAFT.CONTROLS.INPUT.THROTTLE_VALUE.
  split; [| split; [| split; [| repeat split]]].
  - repeat case_match; simplify_eq; cbn; lra.
  - repeat case_match; simplify_eq; cbn; lra.
  - intros Hnone. rewrite !Hnone. reflexivity.
  - intros ->. reflexivity.
  - intros ->. cbn [orb]. repeat case_match; reflexivity.
  - intros ->. cbn [orb]. repeat case_match; reflexivity.
  - intros ->. repeat case_match; reflexivity.
Qed.

Lemma flightControls_bounded_and_prioritised_witness :
  GameManager.flightControls ∅ = AircraftControls.mk 0 0 0 0 0 /\
  AircraftControls.pitch
    (GameManager.flightControls (<["s" := true]> (<["w" := true]> ∅)))
  = - AIRCRAFT.CONTROLS.INPUT.PITCH_VALUE.
Proof.
  split.
  - apply (flightControls_bounded_and_prioritised ∅). intros key.
    unfold GameManager.held. now rewrite lookup_empty.
  - destruct (flightControls_bounded_and_prioritised (<["s" := true]> (<["w" := true]> ∅)))
      as (_ & _ & _ & Hw & _).
    apply Hw. reflexivity.
Defined.

(** ** From a key event to the engine *)

Lemma processControls_throttle (rawControls : AircraftControls.t) (e : AircraftPhysics.t) :
  AircraftControls.throttle (snd (processControls rawControls e))
  = AircraftControls.throttle rawControls.
Proof.
  unfold processControls. cbv zeta.
  destruct (if Rlt_dec (AircraftControls.roll rawControls) 0 then _ else _) as [tb bm].
  destruct (_ && _); [destruct (Rlt_dec AIRCRAFT.CONTROLS.BANK.MIN_ANGLE_FOR_TURN _) |];
    reflexivity.
Qed.

Lemma applyControlInputs_hasUserInput (rawControls : AircraftControls.t)
    (e : AircraftPhysics.t) :
  hasUserInput (applyControlInputs rawControls e) = true.
Proof.
  unfold applyControlInputs.
  destruct (processControls rawControls e) as [e1 controls]. reflexivity.
Qed.

Lemma flightControls_throttle (keyState : gmap string bool) :
  AircraftControls.throttle (GameManager.flightControls keyState)
  = if GameManager.held keyState " " then AIRCRAFT.CONTROLS.INPUT.THROTTLE_VALUE
    else if GameManager.held keyState "Shift"
         then - AIRCRAFT.CONTROLS.INPUT.THROTTLE_VALUE else 0.
Proof.
  unfold GameManager.flightControls. repeat case_match; reflexivity.
Qed.

(** X23.  The throttle moves once per key event, not once per frame.  On
    a game whose scene is set up, an event that leaves Space held raises
    the throttle by [THROTTLE_VALUE * THROTTLE_CHANGE_RATE], up to
    [MAX_THROTTLE]; one that leaves Shift held without Space lowers it
    by as much, down to 0; any other event leaves the throttle alone.
    Every event, also the release of the last key, marks the engine as
    having user input.  Before the scene is set up the listener does
    nothing. *)
Theorem key_event_moves_throttle (keyState : gmap string bool) (e : AircraftPhysics.t)
    (Hrange : throttleInRange e) :
  let e' := GameManager.flightControlsListener true keyState e in
  let step := AIRCRAFT.CONTROLS.INPUT.THROTTLE_VALUE * THROTTLE_CHANGE_RATE in
  let t := AircraftState.throttle (state e) in
  hasUserInput e' = true /\
  AircraftState.throttle (state e')
  = (if GameManager.held keyState " " then Rmin MAX_THROTTLE (t + step)
     else if GameManager.held keyState "Shift" then Rmax 0 (t - step)
     else t) /\
  GameManager.flightControlsListener false keyState e = e.
Proof.
  cbv zeta. unfold GameManager.flightControlsListener. cbn [negb].
  split; [apply applyControlInputs_hasUserInput |]. split; [| reflexivity].
  destruct (applyControlInputs_state (GameManager.flightControls keyState) e)
    as (_ & _ & Ht & _).
  cbv zeta in Ht. rewrite processControls_throttle, flightControls_throttle in Ht.
  rewrite Ht. clear Ht.
  unfold throttleInRange in Hrange.
  unfold AIRCRAFT.CONTROLS.INPUT.THROTTLE_VALUE, THROTTLE_CHANGE_RATE,
    AIRCRAFT.THROTTLE_CHANGE_RATE, MAX_THROTTLE, AIRCRAFT.MAX_THROTTLE in *.
  destruct (GameManager.held keyState " ");
    [| destruct (GameManager.held keyState "Shift")];
    destruct (Req_dec_T _ 0) as [H0 | H0]; try lra;
    unfold Rmax, Rmin; repeat case_if; lra.
Qed.

Lemma key_event_moves_throttle_witness :
  AircraftState.throttle
    (state (GameManager.flightControlsListener true (<[" " := true]> ∅)
              (constructor 0 0)))
  = Rmin MAX_THROTTLE (0 + AIRCRAFT.CONTROLS.INPUT.THROTTLE_VALUE * THROTTLE_CHANGE_RATE).
Proof.
  assert (Hrange : throttleInRange (constructor 0 0)).
  { unfold throttleInRange, constructor, MAX_THROTTLE, AIRCRAFT.MAX_THROTTLE.
    cbn. lra. }
  destruct (key_event_moves_throttle (<[" " := true]> ∅) (constructor 0 0) Hrange)
    as (_ & Ht & _).
  exact Ht.
Defined.

(** ** The chase camera *)

Lemma calculateCameraPosition_offset (state : AircraftState.t) (m : ThreeJsManager.t) :
  let o := ThreeJsManager.cameraOffset m in
  let yaw := Euler.y (AircraftState.rotation state) in
  Vector3.sub (ThreeJsManager.calculateCameraPosition state m)
              (AircraftState.position state)
  = Vector3.mk (cos yaw * Vector3.x o + sin yaw * Vector3.z o)
               (Vector3.y o - Euler.x (AircraftState.rotation state)
                              * CHASE_CAMERA.PITCH_INFLUENCE * 50)
               (- sin yaw * Vector3.x o + cos yaw * Vector3.z o).
Proof.
  cbv zeta. unfold ThreeJsManager.calculateCameraPosition. cbv zeta.
  destruct (Rlt_dec 0 CHASE_CAMERA.PITCH_INFLUENCE) as [_ | Hn];
    [| unfold CHASE_CAMERA.PITCH_INFLUENCE in Hn; lra].
  unfold Vector3.sub, Vector3.add, applyYawMatrix, Vector3.with_y.
  cbn [Vector3.x Vector3.y Vector3.z]. f_equal; lra.
Qed.

(** X24.  The chase camera keeps its horizontal distance: wherever the
    aircraft is and however it is turned, the camera target is as far
    from the aircraft in the horizontal plane as the configured offset
    is long there; the yaw only turns the offset.  The pitch moves the
    target vertically only, by [PITCH_INFLUENCE * 50] per radian,
    downwards for a positive pitch angle; the roll has no effect. *)
Theorem camera_keeps_horizontal_distance (state : AircraftState.t) (m : ThreeJsManager.t) :
  let d := Vector3.sub (ThreeJsManager.calculateCameraPosition state m)
                       (AircraftState.position state) in
  let o := ThreeJsManager.cameraOffset m in
  Vector3.x d * Vector3.x d + Vector3.z d * Vector3.z d
  = Vector3.x o * Vector3.x o + Vector3.z o * Vector3.z o /\
  Vector3.y d = Vector3.y o - 10 * Euler.x (AircraftState.rotation state).
Proof.
  cbv zeta. rewrite calculateCameraPosition_offset.
  cbn [Vector3.x Vector3.y Vector3.z]. unfold CHASE_CAMERA.PITCH_INFLUENCE.
  split; [| lra].
  pose proof (sin2_cos2 (Euler.y (AircraftState.rotation state))) as Hsc.
  unfold Rsqr in Hsc.
  set (s := sin _) in *. set (c := cos _) in *.
  set (ox := Vector3.x _). set (oz := Vector3.z _).
  replace (ox * ox + oz * oz) with ((s * s + c * c) * (ox * ox + oz * oz))
    by (rewrite Hsc; ring).
  ring.
Qed.

Lemma cycleCameraMode_fields (state : AircraftState.t) (m : ThreeJsManager.t) :
  let m' := ThreeJsManager.cycleCameraMode state m in
  ThreeJsManager.cameraMode m'
  = match ThreeJsManager.cameraMode m with
    | CHASE_CAMERA.CLOSE => CHASE_CAMERA.MEDIUM
    | CHASE_CAMERA.MEDIUM => CHASE_CAMERA.FAR
    | CHASE_CAMERA.FAR => CHASE_CAMERA.CLOSE
    end /\
  ThreeJsManager.cameraOffset m' = CHASE_CAMERA.MODES (ThreeJsManager.cameraMode m') /\
  ThreeJsManager.currentCameraPosition m' = ThreeJsManager.currentCameraPosition m /\
  ThreeJsManager.targetCameraPosition m' = ThreeJsManager.calculateCameraPosition state m'.
Proof.
  cbv zeta. unfold ThreeJsManager.cycleCameraMode.
  destruct (ThreeJsManager.cameraMode m); repeat split.
Qed.

Lemma handleCameraControls_offset (key : string) (state : AircraftState.t)
    (m : ThreeJsManager.t) :
  ThreeJsManager.cameraOffset m = CHASE_CAMERA.MODES (ThreeJsManager.cameraMode m) ->
  let m' := ThreeJsManager.handleCameraControls key state m in
  ThreeJsManager.cameraOffset m' = CHASE_CAMERA.MODES (ThreeJsManager.cameraMode m').
Proof.
  intros Hm. cbv zeta. unfold ThreeJsManager.handleCameraControls.
  destruct (_ || _); [apply cycleCameraMode_fields | exact Hm].
Qed.

Lemma pressKeys_offset (keys : list (string * AircraftState.t)) (m : ThreeJsManager.t) :
  ThreeJsManager.cameraOffset m = CHASE_CAMERA.MODES (ThreeJsManager.cameraMode m) ->
  let m' := ThreeJsManager.pressKeys keys m in
  ThreeJsManager.cameraOffset m' = CHASE_CAMERA.MODES (ThreeJsManager.cameraMode m').
Proof.
  revert m. induction keys as [| k keys IH]; intros m Hm; [exact Hm |].
  cbn. apply IH. now apply handleCameraControls_offset.
Qed.

(** X25.  The camera offset always belongs to the camera mode: after
    [initialize] and any sequence of key presses, at whatever aircraft
    states, the offset is the configured one of the current mode.  Only
    the keys c and C change the mode, and three presses of them return
    to the mode and offset one started from. *)
Theorem camera_offset_follows_mode (keys : list (string * AircraftState.t))
    (state0 s1 s2 s3 : AircraftState.t) (key : string) :
  let m := ThreeJsManager.pressKeys keys
             (ThreeJsManager.initialize state0 ThreeJsManager.initial) in
  let thrice :=
    ThreeJsManager.handleCameraControls "c" s3
      (ThreeJsManager.handleCameraControls "C" s2
         (ThreeJsManager.handleCameraControls "c" s1 m)) in
  ThreeJsManager.cameraOffset m = CHASE_CAMERA.MODES (ThreeJsManager.cameraMode m) /\
  ThreeJsManager.cameraMode thrice = ThreeJsManager.cameraMode m /\
  ThreeJsManager.cameraOffset thrice = ThreeJsManager.cameraOffset m /\
  (key <> "c" -> key <> "C" -> ThreeJsManager.handleCameraControls key s1 m = m).
Proof.
  cbv zeta.
  set (m := ThreeJsManager.pressKeys keys _).
  assert (Hm : ThreeJsManager.cameraOffset m
               = CHASE_CAMERA.MODES (ThreeJsManager.cameraMode m)).
  { apply pressKeys_offset. reflexivity. }
  split; [exact Hm |].
  assert (Hmode : ThreeJsManager.cameraMode
                    (ThreeJsManager.handleCameraControls "c" s3
                       (ThreeJsManager.handleCameraControls "C" s2
                          (ThreeJsManager.handleCameraControls "c" s1 m)))
                  = ThreeJsManager.cameraMode m).
  { change (ThreeJsManager.cameraMode
              (ThreeJsManager.cycleCameraMode s3
                 (ThreeJsManager.cycleCameraMode s2
                    (ThreeJsManager.cycleCameraMode s1 m)))
            = ThreeJsManager.cameraMode m).
    destruct (cycleCameraMode_fields s1 m) as (H1 & _).
    destruct (cycleCameraMode_fields s2 (ThreeJsManager.cycleCameraMode s1 m)) as (H2 & _).
    destruct (cycleCameraMode_fields s3
                (ThreeJsManager.cycleCameraMode s2 (ThreeJsManager.cycleCameraMode s1 m)))
      as (H3 & _).
    cbv zeta in *. rewrite H3, H2, H1.
    destruct (ThreeJsManager.cameraMode m); reflexivity. }
  split; [exact Hmode |]. split.
  - rewrite Hm, <- Hmode.
    do 3 apply handleCameraControls_offset. exact Hm.
  - intros Hc HC. unfold ThreeJsManager.handleCameraControls.
    rewrite !bool_decide_eq_false_2 by assumption. reflexivity.
Qed.

Lemma camera_offset_follows_mode_witness :
  ThreeJsManager.handleCameraControls "x" (state (constructor 0 0))
    (ThreeJsManager.pressKeys []
       (ThreeJsManager.initialize (state (constructor 0 0)) ThreeJsManager.initial))
  = ThreeJsManager.pressKeys []
      (ThreeJsManager.initialize (state (constructor 0 0)) ThreeJsManager.initial).
Proof.
  destruct (camera_offset_follows_mode [] (state (constructor 0 0))
              (state (constructor 0 0)) (state (constructor 0 0))
              (state (constructor 0 0)) "x") as (_ & _ & _ & Hother).
  apply Hother; discriminate.
Defined.

Lemma updateCamera_step (state : AircraftState.t) (m : ThreeJsManager.t) :
  let m' := ThreeJsManager.updateCamera true state m in
  ThreeJsManager.cameraOffset m' = ThreeJsManager.cameraOffset m /\
  ThreeJsManager.targetCameraPosition m' = ThreeJsManager.calculateCameraPosition state m /\
  ThreeJsManager.calculateCameraPosition state m'
  = ThreeJsManager.calculateCameraPosition state m /\
  Vector3.sub (ThreeJsManager.currentCameraPosition m')
              (ThreeJsManager.calculateCameraPosition state m)
  = Vector3.multiplyScalar (1 - CHASE_CAMERA.SMOOTHING_FACTOR)
      (Vector3.sub (ThreeJsManager.currentCameraPosition m)
                   (ThreeJsManager.calculateCameraPosition state m)).
Proof.
  cbv zeta. unfold ThreeJsManager.updateCamera. cbn [negb].
  cbn [ThreeJsManager.cameraOffset ThreeJsManager.targetCameraPosition
       ThreeJsManager.currentCameraPosition].
  repeat split.
  unfold Vector3.sub, Vector3.lerp, Vector3.multiplyScalar.
  cbn [Vector3.x Vector3.y Vector3.z]. f_equal; ring.
Qed.

Lemma updateCamera_iter (n : nat) (state : AircraftState.t) (m : ThreeJsManager.t) :
  let m' := Nat.iter n (ThreeJsManager.updateCamera true state) m in
  ThreeJsManager.calculateCameraPosition state m'
  = ThreeJsManager.calculateCameraPosition state m /\
  Vector3.sub (ThreeJsManager.currentCameraPosition m')
              (ThreeJsManager.calculateCameraPosition state m)
  = Vector3.multiplyScalar ((1 - CHASE_CAMERA.SMOOTHING_FACTOR) ^ n)
      (Vector3.sub (ThreeJsManager.currentCameraPosition m)
                   (ThreeJsManager.calculateCameraPosition state m)).
Proof.
  cbv zeta. induction n as [| n [IHt IHc]].
  - split; [reflexivity |]. unfold Nat.iter; cbn [nat_rect]. rewrite pow_O.
    unfold Vector3.multiplyScalar, Vector3.sub. cbn [Vector3.x Vector3.y Vector3.z].
    f_equal; ring.
  - rewrite Nat.iter_succ.
    destruct (updateCamera_step state
                (Nat.iter n (ThreeJsManager.updateCamera true state) m))
      as (_ & _ & Ht & Hc).
    cbv zeta in Ht, Hc. rewrite IHt in Ht, Hc. split; [exact Ht |].
    rewrite Hc, IHc. rewrite <- tech_pow_Rmult.
    unfold Vector3.multiplyScalar. cbn [Vector3.x Vector3.y Vector3.z].
    f_equal; ring.
Qed.

(** X26.  While the aircraft holds still the camera closes in on its
    target geometrically: after [n] frames at the same aircraft state
    the camera's displacement from the target is the initial one times
    [(1 - SMOOTHING_FACTOR) ^ n], and the target recorded is the one
    computed from that state.  Without an aircraft model the camera is
    not moved. *)
Theorem camera_converges_to_target (n : nat) (state : AircraftState.t)
    (m : ThreeJsManager.t) :
  let target := ThreeJsManager.calculateCameraPosition state m in
  let m' := Nat.iter n (ThreeJsManager.updateCamera true state) m in
  Vector3.sub (ThreeJsManager.currentCameraPosition m') target
  = Vector3.multiplyScalar ((1 - CHASE_CAMERA.SMOOTHING_FACTOR) ^ n)
      (Vector3.sub (ThreeJsManager.currentCameraPosition m) target) /\
  (0 < n -> ThreeJsManager.targetCameraPosition m' = target)%nat /\
  ThreeJsManager.updateCamera false state m = m.
Proof.
  cbv zeta. split; [apply updateCamera_iter |]. split; [| reflexivity].
  intros Hn. destruct n as [| n]; [lia |]. rewrite Nat.iter_succ.
  destruct (updateCamera_step state
              (Nat.iter n (ThreeJsManager.updateCamera true state) m))
    as (_ & Ht & _).
  cbv zeta in Ht. rewrite Ht. apply updateCamera_iter.
Qed.

Lemma camera_converges_to_target_witness :
  ThreeJsManager.targetCameraPosition
    (Nat.iter 2 (ThreeJsManager.updateCamera true (state (constructor 0 0)))
       ThreeJsManager.initial)
  = ThreeJsManager.calculateCameraPosition (state (constructor 0 0)) ThreeJsManager.initial.
Proof.
  destruct (camera_converges_to_target 2 (state (constructor 0 0)) ThreeJsManager.initial)
    as (_ & Ht & _).
  apply Ht. lia.
Defined.

(** ** The boundary indicator *)









(** ** The engine sound *)

Lemma targets_app (c1 c2 : list AudioManager.Command) :
  AudioManager.targets (c1 ++ c2) = AudioManager.targets c1 ++ AudioManager.targets c2.
Proof. unfold AudioManager.targets. apply flat_map_app. Qed.

Lemma targets_resume (suspended : bool) :
  AudioManager.targets (if suspended then [AudioManager.Resume] else []) = [].
Proof. destruct suspended; reflexivity. Qed.

(** X28.  The engine sound is never silenced and never over-driven by
    [updateSound]: every volume it sets lies between 0.1 and 0.8,
    whatever the speed.  A sound that plays keeps playing, a moving
    aircraft starts it, and before the audio system is initialised the
    call does nothing. *)
Theorem engine_sound_volume_in_range (suspended : bool) (speed : R) (a : AudioManager.t) :
  let r := AudioManager.updateSound suspended speed a in
  Forall (fun v => 0.1 <= v <= 0.8) (AudioManager.targets (snd r)) /\
  (AudioManager.isPlaying a = true -> AudioManager.isPlaying (fst r) = true) /\
  (AudioManager.initialized a = true -> 0.01 < speed ->
     AudioManager.isPlaying (fst r) = true) /\
  (AudioManager.initialized a = false -> r = (a, [])).
Proof.
  cbv zeta. unfold AudioManager.updateSound. cbv zeta.
  assert (Hvol : Rltb 0.01 speed = true ->
                 0.1 <= 0.1 + (0.8 - 0.1) * Math_pow (Rmin (speed / 5) 1) 1.5 <= 0.8).
  { unfold Rltb. case_if; [| discriminate]. intros _.
    assert (Hn : 0 < Rmin (speed / 5) 1 <= 1).
    { split; [apply Rmin_glb_lt; lra | apply Rmin_r]. }
    pose proof (Math_pow_damping (Rmin (speed / 5) 1) 1.5 Hn ltac:(lra)). lra. }
  assert (Hmoving : 0.01 < speed -> Rltb 0.01 speed = true).
  { intros H. unfold Rltb. case_if; [reflexivity | lra]. }
  destruct a as [init playing last].
  cbn [AudioManager.initialized AudioManager.isPlaying AudioManager.lastSpeed].
  destruct init; cbn [negb];
    [| repeat split; first [constructor | discriminate | reflexivity | idtac];
       intros; assumption].
  destruct (Rltb 0.01 speed) eqn:Hm; destruct playing; cbn [andb negb];
    cbn [AudioManager.initialized AudioManager.isPlaying AudioManager.lastSpeed];
    try destruct (Rltb (Rabs _) 0.05); cbn [andb fst snd AudioManager.isPlaying];
    rewrite ?targets_app, ?targets_resume; cbn [app AudioManager.targets flat_map];
    (split; [repeat (apply Forall_cons_2; [first [lra | apply Hvol; reflexivity] |]);
             apply Forall_nil_2 |]);
    repeat split; intros; first [reflexivity | discriminate | idtac];
    try (specialize (Hmoving ltac:(assumption)); congruence).
Qed.

Lemma engine_sound_volume_in_range_witness :
  AudioManager.isPlaying
    (fst (AudioManager.updateSound false 1 (AudioManager.mk true false 0))) = true.
Proof.
  apply (engine_sound_volume_in_range false 1 (AudioManager.mk true false 0));
    [reflexivity | lra].
Defined.

(** ** The flight data panel *)

(** X29.  What the panel derives from a state.  For any argument the
    two flags [isFlying] and [isGrounded] are complementary and the
    speed is not negative; an argument without a rotation is shown as a
    grounded aircraft at rest.  For an engine snapshot the panel's
    heading, which ends in [% 360], is at least 0 and below 360 as long
    as the yaw angle is at least -360 degrees; below that it is not
    normalised: it is above -360 and at most 0. *)
Theorem panel_heading_range (any : FlightPanel.AnyState) (s : AircraftState.t) :
  let p := FlightPanel.mapAircraftState any in
  let q := FlightPanel.mapAircraftState (FlightPanel.ofEngineState s) in
  let deg := MathUtils.radToDeg (Euler.y (AircraftState.rotation s)) in
  FlightPanel.isFlying p = negb (FlightPanel.isGrounded p) /\
  0 <= FlightPanel.speed p /\
  (FlightPanel.any_rotation any = None ->
     FlightPanel.isGrounded p = true /\ FlightPanel.speed p = 0 /\
     FlightPanel.altitude p = 0) /\
  (-360 <= deg -> 0 <= FlightPanel.heading q < 360) /\
  (deg < -360 -> -360 < FlightPanel.heading q <= 0).
Proof.
  cbv zeta. split; [| split; [| split; [| split]]].
  - unfold FlightPanel.mapAircraftState.
    destruct (FlightPanel.any_position any), (FlightPanel.any_velocity any),
      (FlightPanel.any_rotation any); cbn [FlightPanel.isFlying FlightPanel.isGrounded negb];
      try reflexivity.
    unfold Rltb, Rleb. repeat case_if; first [reflexivity | lra].
  - unfold FlightPanel.mapAircraftState.
    destruct (FlightPanel.any_position any), (FlightPanel.any_velocity any),
      (FlightPanel.any_rotation any); cbn [FlightPanel.speed]; try lra.
    pose proof (sqrt_pos (Vector3.x t0 * Vector3.x t0 + Vector3.z t0 * Vector3.z t0)). lra.
  - intros Hr. unfold FlightPanel.mapAircraftState. rewrite Hr.
    destruct (FlightPanel.any_position any), (FlightPanel.any_velocity any);
      repeat split.
  - intros Hdeg. unfold FlightPanel.mapAircraftState, FlightPanel.ofEngineState.
    cbn [FlightPanel.any_position FlightPanel.any_velocity FlightPanel.any_rotation
         FlightPanel.heading].
    apply js_rem_nonneg; lra.
  - intros Hdeg. unfold FlightPanel.mapAircraftState, FlightPanel.ofEngineState.
    cbn [FlightPanel.any_position FlightPanel.any_velocity FlightPanel.any_rotation
         FlightPanel.heading].
    apply js_rem_negative; lra.
Qed.

Lemma panel_heading_range_witness :
  let s := AircraftState.with_rotation (Euler.mk 0 0 0) (state (constructor 0 0)) in
  0 <= FlightPanel.heading (FlightPanel.mapAircraftState (FlightPanel.ofEngineState s)) < 360.
Proof.
  cbv zeta.
  apply (panel_heading_range
           (FlightPanel.ofEngineState (state (constructor 0 0)))
           (AircraftState.with_rotation (Euler.mk 0 0 0) (state (constructor 0 0)))).
  unfold MathUtils.radToDeg. cbn. rewrite Rmult_0_l. lra.
Defined.
